(** * SAM AI Insights: the ecosystem analyzer pipeline

    A shallow embedding of the parts of [ai_sam_insights] that the
    specification makes checkable statements about: the duplicate detector
    (similar models, renamed components, summary), the health score of the
    orchestrator, the fingerprint-keyed finding store, the scan-run state
    machine, the file selection of the three source scanners, the error
    collection of the Python scanner and the commented-code detector.

    Conventions.  Python [str] is [string]: ASCII text, character for
    character.  Python dicts with a fixed set of keys are records, lists are
    lists, [set] is stdpp's [gset].  A method that mutates [self.findings]
    takes the list it appends to and returns the extended list.  Library
    calls whose result the code only tests or stores ([hashlib], [json],
    [re] on the large marker tables, [ast.parse], [str.strip] and
    [str.rstrip] on the lines of a file) are Section variables.  The
    operations written out here that consult the Unicode database in Python
    (white space in [PyStr.strip], case folding under [re.IGNORECASE] and
    [\d] in [Re]) are written for ASCII; [PyStr.strip] serves the examples,
    and a statement that depends on [Re] for arbitrary names assumes
    [PyStr.isascii]. *)

From Stdlib Require Import String Ascii List ZArith QArith Qround Bool Arith Lia.
From Stdlib Require Import DecimalString Lqa Sorting.Permutation Sorting.Sorted.
From stdpp Require Import gmap strings list.

Import ListNotations.
Local Open Scope string_scope.
Local Open Scope list_scope.
Local Open Scope nat_scope.

(** ** Python string helpers *)

Module PyStr.

(** [prefix.startswith] on byte strings. *)
Fixpoint startswith (pre s : string) : bool :=
  match pre, s with
  | EmptyString, _ => true
  | String a pre', String b s' => Ascii.eqb a b && startswith pre' s'
  | String _ _, EmptyString => false
  end.

(** [needle in haystack] for strings. *)
Fixpoint contains (needle s : string) : bool :=
  startswith needle s ||
  match s with
  | EmptyString => false
  | String _ s' => contains needle s'
  end.

(** [x in names] for a list of strings. *)
Definition mem (x : string) (l : list string) : bool :=
  existsb (String.eqb x) l.

(** [sep.join(parts)]. *)
Fixpoint join (sep : string) (parts : list string) : string :=
  match parts with
  | [] => ""
  | [p] => p
  | p :: rest => p +:+ sep +:+ join sep rest
  end.

(** [s.isascii()]: every character is below 128. *)
Fixpoint isascii (s : string) : bool :=
  match s with
  | EmptyString => true
  | String c s' => (nat_of_ascii c <? 128) && isascii s'
  end.

(** [c.isspace()] for an ASCII character: tab to carriage return, the four
    separators 28 to 31 and the space.  Python also counts white space
    outside ASCII (U+0085, U+00A0, U+2003, U+3000 and others), which this
    test does not know: [strip] below is [str.strip] on ASCII text, and is
    used on the ASCII lines of the examples only. *)
Definition isspace (c : ascii) : bool :=
  let n := nat_of_ascii c in
  ((9 <=? n) && (n <=? 13)) || ((28 <=? n) && (n <=? 32)).

Fixpoint lstrip (s : string) : string :=
  match s with
  | String c s' => if isspace c then lstrip s' else s
  | EmptyString => EmptyString
  end.

Fixpoint rstrip (s : string) : string :=
  match s with
  | EmptyString => EmptyString
  | String c s' =>
      match rstrip s' with
      | EmptyString => if isspace c then EmptyString else String c EmptyString
      | r => String c r
      end
  end.

(** [s.strip()]. *)
Definition strip (s : string) : string := rstrip (lstrip s).

(** [str(n)] for a natural number. *)
Definition of_nat (n : nat) : string := NilEmpty.string_of_uint (Nat.to_uint n).

End PyStr.

(** ** The fragment of [re] used by [RENAME_PATTERNS]

    Every rename pattern is a literal, optionally followed by [\d+],
    optionally anchored with [^] or [$], and is always applied with
    [re.IGNORECASE].  [$] matches at the end of the string and just before a
    final newline.

    The fragment is exact on ASCII subjects.  On other text [re] does more:
    under [re.IGNORECASE] the letters [s] and [k] of a pattern also match
    U+017F and U+212A, and [\d] matches every Unicode decimal digit. *)

Module Re.

(** Case folding of an ASCII character. *)
Definition lower (c : ascii) : ascii :=
  let n := nat_of_ascii c in
  if (65 <=? n) && (n <=? 90) then ascii_of_nat (n + 32) else c.

Definition ieq (a b : ascii) : bool := Ascii.eqb (lower a) (lower b).

(** [\d] on an ASCII character. *)
Definition is_digit (c : ascii) : bool :=
  let n := nat_of_ascii c in (48 <=? n) && (n <=? 57).

Record pattern := {
  source : string;      (* the pattern text, reported as pattern_matched *)
  at_start : bool;      (* leading ^ *)
  literal : string;
  digits : bool;        (* trailing \d+ *)
  at_end : bool         (* trailing $ *)
}.

(** Consume the literal, case-insensitively; the rest of the subject. *)
Fixpoint eat_literal (lit s : string) : option string :=
  match lit, s with
  | EmptyString, _ => Some s
  | String a lit', String b s' => if ieq a b then eat_literal lit' s' else None
  | String _ _, EmptyString => None
  end.

Fixpoint eat_digits (s : string) : string :=
  match s with
  | String c s' => if is_digit c then eat_digits s' else s
  | EmptyString => s
  end.

(** The positions where [$] matches. *)
Definition at_eos (s : string) : bool :=
  match s with
  | EmptyString => true
  | String c EmptyString => Ascii.eqb c "010"
  | _ => false
  end.

(** Match the pattern at the head of [s]; the rest of [s] behind the match.
    [\d+] is greedy, and giving digits back never helps since only [$] can
    follow it. *)
Definition match_here (p : pattern) (s : string) : option string :=
  match eat_literal (literal p) s with
  | None => None
  | Some r =>
      let after_digits :=
        if digits p then
          match r with
          | String c _ => if is_digit c then Some (eat_digits r) else None
          | EmptyString => None
          end
        else Some r in
      match after_digits with
      | None => None
      | Some r' =>
          if at_end p then (if at_eos r' then Some r' else None) else Some r'
      end
  end.

Fixpoint search_from (p : pattern) (s : string) : bool :=
  match match_here p s with
  | Some _ => true
  | None =>
      match s with
      | String _ s' => search_from p s'
      | EmptyString => false
      end
  end.

(** [re.search(p, s, re.IGNORECASE)] as a truth value. *)
Definition search (p : pattern) (s : string) : bool :=
  if at_start p then
    match match_here p s with Some _ => true | None => false end
  else search_from p s.

(** Left-to-right replacement of the non-overlapping matches by the empty
    string; [skip] counts the characters of the current match still to drop. *)
Fixpoint sub_from (p : pattern) (skip : nat) (s : string) {struct s} : string :=
  match s with
  | EmptyString => EmptyString
  | String c s' =>
      match skip with
      | S k => sub_from p k s'
      | O =>
          match match_here p s with
          | Some r =>
              match String.length s - String.length r with
              | S k => sub_from p k s'
              | O => String c (sub_from p 0 s')
              end
          | None => String c (sub_from p 0 s')
          end
      end
  end.

(** [re.sub(p, '', s, flags=re.IGNORECASE)]. *)
Definition sub (p : pattern) (s : string) : string :=
  if at_start p then
    match match_here p s with Some r => r | None => s end
  else sub_from p 0 s.

End Re.

(** ** analyzers/duplicate_analyzer.py *)

Module DuplicateAnalyzer.

(** The three severities this analyzer writes, the keys of
    [severity_counts]. *)
Inductive severity := error | warning | info.

Definition suffix_pat (src lit : string) : Re.pattern :=
  {| Re.source := src; Re.at_start := false; Re.literal := lit;
     Re.digits := false; Re.at_end := true |}.

Definition prefix_pat (src lit : string) : Re.pattern :=
  {| Re.source := src; Re.at_start := true; Re.literal := lit;
     Re.digits := false; Re.at_end := false |}.

Definition word_pat (src : string) : Re.pattern :=
  {| Re.source := src; Re.at_start := false; Re.literal := src;
     Re.digits := false; Re.at_end := false |}.

(** The first rename pattern. *)
Definition old_pattern : Re.pattern := suffix_pat "_old$" "_old".

Definition RENAME_PATTERNS : list Re.pattern :=
  [ suffix_pat "_old$" "_old";
    suffix_pat "_backup$" "_backup";
    suffix_pat "_deprecated$" "_deprecated";
    suffix_pat "_legacy$" "_legacy";
    {| Re.source := "_v\d+$"; Re.at_start := false; Re.literal := "_v";
       Re.digits := true; Re.at_end := true |};
    prefix_pat "^old_" "old_";
    prefix_pat "^backup_" "backup_";
    prefix_pat "^deprecated_" "deprecated_";
    suffix_pat "_copy$" "_copy";
    suffix_pat "_temp$" "_temp";
    suffix_pat "_test$" "_test";
    word_pat "Original";
    word_pat "Copy" ].

Record rename_finding := {
  rf_type : string;
  renamed : string;
  original : option string;
  pattern_matched : string;
  rf_severity : severity;
  rf_recommendation : string
}.

(** The body of the loop over [names] in [_check_renames]: the findings one
    name contributes.  The inner loop stops at the first pattern that
    matches ([break]). *)
Definition check_name (names : list string) (component_type name : string)
    : list rename_finding :=
  if String.eqb name "" then []
  else
    match find (fun p => Re.search p name) RENAME_PATTERNS with
    | None => []
    | Some p =>
        let base_name := Re.sub p name in
        if PyStr.mem base_name names && negb (String.eqb base_name name) then
          [ {| rf_type := component_type; renamed := name;
               original := Some base_name;
               pattern_matched := Re.source p;
               rf_severity := warning;
               rf_recommendation :=
                 "Consider removing '" +:+ name +:+ "' if it's no longer needed" |} ]
        else if negb (String.eqb base_name name) then
          [ {| rf_type := component_type; renamed := name;
               original := None;
               pattern_matched := Re.source p;
               rf_severity := info;
               rf_recommendation :=
                 "'" +:+ name +:+
                 "' follows a rename pattern but no original found - verify if needed" |} ]
        else []
    end.

(** [_check_renames(names, component_type)], appending to
    [findings['renamed_components']]. *)
Definition _check_renames (names : list string) (component_type : string)
    (renamed_components : list rename_finding) : list rename_finding :=
  fold_left (fun acc name => acc ++ check_name names component_type name)
            names renamed_components.

(** *** Similar models *)

Record field_info := {
  name : string;          (* '' stands for a missing or empty name *)
  field_type : string
}.

Record model_info := {
  _name : option string;
  class_name : string;
  fields : list field_info;
  relative_path : string
}.

(** [model.get('_name') or model.get('class_name', 'Unknown')]. *)
Definition model_name (m : model_info) : string :=
  match _name m with
  | Some (String c s) => String c s
  | _ => class_name m
  end.

(** [set(f['name'] for f in model.get('fields', []) if f.get('name'))]. *)
Definition field_names (m : model_info) : gset string :=
  list_to_set
    (List.filter (fun n => negb (String.eqb n "")) (List.map name (fields m))).

(** An element of [models_by_fields]. *)
Record entry := {
  e_name : string;
  e_class_name : string;
  e_fields : gset string;
  e_file : string
}.

(** The first loop of [_find_similar_models]: nameless models and models
    with fewer than three distinct field names are skipped. *)
Definition entry_of (m : model_info) : list entry :=
  if String.eqb (model_name m) "" then []
  else if size (field_names m) <? 3 then []
  else [ {| e_name := model_name m; e_class_name := class_name m;
            e_fields := field_names m; e_file := relative_path m |} ].

Definition models_by_fields (models : list model_info) : list entry :=
  flat_map entry_of models.

(** [tuple(sorted([a, b]))]. *)
Definition pair_key (a b : string) : string * string :=
  if String.ltb b a then (b, a) else (a, b).

Record similar_finding := {
  model1 : string;
  model1_file : string;
  model2 : string;
  model2_file : string;
  similarity : Q;               (* the ratio itself; the code stores it as a
                                   percentage rounded to one decimal *)
  common_fields : list string;
  sf_severity : severity;
  sf_recommendation : string
}.

Definition intersection (a b : entry) : nat := size (e_fields a ∩ e_fields b).
Definition union (a b : entry) : nat := size (e_fields a ∪ e_fields b).

(** [intersection / union], for [union <> 0].  The quotient of two small
    integers is compared with 0.7 and 0.85; the rounding of the double
    division does not change the outcome of either comparison, so exact
    rationals are used. *)
Definition jaccard (a b : entry) : Q :=
  Z.of_nat (intersection a b) # Pos.of_nat (union a b).

Definition make_similar (a b : entry) : similar_finding :=
  {| model1 := e_name a; model1_file := e_file a;
     model2 := e_name b; model2_file := e_file b;
     similarity := jaccard a b;
     common_fields := elements (e_fields a ∩ e_fields b);
     sf_severity := if Qle_bool (85 # 100) (jaccard a b) then warning else info;
     sf_recommendation := "Consider using inheritance or a common base model" |}.

(** The state of the pairwise loop: the [compared] set and the findings. *)
Definition pair_state : Type := gset (string * string) * list similar_finding.

(** The body of the inner loop for [model1], [model2]. *)
Definition compare_pair (similarity_threshold : Q) (model1 : entry)
    (st : pair_state) (model2 : entry) : pair_state :=
  let key := pair_key (e_name model1) (e_name model2) in
  if bool_decide (key ∈ st.1) then st
  else
    let compared := {[ key ]} ∪ st.1 in
    if union model1 model2 =? 0 then (compared, st.2)
    else if Qle_bool similarity_threshold (jaccard model1 model2)
         then (compared, st.2 ++ [make_similar model1 model2])
         else (compared, st.2).

(** [for i, model1 in enumerate(l): for model2 in l[i+1:]: ...]. *)
Fixpoint pairwise (similarity_threshold : Q) (l : list entry) (st : pair_state)
    : pair_state :=
  match l with
  | [] => st
  | model1 :: rest =>
      pairwise similarity_threshold rest
        (fold_left (compare_pair similarity_threshold model1) rest st)
  end.

(** [_find_similar_models(similarity_threshold)], appending to
    [findings['similar_models']]. *)
Definition _find_similar_models (similarity_threshold : Q)
    (models : list model_info) (similar_models : list similar_finding)
    : list similar_finding :=
  (pairwise similarity_threshold (models_by_fields models) (∅, similar_models)).2.

(** The default argument of [_find_similar_models]. *)
Definition default_threshold : Q := 7 # 10.

(** *** Summary *)

(** A finding of one of the five grouping detectors (duplicate models,
    functions, methods, CSS classes, views): what the summary reads. *)
Record group_finding := {
  gf_key : string;
  gf_count : nat;
  gf_severity : severity
}.

Record findings := {
  duplicate_models : list group_finding;
  duplicate_functions : list group_finding;
  duplicate_methods : list group_finding;
  duplicate_css_classes : list group_finding;
  duplicate_views : list group_finding;
  similar_models : list similar_finding;
  renamed_components : list rename_finding
}.

Record severity_counts := {
  n_error : nat;
  n_warning : nat;
  n_info : nat
}.

Record summary := {
  s_duplicate_models : nat;
  s_duplicate_functions : nat;
  s_duplicate_methods : nat;
  s_duplicate_css_classes : nat;
  s_duplicate_views : nat;
  s_similar_models : nat;
  s_renamed_components : nat;
  total_issues : nat;
  s_severity_counts : severity_counts
}.

(** [severity_counts[severity] += 1]. *)
Definition bump (c : severity_counts) (s : severity) : severity_counts :=
  match s with
  | error => {| n_error := n_error c + 1; n_warning := n_warning c; n_info := n_info c |}
  | warning => {| n_error := n_error c; n_warning := n_warning c + 1; n_info := n_info c |}
  | info => {| n_error := n_error c; n_warning := n_warning c; n_info := n_info c + 1 |}
  end.

(** The severities in the order of the counting loop: the seven categories,
    [similar_models] included. *)
Definition counted_severities (f : findings) : list severity :=
  List.map gf_severity (duplicate_models f) ++
  List.map gf_severity (duplicate_functions f) ++
  List.map gf_severity (duplicate_methods f) ++
  List.map gf_severity (duplicate_css_classes f) ++
  List.map gf_severity (duplicate_views f) ++
  List.map sf_severity (similar_models f) ++
  List.map rf_severity (renamed_components f).

Definition _generate_summary (f : findings) : summary :=
  {| s_duplicate_models := length (duplicate_models f);
     s_duplicate_functions := length (duplicate_functions f);
     s_duplicate_methods := length (duplicate_methods f);
     s_duplicate_css_classes := length (duplicate_css_classes f);
     s_duplicate_views := length (duplicate_views f);
     s_similar_models := length (similar_models f);
     s_renamed_components := length (renamed_components f);
     total_issues :=
       list_sum [ length (duplicate_models f);
                  length (duplicate_functions f);
                  length (duplicate_methods f);
                  length (duplicate_css_classes f);
                  length (duplicate_views f);
                  length (renamed_components f) ];
     s_severity_counts :=
       fold_left bump (counted_severities f)
                 {| n_error := 0; n_warning := 0; n_info := 0 |} |}.

Definition severity_str (s : severity) : string :=
  match s with
  | error => "error"
  | warning => "warning"
  | info => "info"
  end.

(** *** Reading the summary *)

(** The counter [severity_counts[s]]. *)
Definition counter (c : severity_counts) (s : severity) : nat :=
  match s with
  | error => n_error c
  | warning => n_warning c
  | info => n_info c
  end.

Definition severity_eqb (a b : severity) : bool :=
  match a, b with
  | error, error | warning, warning | info, info => true
  | _, _ => false
  end.

Definition occurrences (s : severity) (l : list severity) : nat :=
  length (List.filter (severity_eqb s) l).

(** The findings dict with one more similar-model finding. *)
Definition add_similar (f : findings) (x : similar_finding) : findings :=
  {| duplicate_models := duplicate_models f;
     duplicate_functions := duplicate_functions f;
     duplicate_methods := duplicate_methods f;
     duplicate_css_classes := duplicate_css_classes f;
     duplicate_views := duplicate_views f;
     similar_models := similar_models f ++ [x];
     renamed_components := renamed_components f |}.

(** *** The findings of rename detection for a name ending in [_old] *)

(** The finding when the name without the marker is among the names. *)
Definition superseded (component_type base_name : string) : rename_finding :=
  {| rf_type := component_type;
     renamed := base_name +:+ "_old";
     original := Some base_name;
     pattern_matched := "_old$";
     rf_severity := warning;
     rf_recommendation :=
       "Consider removing '" +:+ (base_name +:+ "_old") +:+
       "' if it's no longer needed" |}.

(** The finding when it is not. *)
Definition leftover (component_type base_name : string) : rename_finding :=
  {| rf_type := component_type;
     renamed := base_name +:+ "_old";
     original := None;
     pattern_matched := "_old$";
     rf_severity := info;
     rf_recommendation :=
       "'" +:+ (base_name +:+ "_old") +:+
       "' follows a rename pattern but no original found - verify if needed" |}.

(** *** The pairs the loop visits *)

(** The pairs [(model1, model2)] of the two nested loops, in their order. *)
Fixpoint all_pairs (l : list entry) : list (entry * entry) :=
  match l with
  | [] => []
  | model1 :: rest => List.map (pair model1) rest ++ all_pairs rest
  end.

Definition entry_key (p : entry * entry) : string * string :=
  pair_key (e_name p.1) (e_name p.2).

Definition finding_key (f : similar_finding) : string * string :=
  pair_key (model1 f) (model2 f).

(** The pairs that get past the [compared] test: those whose key was not
    met before. *)
Fixpoint evaluated_pairs (compared : gset (string * string))
    (pairs : list (entry * entry)) : list (entry * entry) :=
  match pairs with
  | [] => []
  | p :: rest =>
      if bool_decide (entry_key p ∈ compared) then evaluated_pairs compared rest
      else p :: evaluated_pairs ({[ entry_key p ]} ∪ compared) rest
  end.

(** The test an evaluated pair has to pass to be reported. *)
Definition reportable (similarity_threshold : Q) (p : entry * entry) : bool :=
  negb (union p.1 p.2 =? 0) && Qle_bool similarity_threshold (jaccard p.1 p.2).

(** *** Models for examples *)

Definition char_field (n : string) : field_info :=
  {| name := n; field_type := "Char" |}.

(** Two classes named [ResPartner] in two modules, each extending
    res.partner by [_inherit], and a model with the fields of the second. *)
Definition partner_crm : model_info :=
  {| _name := None; class_name := "ResPartner";
     fields := List.map char_field ["lead_source"; "lead_score"; "campaign"];
     relative_path := "ai_sam_crm/models/res_partner.py" |}.

Definition partner_billing : model_info :=
  {| _name := None; class_name := "ResPartner";
     fields := List.map char_field ["iban"; "vat_number"; "payment_term"];
     relative_path := "ai_sam_billing/models/res_partner.py" |}.

Definition billing_profile : model_info :=
  {| _name := Some "billing.profile"; class_name := "BillingProfile";
     fields := List.map char_field ["iban"; "vat_number"; "payment_term"];
     relative_path := "ai_sam_billing/models/billing_profile.py" |}.

Definition billing_contact : model_info :=
  {| _name := Some "billing.contact"; class_name := "BillingContact";
     fields := List.map char_field ["iban"; "vat_number"; "payment_term"; "phone"];
     relative_path := "ai_sam_billing/models/billing_contact.py" |}.

(** [models_by_fields] entry of a model that qualifies. *)
Definition as_entry (m : model_info) : entry :=
  {| e_name := model_name m; e_class_name := class_name m;
     e_fields := field_names m; e_file := relative_path m |}.

End DuplicateAnalyzer.

(** ** Findings as the orchestrator reads them

    [_categorize_issues] reads two keys of a finding dict, ['severity'] and
    ['finding_type'], and stores the dict itself under ['details']. *)

Module Py.

Record item := {
  severity : option string;       (* item.get('severity') *)
  finding_type : option string;   (* item.get('finding_type') *)
  file : string
}.

(** [d.get(key, default)]. *)
Definition get (v : option string) (default : string) : string :=
  match v with
  | Some s => s
  | None => default
  end.

End Py.

(** ** analyzers/orphan_analyzer.py: the findings dict and its total *)

Module OrphanAnalyzer.

Record findings := {
  orphaned_python_files : list Py.item;
  orphaned_models : list Py.item;
  orphaned_views : list Py.item;
  orphaned_actions : list Py.item;
  orphaned_menus : list Py.item;
  dangling_field_refs : list Py.item;
  dangling_model_refs : list Py.item;
  orphaned_assets : list Py.item;
  unused_css_classes : list Py.item;
  missing_dependencies : list Py.item
}.

(** [summary['total_issues']]: one per dict in any category. *)
Definition total_issues (f : findings) : nat :=
  length (orphaned_python_files f) + length (orphaned_models f) +
  length (orphaned_views f) + length (orphaned_actions f) +
  length (orphaned_menus f) + length (dangling_field_refs f) +
  length (dangling_model_refs f) + length (orphaned_assets f) +
  length (unused_css_classes f) + length (missing_dependencies f).

End OrphanAnalyzer.

(** ** analyzers/external_path_analyzer.py: the findings dict and its summary *)

Module ExternalPathAnalyzer.

Record findings := {
  hardcoded_external_paths : list Py.item;
  relative_path_escapes : list Py.item;
  suspicious_file_operations : list Py.item;
  external_imports : list Py.item
}.

Record summary := {
  s_hardcoded_external_paths : nat;
  s_relative_path_escapes : nat;
  s_suspicious_file_operations : nat;
  s_external_imports : nat;
  total_findings : nat;
  critical_count : nat;
  warning_count : nat
}.

Definition is_critical (i : Py.item) : bool :=
  match Py.severity i with
  | Some s => String.eqb s "critical"
  | None => false
  end.

Definition all_items (f : findings) : list Py.item :=
  hardcoded_external_paths f ++ relative_path_escapes f ++
  suspicious_file_operations f ++ external_imports f.

Definition _generate_summary (f : findings) : summary :=
  {| s_hardcoded_external_paths := length (hardcoded_external_paths f);
     s_relative_path_escapes := length (relative_path_escapes f);
     s_suspicious_file_operations := length (suspicious_file_operations f);
     s_external_imports := length (external_imports f);
     total_findings :=
       length (hardcoded_external_paths f) + length (relative_path_escapes f) +
       length (suspicious_file_operations f) + length (external_imports f);
     critical_count := length (List.filter is_critical (all_items f));
     warning_count :=
       length (List.filter (fun i => negb (is_critical i)) (all_items f)) |}.

End ExternalPathAnalyzer.

(** ** analyzers/ecosystem_analyzer.py: issue buckets and health score *)

Module EcosystemAnalyzer.

(** The analyzer results the report is generated from. *)
Record results := {
  duplicate_findings : DuplicateAnalyzer.findings;
  orphan_findings : OrphanAnalyzer.findings;
  commented_python : list Py.item;
  commented_javascript : list Py.item;
  commented_xml : list Py.item;
  external_path_findings : ExternalPathAnalyzer.findings;
  python_errors : nat;     (* len(python_scan['errors']) *)
  xml_errors : nat         (* len(xml_scan['errors']) *)
}.

Record issue := {
  category : string;
  type_ : string;
  details : Py.item
}.

Record buckets := {
  critical_issues : list issue;
  warnings : list issue
}.

Definition group_item (g : DuplicateAnalyzer.group_finding) : Py.item :=
  {| Py.severity := Some (DuplicateAnalyzer.severity_str (DuplicateAnalyzer.gf_severity g));
     Py.finding_type := None;
     Py.file := DuplicateAnalyzer.gf_key g |}.

Definition rename_item (r : DuplicateAnalyzer.rename_finding) : Py.item :=
  {| Py.severity := Some (DuplicateAnalyzer.severity_str (DuplicateAnalyzer.rf_severity r));
     Py.finding_type := None;
     Py.file := DuplicateAnalyzer.renamed r |}.

(** The six duplicate categories the loop iterates, in its order.
    ['similar_models'] is not among them. *)
Definition duplicate_categories (f : DuplicateAnalyzer.findings)
    : list (string * list Py.item) :=
  [ ("duplicate_models", List.map group_item (DuplicateAnalyzer.duplicate_models f));
    ("duplicate_functions", List.map group_item (DuplicateAnalyzer.duplicate_functions f));
    ("duplicate_methods", List.map group_item (DuplicateAnalyzer.duplicate_methods f));
    ("duplicate_css_classes", List.map group_item (DuplicateAnalyzer.duplicate_css_classes f));
    ("duplicate_views", List.map group_item (DuplicateAnalyzer.duplicate_views f));
    ("renamed_components", List.map rename_item (DuplicateAnalyzer.renamed_components f)) ].

Definition orphan_categories (f : OrphanAnalyzer.findings)
    : list (string * list Py.item) :=
  [ ("orphaned_python_files", OrphanAnalyzer.orphaned_python_files f);
    ("orphaned_models", OrphanAnalyzer.orphaned_models f);
    ("orphaned_views", OrphanAnalyzer.orphaned_views f);
    ("orphaned_actions", OrphanAnalyzer.orphaned_actions f);
    ("orphaned_menus", OrphanAnalyzer.orphaned_menus f);
    ("dangling_field_refs", OrphanAnalyzer.dangling_field_refs f);
    ("dangling_model_refs", OrphanAnalyzer.dangling_model_refs f);
    ("orphaned_assets", OrphanAnalyzer.orphaned_assets f) ].

Definition commented_categories (r : results) : list (string * list Py.item) :=
  [ ("python", commented_python r);
    ("javascript", commented_javascript r);
    ("xml", commented_xml r) ].

Definition external_categories (f : ExternalPathAnalyzer.findings)
    : list (string * list Py.item) :=
  [ ("hardcoded_external_paths", ExternalPathAnalyzer.hardcoded_external_paths f);
    ("relative_path_escapes", ExternalPathAnalyzer.relative_path_escapes f);
    ("suspicious_file_operations", ExternalPathAnalyzer.suspicious_file_operations f);
    ("external_imports", ExternalPathAnalyzer.external_imports f) ].

(** [if severity == 'error': critical.append(issue)
     elif severity == 'warning': warnings.append(issue)]. *)
Definition file_by_error (b : buckets) (i : issue) : buckets :=
  let severity := Py.get (Py.severity (details i)) "info" in
  if String.eqb severity "error" then
    {| critical_issues := critical_issues b ++ [i]; warnings := warnings b |}
  else if String.eqb severity "warning" then
    {| critical_issues := critical_issues b; warnings := warnings b ++ [i] |}
  else b.

(** [if severity == 'critical': critical.append(issue)
     else: warnings.append(issue)]. *)
Definition file_by_critical (b : buckets) (i : issue) : buckets :=
  let severity := Py.get (Py.severity (details i)) "warning" in
  if String.eqb severity "critical" then
    {| critical_issues := critical_issues b ++ [i]; warnings := warnings b |}
  else
    {| critical_issues := critical_issues b; warnings := warnings b ++ [i] |}.

(** One [for category in ...: for item in ...:] loop nest. *)
Definition each_category (cat : string) (type_of : string -> Py.item -> string)
    (put : buckets -> issue -> buckets)
    (groups : list (string * list Py.item)) (b : buckets) : buckets :=
  fold_left
    (fun b g =>
       fold_left
         (fun b item =>
            put b {| category := cat; type_ := type_of g.1 item; details := item |})
         g.2 b)
    groups b.

Definition _categorize_issues (r : results) : buckets :=
  let b0 := {| critical_issues := []; warnings := [] |} in
  let b1 := each_category "duplicate" (fun c _ => c) file_by_error
              (duplicate_categories (duplicate_findings r)) b0 in
  let b2 := each_category "orphan" (fun c _ => c) file_by_error
              (orphan_categories (orphan_findings r)) b1 in
  let b3 := each_category "commented_code"
              (fun c item => Py.get (Py.finding_type item) ("commented_" +:+ c))
              file_by_error (commented_categories r) b2 in
  each_category "external_path" (fun c _ => c) file_by_critical
    (external_categories (external_path_findings r)) b3.

(** [int(x)] on a rational: truncation towards zero. *)
Definition py_int (x : Q) : Z :=
  if Qle_bool 0%Q x then Qfloor x else Qceiling x.

Definition qn (n : nat) : Q := inject_Z (Z.of_nat n).

(** [_calculate_health_score], on the report's two buckets and the
    analyzers' summaries.  The arithmetic is exact: the weights 0.5 and 0.3
    are the rationals 1/2 and 3/10. *)
Definition _calculate_health_score (b : buckets) (r : results) : Z :=
  let score : Q := 100%Q in
  let score := (score - qn (length (critical_issues b)) * 10)%Q in
  let score := (score - qn (length (warnings b)) * 2)%Q in
  let dup_summary := DuplicateAnalyzer._generate_summary (duplicate_findings r) in
  let score := (score - qn (DuplicateAnalyzer.total_issues dup_summary) * (1 # 2))%Q in
  let score := (score - qn (OrphanAnalyzer.total_issues (orphan_findings r)) * (3 # 10))%Q in
  let ext_summary := ExternalPathAnalyzer._generate_summary (external_path_findings r) in
  let score := (score - qn (ExternalPathAnalyzer.s_hardcoded_external_paths ext_summary) * 15)%Q in
  let score := (score - qn (ExternalPathAnalyzer.s_relative_path_escapes ext_summary) * 10)%Q in
  let score := (score - qn (ExternalPathAnalyzer.s_suspicious_file_operations ext_summary) * 8)%Q in
  let score := (score - qn (ExternalPathAnalyzer.s_external_imports ext_summary) * 5)%Q in
  let score := (score - qn (python_errors r) * 2)%Q in
  let score := (score - qn (xml_errors r) * 2)%Q in
  Z.max 0 (Z.min 100 (py_int score)).

(** [report['health_score']] as [_generate_report] sets it: the issues are
    categorized first, then the score is computed from the report. *)
Definition health_score (r : results) : Z :=
  _calculate_health_score (_categorize_issues r) r.

(** The results of a tree with no findings at all. *)
Definition no_duplicates : DuplicateAnalyzer.findings :=
  {| DuplicateAnalyzer.duplicate_models := [];
     DuplicateAnalyzer.duplicate_functions := [];
     DuplicateAnalyzer.duplicate_methods := [];
     DuplicateAnalyzer.duplicate_css_classes := [];
     DuplicateAnalyzer.duplicate_views := [];
     DuplicateAnalyzer.similar_models := [];
     DuplicateAnalyzer.renamed_components := [] |}.

Definition no_orphans : OrphanAnalyzer.findings :=
  {| OrphanAnalyzer.orphaned_python_files := [];
     OrphanAnalyzer.orphaned_models := [];
     OrphanAnalyzer.orphaned_views := [];
     OrphanAnalyzer.orphaned_actions := [];
     OrphanAnalyzer.orphaned_menus := [];
     OrphanAnalyzer.dangling_field_refs := [];
     OrphanAnalyzer.dangling_model_refs := [];
     OrphanAnalyzer.orphaned_assets := [];
     OrphanAnalyzer.unused_css_classes := [];
     OrphanAnalyzer.missing_dependencies := [] |}.

(** Exactly one hardcoded-external-path finding and nothing else. *)
Definition single_hardcoded_path (finding : Py.item) : results :=
  {| duplicate_findings := no_duplicates;
     orphan_findings := no_orphans;
     commented_python := [];
     commented_javascript := [];
     commented_xml := [];
     external_path_findings :=
       {| ExternalPathAnalyzer.hardcoded_external_paths := [finding];
          ExternalPathAnalyzer.relative_path_escapes := [];
          ExternalPathAnalyzer.suspicious_file_operations := [];
          ExternalPathAnalyzer.external_imports := [] |};
     python_errors := 0;
     xml_errors := 0 |}.

(** The same results with another duplicate-findings dict. *)
Definition with_duplicates (r : results) (f : DuplicateAnalyzer.findings)
    : results :=
  {| duplicate_findings := f;
     orphan_findings := orphan_findings r;
     commented_python := commented_python r;
     commented_javascript := commented_javascript r;
     commented_xml := commented_xml r;
     external_path_findings := external_path_findings r;
     python_errors := python_errors r;
     xml_errors := xml_errors r |}.

(** The finding [_analyze_js_file] records for a JavaScript line that names
    another repository. *)
Definition hardcoded_js_path : Py.item :=
  {| Py.severity := Some "critical";
     Py.finding_type := None;
     Py.file := "ai_sam/static/src/js/loader.js" |}.

End EcosystemAnalyzer.

(** ** models/insights_finding.py: the finding store *)

Module InsightsFinding.

Inductive status :=
  | new | acknowledged | in_progress | resolved | wont_fix | false_positive.

Definition status_eqb (a b : status) : bool :=
  match a, b with
  | new, new | acknowledged, acknowledged | in_progress, in_progress
  | resolved, resolved | wont_fix, wont_fix | false_positive, false_positive => true
  | _, _ => false
  end.

(** A row of [insights.finding].  Char, Text and Selection columns that may
    be unset are [option string]; Datetime is a number. *)
Record finding := {
  rec_id : nat;
  fingerprint : string;
  scan_id : option nat;
  first_seen_scan_id : option nat;
  first_seen_date : option Z;
  last_seen_date : option Z;
  occurrence_count : Z;
  status_ : status;
  severity : option string;
  category : option string;
  finding_type : option string;
  title : option string;
  description : option string;
  priority : option string;
  effort : option string;
  impact : option string;
  details_json : option string
}.

(** The [vals] dict of [find_or_create]: the keys its callers pass. *)
Record vals := {
  v_fingerprint : option string;
  v_severity : option string;
  v_category : option string;
  v_finding_type : option string;
  v_title : option string;
  v_description : option string;
  v_priority : option string;
  v_effort : option string;
  v_impact : option string;
  v_details_json : option string
}.

(** Truth value of [d.get(key)] for a string entry. *)
Definition truthy (v : option string) : bool :=
  match v with
  | Some (String _ _) => true
  | _ => false
  end.

(** [v or '']. *)
Definition or_empty (v : option string) : string :=
  match v with
  | Some s => s
  | None => ""
  end.

(** [a or b] on two optional strings. *)
Definition or_else (a b : option string) : option string :=
  if truthy a then a else b.

(** The table: rows in the order [search] returns them, and the next id. *)
Record table := {
  rows : list finding;
  next_id : nat
}.

Section Store.

(** [hashlib.sha256(s.encode()).hexdigest()]. *)
Variable sha256_hexdigest : string -> string.

(** [json.loads] of a details string, as the lookup of string entries;
    [None] for text that is not JSON. *)
Variable json_loads : string -> option (string -> option string).

Definition _generate_fingerprint (severity category finding_type details title
    : option string) : string :=
  let parts := [or_empty severity; or_empty category; or_empty finding_type] in
  let parts :=
    if match severity with Some s => String.eqb s "recommendation" | None => false end
       && truthy title
    then parts ++ [or_empty title]
    else if truthy details then
      let get :=
        match json_loads (or_empty details) with
        | Some d => d
        | None => fun _ => None
        end in
      let file_path := or_else (get "file") (get "relative_path") in
      let model_name := or_else (get "model") (get "model_name") in
      let xml_id := or_else (get "xml_id") (get "view_xml_id") in
      parts ++ (if truthy file_path then [or_empty file_path] else [])
            ++ (if truthy model_name then [or_empty model_name] else [])
            ++ (if truthy xml_id then [or_empty xml_id] else [])
    else parts in
  String.substring 0 32 (sha256_hexdigest (PyStr.join "|" parts)).

(** [self.search([('fingerprint', '=', fp)], limit=1)]. *)
Definition search (t : table) (fp : string) : option finding :=
  List.find (fun r => String.eqb (fingerprint r) fp) (rows t).

(** The record after [existing.write(update_vals)]. *)
Definition updated (scan : nat) (now : Z) (v : vals) (existing : finding) : finding :=
  let still_new := status_eqb (status_ existing) new in
  {| rec_id := rec_id existing;
     fingerprint := fingerprint existing;
     scan_id := Some scan;
     first_seen_scan_id := first_seen_scan_id existing;
     first_seen_date := first_seen_date existing;
     last_seen_date := Some now;
     occurrence_count := (occurrence_count existing + 1)%Z;
     status_ := status_ existing;
     severity :=
       if still_new && truthy (v_severity v) then v_severity v
       else severity existing;
     category := category existing;
     finding_type := finding_type existing;
     title := title existing;
     description :=
       if still_new && truthy (v_description v) then v_description v
       else description existing;
     priority := priority existing;
     effort := effort existing;
     impact := impact existing;
     details_json := details_json existing |}.

(** The record [self.create(vals)] inserts after [vals.update({...})]. *)
Definition created (id scan : nat) (now : Z) (fp : string) (v : vals) : finding :=
  {| rec_id := id;
     fingerprint := fp;
     scan_id := Some scan;
     first_seen_scan_id := Some scan;
     first_seen_date := Some now;
     last_seen_date := Some now;
     occurrence_count := 1%Z;
     status_ := new;
     severity := v_severity v;
     category := v_category v;
     finding_type := v_finding_type v;
     title := v_title v;
     description := v_description v;
     priority := v_priority v;
     effort := v_effort v;
     impact := v_impact v;
     details_json := v_details_json v |}.

(** [recordset.write]: the rows of the recordset, identified by id, are
    replaced. *)
Definition write (t : table) (id : nat) (r' : finding) : table :=
  {| rows := List.map (fun r => if Nat.eqb (rec_id r) id then r' else r) (rows t);
     next_id := next_id t |}.

(** The fingerprint [find_or_create] looks up. *)
Definition fingerprint_of (v : vals) : string :=
  if truthy (v_fingerprint v) then or_empty (v_fingerprint v)
  else _generate_fingerprint (v_severity v) (v_category v) (v_finding_type v)
                             (v_details_json v) (v_title v).

(** [find_or_create(scan_id, vals)] at time [now]: the table afterwards and
    the record returned. *)
Definition find_or_create (t : table) (now : Z) (scan : nat) (v : vals)
    : table * finding :=
  let fp := fingerprint_of v in
  match search t fp with
  | Some existing =>
      let r := updated scan now v existing in
      (write t (rec_id existing) r, r)
  | None =>
      let r := created (next_id t) scan now fp v in
      ({| rows := rows t ++ [r]; next_id := S (next_id t) |}, r)
  end.

End Store.

(** *** A small table for examples *)

(** A finding that a user has marked as resolved. *)
Definition resolved_finding : finding :=
  {| rec_id := 1;
     fingerprint := "0f3a";
     scan_id := Some 7;
     first_seen_scan_id := Some 7;
     first_seen_date := Some 1000%Z;
     last_seen_date := Some 1000%Z;
     occurrence_count := 2%Z;
     status_ := resolved;
     severity := Some "warning";
     category := Some "duplicate";
     finding_type := Some "duplicate_views";
     title := None;
     description := Some "reviewed";
     priority := None;
     effort := None;
     impact := None;
     details_json := None |}.

Definition triaged_table : table :=
  {| rows := [resolved_finding]; next_id := 2 |}.

(** A candidate that arrives with the fingerprint of [resolved_finding]. *)
Definition recurring_vals : vals :=
  {| v_fingerprint := Some "0f3a";
     v_severity := Some "critical";
     v_category := Some "duplicate";
     v_finding_type := Some "duplicate_views";
     v_title := None;
     v_description := Some "seen again";
     v_priority := None;
     v_effort := None;
     v_impact := None;
     v_details_json := None |}.

End InsightsFinding.

(** ** models/insights_scan.py: the scan run *)

Module InsightsScan.

Inductive state := draft | running | completed | failed.

Definition state_eqb (a b : state) : bool :=
  match a, b with
  | draft, draft | running, running | completed, completed | failed, failed => true
  | _, _ => false
  end.

(** A row of [insights.scan]: configuration and stored results. *)
Record scan := {
  id : nat;
  state_ : state;
  base_path : option string;
  module_filter : option string;
  include_registry : bool;
  use_default_settings : bool;
  health_score : Z;
  health_status : option string;
  critical_count : nat;
  warning_count : nat;
  report_json : option string;
  error_message : option string
}.

(** What [insights.scan.settings] contributes to a run. *)
Record settings := {
  default_scan_path : option string;
  has_modules : bool;                   (* bool(settings.module_ids) *)
  selected_module_filter : string;      (* get_selected_module_filter() *)
  settings_include_registry : bool
}.

(** The report of a successful analysis, as [_store_results] reads it. *)
Record report := {
  r_health_score : Z;
  r_health_status : string;
  r_critical_count : nat;
  r_warning_count : nat;
  r_json : string
}.

(** How the [try] body's call of the analyzer and of [_store_results] ends:
    with a report, or with an exception and its [str(e)]. *)
Inductive analysis := Report (r : report) | Raised (message : string).

(** The outcome of a method call on a scan: the row afterwards, the states
    written on the way, and the UserError raised, if any. *)
Record outcome := {
  after : scan;
  states_written : list state;
  user_error : option string
}.

Definition set_state (s : scan) (st : state) (err : option string) : scan :=
  {| id := id s; state_ := st; base_path := base_path s;
     module_filter := module_filter s; include_registry := include_registry s;
     use_default_settings := use_default_settings s;
     health_score := health_score s; health_status := health_status s;
     critical_count := critical_count s; warning_count := warning_count s;
     report_json := report_json s; error_message := err |}.

(** The [self.write] of [_store_results]. *)
Definition _store_results (s : scan) (r : report) : scan :=
  {| id := id s; state_ := state_ s; base_path := base_path s;
     module_filter := module_filter s; include_registry := include_registry s;
     use_default_settings := use_default_settings s;
     health_score := r_health_score r;
     health_status := Some (r_health_status r);
     critical_count := r_critical_count r;
     warning_count := r_warning_count r;
     report_json := Some (r_json r);
     error_message := error_message s |}.

Section Run.

Variable the_settings : settings.

(** [EcosystemAnalyzer(scan_path, module_filter).analyze(...)] followed by
    the storing of its results, for a path, a filter string and the registry
    flag. *)
Variable analyze : string -> option string -> bool -> analysis.

(** The configuration the [try] body settles on; [None] stands for the
    UserError about the missing scan path. *)
Definition configuration (s : scan) : option (string * option string * bool) :=
  let scan_path := base_path s in
  let module_filter_str := module_filter s in
  let scan_path :=
    if use_default_settings s
       && InsightsFinding.truthy (default_scan_path the_settings)
       && negb (InsightsFinding.truthy scan_path)
    then default_scan_path the_settings else scan_path in
  let module_filter_str :=
    if use_default_settings s
       && has_modules the_settings
       && negb (InsightsFinding.truthy module_filter_str)
    then Some (selected_module_filter the_settings) else module_filter_str in
  let registry :=
    if use_default_settings s then settings_include_registry the_settings
    else include_registry s in
  if InsightsFinding.truthy scan_path
  then Some (InsightsFinding.or_empty scan_path, module_filter_str, registry)
  else None.

Definition failing (s : scan) (message : string) : outcome :=
  {| after := set_state s failed (Some message);
     states_written := [running; failed];
     user_error := Some ("Scan failed: " +:+ message) |}.

(** [action_run_scan]. *)
Definition action_run_scan (s : scan) : outcome :=
  if negb (state_eqb (state_ s) draft || state_eqb (state_ s) failed) then
    {| after := s; states_written := [];
       user_error := Some "Can only run scans in draft or failed state" |}
  else
    let s1 := set_state s running None in
    match configuration s1 with
    | None =>
        failing s1
          "No scan path configured. Please set a default scan path in Settings or enter one manually."
    | Some (scan_path, module_filter_str, registry) =>
        match analyze scan_path
                (if InsightsFinding.truthy module_filter_str
                 then module_filter_str else None)
                registry with
        | Raised message => failing s1 message
        | Report r =>
            {| after := set_state (_store_results s1 r) completed None;
               states_written := [running; completed];
               user_error := None |}
        end
    end.

(** The methods of the model that act on an existing scan. *)
Inductive operation := run_scan | view_report | export_json.

(** [action_view_report] and [action_export_json] only build an action
    dict. *)
Definition perform (op : operation) (s : scan) : outcome :=
  match op with
  | run_scan => action_run_scan s
  | view_report | export_json =>
      {| after := s; states_written := []; user_error := None |}
  end.

End Run.

(** *** Storing the findings of a report *)

Record recommendation := {
  rc_priority : option string;
  rc_category : option string;
  rc_type : option string;
  rc_title : option string;
  rc_description : option string;
  rc_effort : option string;
  rc_impact : option string
}.

Section Findings.

Variable sha256_hexdigest : string -> string.
Variable json_loads : string -> option (string -> option string).

(** [json.dumps(details, default=str)]. *)
Variable json_dumps : Py.item -> string.

Definition issue_vals (severity : string) (i : EcosystemAnalyzer.issue)
    : InsightsFinding.vals :=
  {| InsightsFinding.v_fingerprint := None;
     InsightsFinding.v_severity := Some severity;
     InsightsFinding.v_category := Some (EcosystemAnalyzer.category i);
     InsightsFinding.v_finding_type := Some (EcosystemAnalyzer.type_ i);
     InsightsFinding.v_title := None;
     InsightsFinding.v_description := None;
     InsightsFinding.v_priority := None;
     InsightsFinding.v_effort := None;
     InsightsFinding.v_impact := None;
     InsightsFinding.v_details_json :=
       Some (json_dumps (EcosystemAnalyzer.details i)) |}.

Definition recommendation_vals (r : recommendation) : InsightsFinding.vals :=
  {| InsightsFinding.v_fingerprint := None;
     InsightsFinding.v_severity := Some "recommendation";
     InsightsFinding.v_category := rc_category r;
     InsightsFinding.v_finding_type :=
       Some (Py.get (rc_type r) "recommendation");
     InsightsFinding.v_title := rc_title r;
     InsightsFinding.v_description := rc_description r;
     InsightsFinding.v_priority := rc_priority r;
     InsightsFinding.v_effort := rc_effort r;
     InsightsFinding.v_impact := rc_impact r;
     InsightsFinding.v_details_json := None |}.

(** The loop state of [_create_findings]: the table and the two counters. *)
Record tally := {
  findings : InsightsFinding.table;
  new_count : nat;
  recurring_count : nat
}.

(** One iteration: upsert, then count by [occurrence_count == 1]. *)
Definition record_finding (now : Z) (scan : nat) (t : tally)
    (v : InsightsFinding.vals) : tally :=
  let '(tbl, finding) :=
    InsightsFinding.find_or_create sha256_hexdigest json_loads
      (findings t) now scan v in
  if Z.eqb (InsightsFinding.occurrence_count finding) 1 then
    {| findings := tbl; new_count := new_count t + 1;
       recurring_count := recurring_count t |}
  else
    {| findings := tbl; new_count := new_count t;
       recurring_count := recurring_count t + 1 |}.

(** [_create_findings] of scan [scan] at time [now]: critical issues, then
    warnings, then recommendations. *)
Definition _create_findings (now : Z) (scan : nat)
    (critical_issues warnings : list EcosystemAnalyzer.issue)
    (recommendations : list recommendation)
    (tbl : InsightsFinding.table) : tally :=
  fold_left (record_finding now scan)
    (List.map (issue_vals "critical") critical_issues ++
     List.map (issue_vals "warning") warnings ++
     List.map recommendation_vals recommendations)
    {| findings := tbl; new_count := 0; recurring_count := 0 |}.

End Findings.

(** *** A run for examples *)

Definition failed_scan : scan :=
  {| id := 3; state_ := failed;
     base_path := Some "/srv/odoo/addons";
     module_filter := Some "ai_sam,ai_sam_base";
     include_registry := false;
     use_default_settings := false;
     health_score := 0%Z;
     health_status := None;
     critical_count := 0;
     warning_count := 0;
     report_json := None;
     error_message := Some "[Errno 13] Permission denied" |}.

Definition completed_scan : scan :=
  {| id := 4; state_ := completed;
     base_path := Some "/srv/odoo/addons";
     module_filter := None;
     include_registry := false;
     use_default_settings := false;
     health_score := 75%Z;
     health_status := Some "Good";
     critical_count := 1;
     warning_count := 0;
     report_json := Some "{}";
     error_message := None |}.

Definition no_settings : settings :=
  {| default_scan_path := None; has_modules := false;
     selected_module_filter := ""; settings_include_registry := false |}.

Definition good_report : report :=
  {| r_health_score := 90%Z; r_health_status := "Excellent";
     r_critical_count := 0; r_warning_count := 5; r_json := "{}" |}.

(** An analysis that succeeds on every configuration. *)
Definition succeeding (_ : string) (_ : option string) (_ : bool) : analysis :=
  Report good_report.

(** *** Examples for the finding store *)

(** Two matches of one pattern on one line of a JavaScript file: the
    analyzer appends the same dict twice, and both are critical issues. *)
Definition repeated_path_issue : EcosystemAnalyzer.issue :=
  {| EcosystemAnalyzer.category := "external_path";
     EcosystemAnalyzer.type_ := "hardcoded_external_paths";
     EcosystemAnalyzer.details := EcosystemAnalyzer.hardcoded_js_path |}.

Definition empty_table : InsightsFinding.table :=
  {| InsightsFinding.rows := []; InsightsFinding.next_id := 1 |}.

End InsightsScan.

(** ** scanners/python_scanner.py: file selection and per-file scanning *)

Module PythonScanner.

(** A file found by [base_path.rglob('*.py')], as the parts of its path
    relative to the base path. *)
Definition path : Type := list string.

(** [str(py_file)]. *)
Definition path_str (base_path : string) (p : path) : string :=
  base_path +:+ "/" +:+ PyStr.join "/" p.

(** [str(file_path.relative_to(self.base_path))]. *)
Definition rel_str (p : path) : string := PyStr.join "/" p.

(** [str(file_path.parent.relative_to(self.base_path))]. *)
Definition rel_dir (p : path) : string :=
  match removelast p with
  | [] => "."
  | d => PyStr.join "/" d
  end.

(** [rel_path.parts[0] if rel_path.parts else '']. *)
Definition top_module (p : path) : string :=
  match p with
  | [] => ""
  | m :: _ => m
  end.

(** The two [continue] guards at the head of the loop in [scan]: whether
    [_scan_file] is reached for the file. *)
Definition selected (base_path : string) (module_filter : list string)
    (p : path) : bool :=
  if match module_filter with
     | [] => false
     | _ => negb (PyStr.mem (top_module p) module_filter)
     end
  then false
  else if PyStr.contains "__pycache__" (path_str base_path p)
          || PyStr.contains "venv" (path_str base_path p)
          || PyStr.contains ".git" (path_str base_path p)
  then false
  else true.

Record function_info := {
  fn_name : string;
  fn_class_name : option string;
  fn_relative_path : string
}.

Record import_info := {
  imp_type : string;             (* 'import' or 'from' *)
  imp_module : string;
  imp_name : option string;
  imp_file_path : string;
  imp_relative_path : string
}.

(** What [OdooModelVisitor] collected in one file. *)
Record visited := {
  v_models : list DuplicateAnalyzer.model_info;
  v_functions : list function_info;
  v_imports : list import_info
}.

(** How reading, [ast.parse] and the visitor end for a file. *)
Inductive parsed :=
  | Visited (v : visited)
  | SyntaxError (message : string) (lineno : option nat)
  | OtherException (message : string).

Record error_entry := {
  err_file : string;
  err_error : string;
  err_line : option (option nat)   (* absent for errors other than SyntaxError *)
}.

Record init_info := {
  init_imports : list import_info;
  init_path : string;
  init_relative_path : string
}.

Record scan_results := {
  models : list DuplicateAnalyzer.model_info;
  functions : list function_info;
  imports : list import_info;
  files_scanned : nat;
  errors : list error_entry;
  init_files : gmap string init_info;
  imported_modules : list string
}.

Definition empty_results : scan_results :=
  {| models := []; functions := []; imports := []; files_scanned := 0;
     errors := []; init_files := ∅; imported_modules := [] |}.

Definition with_model_path (rel : string) (m : DuplicateAnalyzer.model_info)
    : DuplicateAnalyzer.model_info :=
  {| DuplicateAnalyzer._name := DuplicateAnalyzer._name m;
     DuplicateAnalyzer.class_name := DuplicateAnalyzer.class_name m;
     DuplicateAnalyzer.fields := DuplicateAnalyzer.fields m;
     DuplicateAnalyzer.relative_path := rel |}.

Definition with_function_path (rel : string) (f : function_info) : function_info :=
  {| fn_name := fn_name f; fn_class_name := fn_class_name f;
     fn_relative_path := rel |}.

Definition with_import_path (full rel : string) (i : import_info) : import_info :=
  {| imp_type := imp_type i; imp_module := imp_module i; imp_name := imp_name i;
     imp_file_path := full; imp_relative_path := rel |}.

Definition add_error (r : scan_results) (e : error_entry) : scan_results :=
  {| models := models r; functions := functions r; imports := imports r;
     files_scanned := files_scanned r; errors := errors r ++ [e];
     init_files := init_files r; imported_modules := imported_modules r |}.

Section Scan.

Variable base_path : string.
Variable module_filter : list string.

(** Reading the file, [ast.parse] and [visitor.visit] for the file at a
    path. *)
Variable parse : path -> parsed.

(** [_scan_file(file_path)]. *)
Definition _scan_file (r : scan_results) (p : path) : scan_results :=
  match parse p with
  | Visited v =>
      let rel_path := rel_str p in
      let imps := List.map (with_import_path (path_str base_path p) rel_path)
                           (v_imports v) in
      {| models := models r ++ List.map (with_model_path rel_path) (v_models v);
         functions := functions r ++
                      List.map (with_function_path rel_path) (v_functions v);
         imports := imports r ++ imps;
         files_scanned := files_scanned r + 1;
         errors := errors r;
         init_files :=
           if String.eqb (List.last p "") "__init__.py" then
             <[ rel_dir p :=
                  {| init_imports := imps;
                     init_path := path_str base_path p;
                     init_relative_path := rel_dir p |} ]> (init_files r)
           else init_files r;
         imported_modules := imported_modules r |}
  | SyntaxError message lineno =>
      add_error r {| err_file := path_str base_path p;
                     err_error := "Syntax error: " +:+ message;
                     err_line := Some lineno |}
  | OtherException message =>
      add_error r {| err_file := path_str base_path p;
                     err_error := message;
                     err_line := None |}
  end.

(** The names [_analyze_init_files] collects from one import. *)
Definition imported_name (i : import_info) : list string :=
  if String.eqb (imp_type i) "from" && String.eqb (imp_module i) "." then
    (if InsightsFinding.truthy (imp_name i)
     then [InsightsFinding.or_empty (imp_name i)] else [])
  else if String.eqb (imp_type i) "from" && PyStr.startswith "." (imp_module i) then
    (if InsightsFinding.truthy (imp_name i)
     then [InsightsFinding.or_empty (imp_name i)] else [])
  else if String.eqb (imp_type i) "import" then
    (if String.eqb (imp_module i) "" then [] else [imp_module i])
  else [].

Definition _analyze_init_files (r : scan_results) : scan_results :=
  let names : gset string :=
    list_to_set
      (flat_map (fun kv => flat_map imported_name (init_imports kv.2))
                (map_to_list (init_files r))) in
  {| models := models r; functions := functions r; imports := imports r;
     files_scanned := files_scanned r; errors := errors r;
     init_files := init_files r; imported_modules := elements names |}.

(** [scan()] over the files [rglob] yields, in its order. *)
Definition scan (files : list path) : scan_results :=
  _analyze_init_files
    (fold_left
       (fun r p => if selected base_path module_filter p then _scan_file r p else r)
       files empty_results).

End Scan.

(** *** What one file contributes *)

Section Contribution.

Variable base_path : string.
Variable parse : path -> parsed.

(** The skip test on [str(py_file)]. *)
Definition in_skipped_directory (p : path) : bool :=
  PyStr.contains "__pycache__" (path_str base_path p)
  || PyStr.contains "venv" (path_str base_path p)
  || PyStr.contains ".git" (path_str base_path p).

Definition models_of (p : path) : list DuplicateAnalyzer.model_info :=
  match parse p with
  | Visited v => List.map (with_model_path (rel_str p)) (v_models v)
  | _ => []
  end.

Definition functions_of (p : path) : list function_info :=
  match parse p with
  | Visited v => List.map (with_function_path (rel_str p)) (v_functions v)
  | _ => []
  end.

Definition imports_of (p : path) : list import_info :=
  match parse p with
  | Visited v =>
      List.map (with_import_path (path_str base_path p) (rel_str p)) (v_imports v)
  | _ => []
  end.

Definition errors_of (p : path) : list error_entry :=
  match parse p with
  | Visited _ => []
  | SyntaxError message lineno =>
      [ {| err_file := path_str base_path p;
           err_error := "Syntax error: " +:+ message;
           err_line := Some lineno |} ]
  | OtherException message =>
      [ {| err_file := path_str base_path p;
           err_error := message;
           err_line := None |} ]
  end.

End Contribution.

(** *** A small tree for examples *)

Definition addons : string := "/srv/odoo/addons".

Definition models_py : path := ["ai_sam"; "models"; "partner.py"].
Definition broken_py : path := ["ai_sam"; "models"; "wizard.py"].
Definition base_py : path := ["ai_sam_base"; "models"; "base.py"].
Definition venv_py : path := ["ai_sam"; "venv"; "setup.py"].

Definition partner_model : DuplicateAnalyzer.model_info :=
  {| DuplicateAnalyzer._name := Some "res.partner.note";
     DuplicateAnalyzer.class_name := "PartnerNote";
     DuplicateAnalyzer.fields := [];
     DuplicateAnalyzer.relative_path := "" |}.

(** [wizard.py] does not parse; every other file holds one model. *)
Definition example_parse (p : path) : parsed :=
  if String.eqb (rel_str p) (rel_str broken_py) then
    SyntaxError "invalid syntax (wizard.py, line 3)" (Some 3)
  else
    Visited {| v_models := [partner_model]; v_functions := []; v_imports := [] |}.

End PythonScanner.

(** ** scanners/xml_scanner.py: file selection *)

Module XMLScanner.

Import PythonScanner.

(** The two [continue] guards at the head of the loop in [scan]: whether
    [_scan_file] is reached for the file. *)
Definition selected (base_path : string) (module_filter : list string)
    (p : path) : bool :=
  if match module_filter with
     | [] => false
     | _ => negb (PyStr.mem (top_module p) module_filter)
     end
  then false
  else if PyStr.contains ".git" (path_str base_path p)
          || PyStr.contains "node_modules" (path_str base_path p)
  then false
  else true.

(** The skip test on [str(xml_file)]. *)
Definition in_skipped_directory (base_path : string) (p : path) : bool :=
  PyStr.contains ".git" (path_str base_path p)
  || PyStr.contains "node_modules" (path_str base_path p).

Section Scan.

Variable base_path : string.
Variable module_filter : list string.

(** [self.scan_results] together with [self._field_refs]. *)
Variable results : Type.

(** [_scan_file(xml_file)]: parsing and the [_process_*] methods, with both
    [except] branches; taken as given, from the results before the file to
    the results after it. *)
Variable _scan_file : results -> path -> results.

(** The summary [field_usage_by_model] built after the loop. *)
Variable field_usage : results -> results.

(** [scan()] over the files [rglob('*.xml')] yields, in its order. *)
Definition scan (empty : results) (files : list path) : results :=
  field_usage
    (fold_left
       (fun r p => if selected base_path module_filter p then _scan_file r p else r)
       files empty).

End Scan.

End XMLScanner.

(** ** scanners/asset_scanner.py: file selection *)

Module AssetScanner.

Import PythonScanner.

(** The two [return] guards at the head of [_scan_js_file] and of
    [_scan_css_file], which are the same: whether the file is read. *)
Definition selected (base_path : string) (module_filter : list string)
    (p : path) : bool :=
  if existsb (fun skip => PyStr.contains skip (path_str base_path p))
       ["node_modules"; ".git"; "__pycache__"; "venv"]
  then false
  else if match module_filter with
          | [] => false
          | _ => negb (PyStr.mem (top_module p) module_filter)
          end
  then false
  else true.

(** The skip test on [str(file_path)]. *)
Definition in_skipped_directory (base_path : string) (p : path) : bool :=
  existsb (fun skip => PyStr.contains skip (path_str base_path p))
    ["node_modules"; ".git"; "__pycache__"; "venv"].

Section Scan.

Variable base_path : string.
Variable module_filter : list string.

(** [self.scan_results] together with [self._registered_assets]. *)
Variable results : Type.

(** [file_path.suffix]. *)
Variable suffix : path -> string.

(** The [try] statement in the loop of [_scan_manifests], of
    [_scan_js_file] and of [_scan_css_file]: reading the file and recording
    what the patterns find or the exception; taken as given. *)
Variable read_manifest : results -> path -> results.
Variable read_js : results -> path -> results.
Variable read_css : results -> path -> results.

Variable _find_orphaned_assets : results -> results.

(** [_scan_manifests()] over the files [rglob('__manifest__.py')] yields.
    The loop has no guard: [self.module_filter] is not read here. *)
Definition _scan_manifests (r : results) (manifests : list path) : results :=
  fold_left read_manifest manifests r.

Definition _scan_js_file (r : results) (p : path) : results :=
  if selected base_path module_filter p then read_js r p else r.

Definition _scan_css_file (r : results) (p : path) : results :=
  if selected base_path module_filter p then read_css r p else r.

(** The body of the loop over [rglob('*')] in [scan]. *)
Definition scan_file (r : results) (p : path) : results :=
  if PyStr.mem (suffix p) [".js"; ".mjs"] then _scan_js_file r p
  else if PyStr.mem (suffix p) [".css"; ".scss"; ".sass"; ".less"]
  then _scan_css_file r p
  else r.

(** [scan()] over what the two [rglob] calls yield. *)
Definition scan (empty : results) (manifests files : list path) : results :=
  _find_orphaned_assets
    (fold_left scan_file files (_scan_manifests empty manifests)).

End Scan.

(** *** A small tree for examples *)

Definition base_manifest : path := ["ai_sam_base"; "__manifest__.py"].
Definition chat_js : path := ["ai_sam"; "static"; "src"; "chat.js"].
Definition base_js : path := ["ai_sam_base"; "static"; "src"; "base.js"].

(** The suffix of the last part, for the names of the example tree. *)
Definition example_suffix (p : path) : string :=
  let name := List.last p "" in
  if String.eqb name "chat.js" || String.eqb name "base.js" then ".js"
  else if String.eqb name "__manifest__.py" then ".py"
  else "".

(** Results that only list the files read, in the order they were read. *)
Definition read_file (r : list string) (p : path) : list string :=
  r ++ [rel_str p].

End AssetScanner.

(** ** analyzers/commented_code_analyzer.py: blocks of comment lines *)

Module CommentedCodeAnalyzer.

Definition PYTHON_CODE_PATTERNS : list string :=
  [ "^\s*#\s*(def\s+\w+|class\s+\w+|if\s+|elif\s+|else:|for\s+|while\s+|try:|except|finally:)";
    "^\s*#\s*(return\s+|raise\s+|yield\s+|import\s+|from\s+)";
    "^\s*#\s*\w+\s*=\s*";
    "^\s*#\s*(self\.\w+|super\(\))";
    "^\s*#\s*@(api\.|staticmethod|classmethod|property)";
    "^\s*#\s*_\w+\s*=" ].

Definition JS_CODE_PATTERNS : list string :=
  [ "^\s*//\s*(function\s+\w+|const\s+|let\s+|var\s+)";
    "^\s*//\s*(return\s+|throw\s+|if\s*\(|else\s*{|for\s*\(|while\s*\()";
    "^\s*//\s*(import\s+|export\s+|class\s+\w+)";
    "^\s*//\s*(this\.\w+|super\()";
    "^\s*//\s*\w+\s*[=:]\s*";
    "^\s*//\s*(async\s+|await\s+|\.then\(|\.catch\()";
    "^\s*/\*\*?[\s\S]*?(function|class|const|let|var)\s+\w+" ].

Definition DELETION_MARKERS : list string :=
  [ "(?i)#\s*(TODO|FIXME|XXX|HACK)\s*:?\s*.*(delete|remove)\s*(this|code|file|method|function|class)";
    "(?i)#\s*(DEPRECATED|OBSOLETE|DEAD\s*CODE)\s*[-:]";
    "(?i)#\s*(TO\s*BE\s*REMOVED|REMOVE\s*ME|DELETE\s*ME|MARKED\s*FOR\s*DELETION)";
    "(?i)#\s*(MOVED\s*TO|REPLACED\s*BY|MIGRATED\s*TO)";
    "(?i)#\s*commented\s*(out|for|to)\s*(test|debug|review|deletion)";
    "_old\b|_backup\b|_deprecated\b|_unused\b";
    "(?i)#\s*(Phase\s*\d+|v\d+)\s*[-:]?\s*(DEPRECATED|removed|deleted)" ].

Definition DELETION_MARKER_EXCLUSIONS : list string :=
  [ "(?i)remove\s*(from|older|expired|duplicate|trailing|spaces|whitespace)";
    "(?i)delete\s*(from|older|expired|duplicate|all|record|data)";
    "(?i)clean\s*up\s*(vendor|name|data|cache|old)";
    "(?i)skip\s*(non|special|empty)" ].

Record finding := {
  file_path : string;
  relative_path : string;
  line_start : option nat;
  line_end : nat;
  line_count : nat;
  code_type : string;
  preview : string;
  has_deletion_marker : bool;
  severity : string;
  finding_type : string
}.

(** What a call of [_create_finding] does: it returns a finding or [None],
    or indexes an empty block. *)
Inductive result := Return (f : option finding) | IndexError.

(** A finding of [_find_js_block_comments_with_code]; it has no
    ['line_count']. *)
Record js_block_finding := {
  jb_file_path : string;
  jb_relative_path : string;
  jb_line_start : nat;
  jb_line_end : nat;
  jb_code_type : string;
  jb_preview : string;
  jb_has_deletion_marker : bool;
  jb_severity : string;
  jb_finding_type : string
}.

(** The two shapes of dict in the findings of a JavaScript file. *)
Inductive js_finding :=
  | LineFinding (f : finding)
  | BlockCommentFinding (b : js_block_finding).

Section Analyzer.

(** [re.match(pattern, line)] as a truth value. *)
Variable re_match : string -> string -> bool.

(** [re.search(pattern, text, re.IGNORECASE)] as a truth value. *)
Variable re_search : string -> string -> bool.

(** [line.strip()] and [line.rstrip()]. *)
Variable strip : string -> string.
Variable rstrip : string -> string.

(** [any(re.search(marker, text, re.IGNORECASE) for marker in DELETION_MARKERS)]. *)
Definition matches_deletion_marker (text : string) : bool :=
  existsb (fun marker => re_search marker text) DELETION_MARKERS.

Definition matches_exclusion (text : string) : bool :=
  existsb (fun exclusion => re_search exclusion text) DELETION_MARKER_EXCLUSIONS.

(** The text of a block: its lines joined by newlines. *)
Definition block_text (block_lines : list (nat * string)) : string :=
  PyStr.join (String "010" "") (List.map snd block_lines).

Definition make_finding (file_path rel_path : string) (block_start : option nat)
    (block_end : nat) (block_lines : list (nat * string)) (code_type : string)
    : finding :=
  let preview := block_text (firstn 3 block_lines) in
  let preview :=
    if 3 <? length block_lines then
      preview +:+ String "010" "... (" +:+ PyStr.of_nat (length block_lines - 3)
              +:+ " more lines)"
    else preview in
  let full_text := block_text block_lines in
  let is_excluded := matches_exclusion full_text in
  let has_deletion :=
    if is_excluded then false else matches_deletion_marker full_text in
  {| file_path := file_path;
     relative_path := rel_path;
     line_start := block_start;
     line_end := block_end;
     line_count := length block_lines;
     code_type := code_type;
     preview := preview;
     has_deletion_marker := has_deletion;
     severity := if has_deletion then "warning" else "info";
     finding_type := "commented_" +:+ code_type +:+ "_code" |}.

(** [_create_finding(file_path, rel_path, block_start, block_lines, code_type)]. *)
Definition _create_finding (file_path rel_path : string) (block_start : option nat)
    (block_lines : list (nat * string)) (code_type : string) : result :=
  if (length block_lines <? 2)
     && negb (matches_deletion_marker
                (match block_lines with
                 | [] => ""
                 | first :: _ => first.2
                 end))
  then Return None
  else
    match List.map fst block_lines with
    | [] => IndexError
    | n :: ns =>
        Return (Some (make_finding file_path rel_path block_start
                        (List.last ns n) block_lines code_type))
    end.

(** *** The block loop of [_analyze_python_file] and [_analyze_javascript_file]

    The two methods run the same loop over the lines of the file: with
    ['#'], [PYTHON_CODE_PATTERNS] and ['python'] in the first, with ['//'],
    [JS_CODE_PATTERNS] and ['javascript'] in the second. *)

Record loop_state := {
  block_start : option nat;
  block_lines : list (nat * string);
  findings : list finding
}.

Section Lines.

Variable comment_prefix : string.
Variable code_patterns : list string.
Variable code_type : string.

(** The end of a block: [_create_finding] if lines were accumulated, then
    the block is reset.  [None] stands for an exception escaping. *)
Definition end_block (file_path rel_path : string) (st : loop_state)
    : option loop_state :=
  match block_lines st with
  | [] => Some {| block_start := None; block_lines := []; findings := findings st |}
  | _ =>
      match _create_finding file_path rel_path (block_start st) (block_lines st)
                            code_type with
      | Return (Some f) =>
          Some {| block_start := None; block_lines := [];
                  findings := findings st ++ [f] |}
      | Return None =>
          Some {| block_start := None; block_lines := []; findings := findings st |}
      | IndexError => None
      end
  end.

(** [any(re.match(pattern, line) for pattern in ...CODE_PATTERNS)]. *)
Definition is_code (line : string) : bool :=
  existsb (fun pattern => re_match pattern line) code_patterns.

Definition loop_body (file_path rel_path : string) (st : loop_state)
    (numbered : nat * string) : option loop_state :=
  let i := numbered.1 in
  let line := numbered.2 in
  let stripped := strip line in
  if PyStr.startswith comment_prefix stripped then
    if is_code line then
      Some {| block_start :=
                match block_start st with None => Some i | b => b end;
              block_lines := block_lines st ++ [(i, rstrip line)];
              findings := findings st |}
    else end_block file_path rel_path st
  else end_block file_path rel_path st.

Fixpoint run_loop (file_path rel_path : string) (st : loop_state)
    (numbered : list (nat * string)) : option loop_state :=
  match numbered with
  | [] => Some st
  | x :: rest =>
      match loop_body file_path rel_path st x with
      | Some st' => run_loop file_path rel_path st' rest
      | None => None
      end
  end.

(** [enumerate(lines, 1)]. *)
Definition enumerate1 (lines : list string) : list (nat * string) :=
  combine (seq 1 (length lines)) lines.

(** The findings of the block loop, the block at the end of the file
    included. *)
Definition block_findings (file_path rel_path : string) (lines : list string)
    : option (list finding) :=
  match run_loop file_path rel_path
          {| block_start := None; block_lines := []; findings := [] |}
          (enumerate1 lines) with
  | Some st =>
      match end_block file_path rel_path st with
      | Some st' => Some (findings st')
      | None => None
      end
  | None => None
  end.

End Lines.

(** [_find_deletion_markers(lines, file_path, rel_path, comment_prefix)]. *)
Definition _find_deletion_markers (lines : list string)
    (file_path rel_path comment_prefix : string) : list finding :=
  flat_map
    (fun numbered : nat * string =>
       let stripped := strip numbered.2 in
       if PyStr.startswith comment_prefix stripped then
         if matches_exclusion stripped then []
         else if matches_deletion_marker stripped then
           [ {| file_path := file_path;
                relative_path := rel_path;
                line_start := Some numbered.1;
                line_end := numbered.1;
                line_count := 1;
                code_type :=
                  if String.eqb comment_prefix "#" then "python" else "javascript";
                preview :=
                  String.substring 0 100 stripped +:+
                  (if 100 <? String.length stripped then "..." else "");
                has_deletion_marker := true;
                severity := "warning";
                finding_type := "deletion_marker" |} ]
         else []
       else [])
    (enumerate1 lines).

(** [_analyze_python_file] on the lines read from the file. *)
Definition _analyze_python_file (file_path rel_path : string) (lines : list string)
    : option (list finding) :=
  match block_findings "#" PYTHON_CODE_PATTERNS "python" file_path rel_path lines with
  | Some found =>
      Some (found ++ _find_deletion_markers lines file_path rel_path "#")
  | None => None
  end.

(** [_analyze_javascript_file] on the lines of the file's content; the
    findings of [_find_js_block_comments_with_code], which scans the content
    as a whole, are taken as given. *)
Definition _analyze_javascript_file (file_path rel_path : string)
    (lines : list string) (block_comment_findings : list js_block_finding)
    : option (list js_finding) :=
  match block_findings "//" JS_CODE_PATTERNS "javascript" file_path rel_path lines with
  | Some found =>
      Some (List.map LineFinding found ++
            List.map BlockCommentFinding block_comment_findings ++
            List.map LineFinding
              (_find_deletion_markers lines file_path rel_path "//"))
  | None => None
  end.

(** *** What the findings of a file say about its lines *)

Section Report.

Variable comment_prefix : string.
Variable code_patterns : list string.
Variable code_type : string.

(** The test of the loop for a line that joins the open block: a comment
    that looks like code. *)
Definition code_like (line : string) : bool :=
  PyStr.startswith comment_prefix (strip line) && is_code code_patterns line.

(** Line [i] of the file, counted from 1 as [enumerate(lines, 1)] does. *)
Definition line_at (lines : list string) (i : nat) : string :=
  nth (i - 1) lines "".

(** The lines a finding reports: from [line_start] to [line_end]. *)
Definition covers (f : finding) (i : nat) : Prop :=
  exists s, line_start f = Some s /\ s <= i <= line_end f.

(** A finding of commented code: a run of consecutive code-like comment
    lines of the file, from line [s] on; when the run is a single line, that
    line, right-stripped, matches a deletion marker. *)
Definition block_of (lines : list string) (f : finding) : Prop :=
  finding_type f = "commented_" +:+ code_type +:+ "_code" /\
  exists s,
    line_start f = Some s /\ 1 <= s /\ 1 <= line_count f /\
    line_end f + 1 = s + line_count f /\ line_end f <= length lines /\
    (forall j, s <= j <= line_end f -> code_like (line_at lines j) = true) /\
    (line_count f < 2 ->
     matches_deletion_marker (rstrip (line_at lines s)) = true).

(** A finding of the marker pass: one comment line of the file that,
    stripped, matches a deletion marker and no exclusion. *)
Definition marker_of (lines : list string) (f : finding) : Prop :=
  finding_type f = "deletion_marker" /\ line_count f = 1 /\
  exists k,
    line_start f = Some k /\ line_end f = k /\ 1 <= k <= length lines /\
    PyStr.startswith comment_prefix (strip (line_at lines k)) = true /\
    matches_exclusion (strip (line_at lines k)) = false /\
    matches_deletion_marker (strip (line_at lines k)) = true.

(** The state of the block loop before line [i], with an open block of [n]
    lines: the findings so far are runs of code-like lines, the open block
    holds the lines [i - n] to [i - 1], all code-like, and every code-like
    line read so far that matches a deletion marker is in a finding or in
    the open block. *)
Definition block_loop_invariant (lines : list string) (i n : nat)
    (st : loop_state) : Prop :=
  n < i /\ i <= length lines + 1 /\
  Forall (block_of lines) (findings st) /\
  block_lines st =
    List.map (fun j => (j, rstrip (line_at lines j))) (seq (i - n) n) /\
  block_start st = match n with 0 => None | _ => Some (i - n) end /\
  (forall j, i - n <= j < i -> code_like (line_at lines j) = true) /\
  (forall j, 1 <= j < i -> code_like (line_at lines j) = true ->
     matches_deletion_marker (rstrip (line_at lines j)) = true ->
     i - n <= j \/ exists f, In f (findings st) /\ covers f j).

End Report.

End Analyzer.

(** *** Stand-ins for [re] in examples *)

(** A marker search that knows the DEPRECATED marker only. *)
Definition deprecated_search (pattern text : string) : bool :=
  String.eqb pattern "(?i)#\s*(DEPRECATED|OBSOLETE|DEAD\s*CODE)\s*[-:]"
  && PyStr.contains "# DEPRECATED:" text.

(** A code test that knows the assignment shape only. *)
Definition assignment_match (pattern line : string) : bool :=
  String.eqb pattern "^\s*#\s*\w+\s*=\s*" && PyStr.contains " = " line.

(** A search that knows one marker and one exclusion. *)
Definition marker_and_exclusion (pattern text : string) : bool :=
  (String.eqb pattern "(?i)#\s*(DEPRECATED|OBSOLETE|DEAD\s*CODE)\s*[-:]"
   && PyStr.contains "# DEPRECATED:" text)
  || (String.eqb pattern
        "(?i)remove\s*(from|older|expired|duplicate|trailing|spaces|whitespace)"
      && PyStr.contains "remove duplicate" text).

End CommentedCodeAnalyzer.

(** ** analyzers/duplicate_analyzer.py: the first matching rename pattern *)

Module RenamePatterns.

(** The pattern the inner loop of [_check_renames] stops at. *)
Definition first_match (name : string) : option Re.pattern :=
  List.find (fun p => Re.search p name) DuplicateAnalyzer.RENAME_PATTERNS.

End RenamePatterns.

(** ** analyzers/ecosystem_analyzer.py: what the buckets hold, recommendations *)

Module EcosystemReport.

Import EcosystemAnalyzer.

(** [item.get('severity', default) == s]. *)
Definition has_severity (default s : string) (i : Py.item) : bool :=
  String.eqb (Py.get (Py.severity i) default) s.

(** The findings the first three loop nests of [_categorize_issues] read, in
    their order: six duplicate categories, eight orphan categories, three
    kinds of commented code. *)
Definition screened_items (r : results) : list Py.item :=
  concat (List.map snd (duplicate_categories (duplicate_findings r))) ++
  concat (List.map snd (orphan_categories (orphan_findings r))) ++
  concat (List.map snd (commented_categories r)).

(** The issues one loop nest of [_categorize_issues] builds, in the order
    it visits them: each finding with the category of the nest and the type
    taken from its group. *)
Definition issues_of (cat : string) (type_of : string -> Py.item -> string)
    (groups : list (string * list Py.item)) : list issue :=
  flat_map
    (fun g =>
       List.map
         (fun item => {| category := cat; type_ := type_of g.1 item; details := item |})
         g.2)
    groups.

(** The issues of the first three loop nests: duplicates, orphans and
    commented code. *)
Definition screened_issues (r : results) : list issue :=
  issues_of "duplicate" (fun c _ => c) (duplicate_categories (duplicate_findings r)) ++
  issues_of "orphan" (fun c _ => c) (orphan_categories (orphan_findings r)) ++
  issues_of "commented_code"
    (fun c item => Py.get (Py.finding_type item) ("commented_" +:+ c))
    (commented_categories r).

(** The issues of the fourth loop nest: external paths. *)
Definition external_issues (r : results) : list issue :=
  issues_of "external_path" (fun c _ => c)
    (external_categories (external_path_findings r)).

(** The results with one more finding in [hardcoded_external_paths]. *)
Definition add_hardcoded_path (r : results) (finding : Py.item) : results :=
  {| duplicate_findings := duplicate_findings r;
     orphan_findings := orphan_findings r;
     commented_python := commented_python r;
     commented_javascript := commented_javascript r;
     commented_xml := commented_xml r;
     external_path_findings :=
       {| ExternalPathAnalyzer.hardcoded_external_paths :=
            ExternalPathAnalyzer.hardcoded_external_paths (external_path_findings r)
            ++ [finding];
          ExternalPathAnalyzer.relative_path_escapes :=
            ExternalPathAnalyzer.relative_path_escapes (external_path_findings r);
          ExternalPathAnalyzer.suspicious_file_operations :=
            ExternalPathAnalyzer.suspicious_file_operations (external_path_findings r);
          ExternalPathAnalyzer.external_imports :=
            ExternalPathAnalyzer.external_imports (external_path_findings r) |};
     python_errors := python_errors r;
     xml_errors := xml_errors r |}.

(** *** Recommendations *)

(** The four priorities a recommendation is written with, the keys of the
    sort. *)
Inductive priority := critical | high | medium | low.

(** [{'critical': 0, 'high': 1, 'medium': 2, 'low': 3}[x['priority']]]. *)
Definition rank (p : priority) : nat :=
  match p with
  | critical => 0
  | high => 1
  | medium => 2
  | low => 3
  end.

Record recommendation := {
  rec_priority : priority;
  rec_category : string;
  rec_type : string;
  rec_title : string;
  rec_description : string;
  rec_effort : string;
  rec_impact : string
}.

(** The summary entries of the relationship mapper, the commented-code
    analyzer and the integration-reference analyzer that are read here. *)
Record pattern_summaries := {
  incomplete_traces : nat;
  total_commented_blocks : nat;
  deletion_markers_found : nat;
  files_with_commented_code : nat;
  total_n8n_references : nat;
  total_automator_references : nat;
  files_with_n8n_refs : nat;
  files_with_automator_refs : nat
}.

(** [recommendations.append(...)] under a condition. *)
Definition when (condition : bool) (r : recommendation) : list recommendation :=
  if condition then [r] else [].

(** The recommendations in the order they are appended, before sorting. *)
Definition appended (r : results) (ps : pattern_summaries) : list recommendation :=
  let dup := DuplicateAnalyzer._generate_summary (duplicate_findings r) in
  let orphans := orphan_findings r in
  let dangling_model_refs := length (OrphanAnalyzer.dangling_model_refs orphans) in
  let orphaned_assets := length (OrphanAnalyzer.orphaned_assets orphans) in
  let orphaned_python_files := length (OrphanAnalyzer.orphaned_python_files orphans) in
  let ext := ExternalPathAnalyzer._generate_summary (external_path_findings r) in
  let hardcoded_paths := ExternalPathAnalyzer.s_hardcoded_external_paths ext in
  let relative_escapes := ExternalPathAnalyzer.s_relative_path_escapes ext in
  let suspicious_ops := ExternalPathAnalyzer.s_suspicious_file_operations ext in
  when (5 <? DuplicateAnalyzer.s_duplicate_functions dup)
    {| rec_priority := high; rec_category := "code_quality";
       rec_type := "duplicate_functions";
       rec_title := "Consolidate Duplicate Functions";
       rec_description :=
         "Found " +:+ PyStr.of_nat (DuplicateAnalyzer.s_duplicate_functions dup) +:+
         " duplicate functions. Consider creating shared utility modules.";
       rec_effort := "medium";
       rec_impact := "Reduced code maintenance burden" |} ++
  when (3 <? DuplicateAnalyzer.s_similar_models dup)
    {| rec_priority := medium; rec_category := "architecture";
       rec_type := "similar_models";
       rec_title := "Review Similar Models";
       rec_description :=
         "Found " +:+ PyStr.of_nat (DuplicateAnalyzer.s_similar_models dup) +:+
         " pairs of similar models. Consider using inheritance or mixins.";
       rec_effort := "high";
       rec_impact := "Cleaner data model, easier maintenance" |} ++
  when (5 <? DuplicateAnalyzer.s_renamed_components dup)
    {| rec_priority := low; rec_category := "cleanup";
       rec_type := "renamed_components";
       rec_title := "Clean Up Renamed Components";
       rec_description :=
         "Found " +:+ PyStr.of_nat (DuplicateAnalyzer.s_renamed_components dup) +:+
         " components with rename patterns (_old, _v2, etc.). Review and remove if unused.";
       rec_effort := "low";
       rec_impact := "Cleaner codebase" |} ++
  when (0 <? dangling_model_refs)
    {| rec_priority := critical; rec_category := "bug_fix";
       rec_type := "dangling_model_refs";
       rec_title := "Fix Dangling Model References";
       rec_description :=
         "Found " +:+ PyStr.of_nat dangling_model_refs +:+
         " references to non-existent models. These will cause runtime errors.";
       rec_effort := "medium";
       rec_impact := "Prevent runtime errors" |} ++
  when (10 <? orphaned_assets)
    {| rec_priority := low; rec_category := "cleanup";
       rec_type := "orphaned_assets";
       rec_title := "Clean Up Orphaned Assets";
       rec_description :=
         "Found " +:+ PyStr.of_nat orphaned_assets +:+
         " JS/CSS files not in any asset bundle. Add to bundles or remove.";
       rec_effort := "low";
       rec_impact := "Smaller codebase, clearer asset management" |} ++
  when (5 <? orphaned_python_files)
    {| rec_priority := medium; rec_category := "cleanup";
       rec_type := "orphaned_python";
       rec_title := "Review Orphaned Python Files";
       rec_description :=
         "Found " +:+ PyStr.of_nat orphaned_python_files +:+
         " Python files not imported in __init__.py. Verify if intentional or dead code.";
       rec_effort := "low";
       rec_impact := "Cleaner codebase, reduced confusion" |} ++
  when (5 <? incomplete_traces ps)
    {| rec_priority := medium; rec_category := "ux";
       rec_type := "incomplete_traces";
       rec_title := "Complete Model UI Traces";
       rec_description :=
         "Found " +:+ PyStr.of_nat (incomplete_traces ps) +:+
         " models with incomplete UI paths (missing views, actions, or menus).";
       rec_effort := "medium";
       rec_impact := "Better user experience, complete features" |} ++
  when (0 <? deletion_markers_found ps)
    {| rec_priority := high; rec_category := "cleanup";
       rec_type := "commented_code_deletion";
       rec_title := "Remove Code Marked for Deletion";
       rec_description :=
         "Found " +:+ PyStr.of_nat (deletion_markers_found ps) +:+
         " comments with deletion markers (TODO delete, DEPRECATED, OLD, etc.). Review and remove dead code.";
       rec_effort := "low";
       rec_impact := "Cleaner codebase, reduced technical debt" |} ++
  when (10 <? total_commented_blocks ps)
    {| rec_priority := medium; rec_category := "cleanup";
       rec_type := "commented_code";
       rec_title := "Review Commented Code Blocks";
       rec_description :=
         "Found " +:+ PyStr.of_nat (total_commented_blocks ps) +:+
         " blocks of commented-out code across " +:+
         PyStr.of_nat (files_with_commented_code ps) +:+
         " files. Review and remove if no longer needed.";
       rec_effort := "low";
       rec_impact := "Cleaner codebase, easier maintenance" |} ++
  when (0 <? total_n8n_references ps)
    {| rec_priority := low; rec_category := "documentation";
       rec_type := "n8n_references";
       rec_title := "Document N8N Integration Points";
       rec_description :=
         "Found " +:+ PyStr.of_nat (total_n8n_references ps) +:+
         " N8N references across " +:+ PyStr.of_nat (files_with_n8n_refs ps) +:+
         " files. Review integration points for proper documentation.";
       rec_effort := "low";
       rec_impact := "Better integration visibility and maintenance" |} ++
  when (0 <? total_automator_references ps)
    {| rec_priority := low; rec_category := "documentation";
       rec_type := "automator_references";
       rec_title := "Document ai_automator Integration Points";
       rec_description :=
         "Found " +:+ PyStr.of_nat (total_automator_references ps) +:+
         " ai_automator references across " +:+
         PyStr.of_nat (files_with_automator_refs ps) +:+
         " files. Review integration points for proper documentation.";
       rec_effort := "low";
       rec_impact := "Better integration visibility and maintenance" |} ++
  when (0 <? hardcoded_paths)
    {| rec_priority := critical; rec_category := "architecture";
       rec_type := "external_path_hardcoded";
       rec_title := "CRITICAL: Remove Hardcoded External Paths";
       rec_description :=
         "Found " +:+ PyStr.of_nat hardcoded_paths +:+
         " hardcoded paths to external repositories. This breaks module portability and violates Odoo architecture. Refactor to use module dependencies or Odoo's file system.";
       rec_effort := "high";
       rec_impact := "Module portability, proper architecture, deployment safety" |} ++
  when (0 <? relative_escapes)
    {| rec_priority := high; rec_category := "architecture";
       rec_type := "external_path_relative";
       rec_title := "Fix Relative Path Escapes";
       rec_description :=
         "Found " +:+ PyStr.of_nat relative_escapes +:+
         " relative paths that escape module boundaries. Use odoo.modules.get_module_path() or __file__ based paths instead.";
       rec_effort := "medium";
       rec_impact := "Module isolation, predictable behavior" |} ++
  when (0 <? suspicious_ops)
    {| rec_priority := high; rec_category := "architecture";
       rec_type := "external_file_operations";
       rec_title := "Review Suspicious File Operations";
       rec_description :=
         "Found " +:+ PyStr.of_nat suspicious_ops +:+
         " file operations targeting external locations. Verify these are intentional and properly scoped.";
       rec_effort := "medium";
       rec_impact := "Security, module isolation" |}.

(** [sorted(l, key=rank)]: the sort is stable, so an element goes in front
    of the first one whose key is not smaller. *)
Fixpoint insert_by_rank (x : recommendation) (l : list recommendation)
    : list recommendation :=
  match l with
  | [] => [x]
  | y :: rest =>
      if rank (rec_priority x) <=? rank (rec_priority y) then x :: l
      else y :: insert_by_rank x rest
  end.

Definition sorted_by_rank (l : list recommendation) : list recommendation :=
  fold_right insert_by_rank [] l.

(** Summaries without any pattern-scanner finding. *)
Definition no_pattern_findings : pattern_summaries :=
  {| incomplete_traces := 0; total_commented_blocks := 0;
     deletion_markers_found := 0; files_with_commented_code := 0;
     total_n8n_references := 0; total_automator_references := 0;
     files_with_n8n_refs := 0; files_with_automator_refs := 0 |}.

(** The order of the report: no later priority in front of an earlier one. *)
Definition by_rank (a b : recommendation) : Prop :=
  rank (rec_priority a) <= rank (rec_priority b).

(** [_generate_recommendations]: the value of [report['recommendations']]. *)
Definition _generate_recommendations (r : results) (ps : pattern_summaries)
    : list recommendation :=
  sorted_by_rank (appended r ps).

End EcosystemReport.

(** ** models/insights_finding.py: the table as the unique constraint keeps it *)

Module FindingTable.

Import InsightsFinding.

(** Ids are unique and below [next_id], and no two rows share a
    fingerprint ([fingerprint_unique]). *)
Definition well_formed (t : table) : Prop :=
  List.NoDup (List.map rec_id (rows t)) /\
  List.NoDup (List.map fingerprint (rows t)) /\
  (forall r, In r (rows t) -> rec_id r < next_id t).

(** What a call leaves of a row that was there before: the row under its
    id, with its fingerprint, its first-seen date and its status, and an
    occurrence count that has not gone down. *)
Definition kept (old new : finding) : Prop :=
  rec_id new = rec_id old /\ fingerprint new = fingerprint old /\
  first_seen_date new = first_seen_date old /\ status_ new = status_ old /\
  (occurrence_count old <= occurrence_count new)%Z.

(** The part of a details string that enters the fingerprint: the file,
    the model and the XML id read from it. *)
Definition located (json_loads : string -> option (string -> option string))
    (details : option string) : option string * option string * option string :=
  let get :=
    match json_loads (or_empty details) with
    | Some d => d
    | None => fun _ => None
    end in
  (or_else (get "file") (get "relative_path"),
   or_else (get "model") (get "model_name"),
   or_else (get "xml_id") (get "view_xml_id")).

(** A JSON reader for examples: the text itself is the file entry. *)
Definition file_only (text : string) : option (string -> option string) :=
  Some (fun key => if String.eqb key "file" then Some text else None).

(** Two warnings of one kind for one file, with different descriptions. *)
Definition first_warning : vals :=
  {| v_fingerprint := None;
     v_severity := Some "warning";
     v_category := Some "orphan";
     v_finding_type := Some "orphaned_python_files";
     v_title := None;
     v_description := Some "not imported";
     v_priority := None;
     v_effort := None;
     v_impact := None;
     v_details_json := Some "ai_sam/tools/legacy.py" |}.

Definition second_warning : vals :=
  {| v_fingerprint := None;
     v_severity := Some "warning";
     v_category := Some "orphan";
     v_finding_type := Some "orphaned_python_files";
     v_title := None;
     v_description := Some "still not imported";
     v_priority := Some "low";
     v_effort := None;
     v_impact := None;
     v_details_json := Some "ai_sam/tools/legacy.py" |}.

End FindingTable.

(** ** models/insights_scan.py: the latest score *)

Module ScanHistory.

Import InsightsScan.

(** The dict [get_latest_health_score] returns, without its date. *)
Record latest := {
  score : Z;
  status : option string;
  critical : nat;
  warnings : nat
}.

(** [get_latest_health_score] on the rows of [insights.scan] in the order
    of the model, newest first: [search([('state', '=', 'completed')],
    limit=1)]. *)
Definition get_latest_health_score (scans : list scan) : option latest :=
  match List.find (fun s => state_eqb (state_ s) completed) scans with
  | Some s =>
      Some {| score := health_score s; status := health_status s;
              critical := critical_count s; warnings := warning_count s |}
  | None => None
  end.

(** A draft without a path of its own that does not use the settings. *)
Definition pathless_draft : scan :=
  {| id := 5; state_ := draft;
     base_path := None;
     module_filter := None;
     include_registry := false;
     use_default_settings := false;
     health_score := 0%Z;
     health_status := None;
     critical_count := 0;
     warning_count := 0;
     report_json := None;
     error_message := None |}.

End ScanHistory.

(** ** scanners/python_scanner.py: queries on the results *)

Module PythonScannerQueries.

Import PythonScanner.

(** Whether a file parses. *)
Definition parses (parse : path -> parsed) (p : path) : bool :=
  match parse p with
  | Visited _ => true
  | _ => false
  end.

End PythonScannerQueries.

(** ** analyzers/commented_code_analyzer.py: file selection and line ranges *)

Module CommentedCodeFiles.

Import CommentedCodeAnalyzer.

(** The directories [_should_scan] skips. *)
Definition SKIPPED : list string :=
  ["__pycache__"; "venv"; ".git"; "node_modules"; ".egg"].

(** [_should_scan(file_path)], with the counter
    [summary['total_files_scanned']] before and after. *)
Definition _should_scan (base_path : string) (module_filter : list string)
    (p : PythonScanner.path) (total_files_scanned : nat) : bool * nat :=
  let path_str := PythonScanner.path_str base_path p in
  if existsb (fun skip => PyStr.contains skip path_str) SKIPPED then
    (false, total_files_scanned)
  else if match module_filter with
          | [] => false
          | _ => negb (PyStr.mem (PythonScanner.top_module p) module_filter)
          end
  then (false, total_files_scanned)
  else (true, total_files_scanned + 1).

(** The line range of a finding inside a file of [n] lines: it starts at a
    line [s >= 1], covers [line_count >= 1] lines and ends at
    [s + line_count - 1 <= n]. *)
Definition in_range (n : nat) (f : finding) : Prop :=
  exists s, line_start f = Some s /\ 1 <= s /\ 1 <= line_count f /\
            line_end f + 1 = s + line_count f /\ line_end f <= n.

(** The state of the block loop before line [i]: the findings so far lie
    within the lines read, and the open block, if any, is the run of
    consecutive lines from its start to [i - 1]. *)
Definition loop_invariant (i : nat) (st : loop_state) : Prop :=
  Forall (in_range (i - 1)) (findings st) /\
  match block_lines st with
  | [] => block_start st = None
  | _ =>
      exists s, block_start st = Some s /\ 1 <= s /\
                List.map fst (block_lines st) = seq s (length (block_lines st)) /\
                s + length (block_lines st) = i
  end.

End CommentedCodeFiles.

(** ** analyzers/duplicate_analyzer.py: duplicate functions *)

Module DuplicateFunctions.

(** What [_find_duplicate_functions] reads of a scanned function. *)
Record func := {
  name : string;
  class_name : option string;     (* None for a module-level function *)
  body_hash : option string;
  relative_path : string;
  line_start : nat
}.

(** An entry of a group: [{'name', 'file', 'line'}]. *)
Record occurrence := {
  o_name : string;
  o_file : string;
  o_line : nat
}.

Definition occurrence_of (f : func) : occurrence :=
  {| o_name := name f; o_file := relative_path f; o_line := line_start f |}.

(** [not body_hash or func.get('class_name')]: the function is skipped. *)
Definition skipped (f : func) : bool :=
  negb (InsightsFinding.truthy (body_hash f)) || InsightsFinding.truthy (class_name f).

(** The dict [function_hashes]: groups in the order their keys were first
    inserted. *)
Definition groups : Type := list (string * list occurrence).

(** [if h not in d: d[h] = []] followed by [d[h].append(x)]. *)
Fixpoint append_to (h : string) (x : occurrence) (d : groups) : groups :=
  match d with
  | [] => [(h, [x])]
  | (k, l) :: rest =>
      if String.eqb k h then (k, l ++ [x]) :: rest
      else (k, l) :: append_to h x rest
  end.

Definition function_hashes (functions : list func) : groups :=
  fold_left
    (fun d f =>
       if skipped f then d
       else append_to (InsightsFinding.or_empty (body_hash f)) (occurrence_of f) d)
    functions [].

Record finding := {
  f_body_hash : string;
  f_functions : list occurrence;
  f_count : nat;
  f_severity : DuplicateAnalyzer.severity;
  f_recommendation : string
}.

(** [_find_duplicate_functions], appending to
    [findings['duplicate_functions']]. *)
Definition _find_duplicate_functions (functions : list func)
    (duplicate_functions : list finding) : list finding :=
  duplicate_functions ++
  flat_map
    (fun g : string * list occurrence =>
       if 1 <? length g.2 then
         [ {| f_body_hash := g.1; f_functions := g.2; f_count := length g.2;
              f_severity := DuplicateAnalyzer.warning;
              f_recommendation :=
                "Consider consolidating into a shared utility function" |} ]
       else [])
    (function_hashes functions).

(** [d.get(h, [])]. *)
Definition lookup (d : groups) (h : string) : list occurrence :=
  match List.find (fun g : string * list occurrence => String.eqb g.1 h) d with
  | Some g => g.2
  | None => []
  end.

(** The module-level functions with a given body hash, in scan order. *)
Definition with_hash (h : string) (functions : list func) : list occurrence :=
  List.map occurrence_of
    (List.filter
       (fun f => negb (skipped f)
                 && String.eqb (InsightsFinding.or_empty (body_hash f)) h)
       functions).

(** Two helpers with one body, a method with the same body, and a third
    function. *)
Definition example_functions : list func :=
  [ {| name := "slugify"; class_name := None; body_hash := Some "9f2c41aa03b1";
       relative_path := "ai_sam/utils/text.py"; line_start := 12 |};
    {| name := "write"; class_name := Some "Partner"; body_hash := Some "9f2c41aa03b1";
       relative_path := "ai_sam/models/partner.py"; line_start := 40 |};
    {| name := "normalize"; class_name := None; body_hash := Some "5d0e77c2a9f4";
       relative_path := "ai_sam/utils/text.py"; line_start := 30 |};
    {| name := "make_slug"; class_name := None; body_hash := Some "9f2c41aa03b1";
       relative_path := "ai_sam_base/tools.py"; line_start := 7 |} ].

End DuplicateFunctions.

(** * Properties *)

(** ** Health score *)

Section HealthScore.

Import EcosystemAnalyzer.

Lemma health_score_critical_path (finding : Py.item) :
  ExternalPathAnalyzer.is_critical finding = true ->
  health_score (single_hardcoded_path finding) = 75%Z.
Proof.
  destruct finding as [[s|] ft f]; cbn [ExternalPathAnalyzer.is_critical Py.severity];
    intros H; [|discriminate].
  unfold health_score, _categorize_issues, each_category, file_by_critical.
  cbn. rewrite H. reflexivity.
Qed.

Lemma health_score_other_path (finding : Py.item) :
  ExternalPathAnalyzer.is_critical finding = false ->
  health_score (single_hardcoded_path finding) = 83%Z.
Proof.
  destruct finding as [[s|] ft f]; cbn [ExternalPathAnalyzer.is_critical Py.severity];
    intros H.
  - unfold health_score, _categorize_issues, each_category, file_by_critical.
    cbn. rewrite H. reflexivity.
  - reflexivity.
Qed.

(** C1, as stated, fails: the single hardcoded-path finding of a JavaScript
    file is also filed under the critical issues, and the score is 75. *)
Lemma single_hardcoded_path_is_not_85 :
  health_score (single_hardcoded_path hardcoded_js_path) <> 85%Z.
Proof. vm_compute. discriminate. Qed.

(** C1, amended: with exactly one hardcoded-external-path finding and nothing
    else, the health score is 75 when the finding's severity is 'critical'
    (10 for the critical issue and 15 for the path) and 83 otherwise (2 for
    the warning and 15 for the path). *)
Theorem health_score_single_hardcoded_path (finding : Py.item) :
  health_score (single_hardcoded_path finding) =
  if ExternalPathAnalyzer.is_critical finding then 75%Z else 83%Z.
Proof.
  destruct (ExternalPathAnalyzer.is_critical finding) eqn:H.
  - by apply health_score_critical_path.
  - by apply health_score_other_path.
Qed.

End HealthScore.

(** ** Summary of the duplicate detector *)

Section DuplicateSummary.

Import DuplicateAnalyzer.

Lemma counter_bump (c : severity_counts) (s x : severity) :
  counter (bump c x) s = counter c s + (if severity_eqb s x then 1 else 0).
Proof. destruct s, x; cbn; lia. Qed.

Lemma counter_fold_bump (l : list severity) (c : severity_counts) (s : severity) :
  counter (fold_left bump l c) s = counter c s + occurrences s l.
Proof.
  revert c. induction l as [|x l IH]; intros c; cbn [fold_left].
  - unfold occurrences. cbn. lia.
  - rewrite IH, counter_bump. unfold occurrences. cbn [List.filter].
    destruct (severity_eqb s x); cbn [length]; lia.
Qed.

Lemma occurrences_app (s : severity) (l1 l2 : list severity) :
  occurrences s (l1 ++ l2) = occurrences s l1 + occurrences s l2.
Proof. unfold occurrences. by rewrite List.filter_app, length_app. Qed.

Lemma severity_eqb_refl (s : severity) : severity_eqb s s = true.
Proof. by destruct s. Qed.

Lemma counted_add_similar (f : findings) (x : similar_finding) (s : severity) :
  occurrences s (counted_severities (add_similar f x)) =
  occurrences s (counted_severities f) + (if severity_eqb s (sf_severity x) then 1 else 0).
Proof.
  unfold counted_severities, add_similar.
  cbn [duplicate_models duplicate_functions duplicate_methods duplicate_css_classes
       duplicate_views similar_models renamed_components].
  rewrite List.map_app. cbn [List.map].
  rewrite !occurrences_app.
  assert (occurrences s [sf_severity x] =
          if severity_eqb s (sf_severity x) then 1 else 0) as ->.
  { unfold occurrences. cbn [List.filter]. by destruct (severity_eqb s (sf_severity x)). }
  lia.
Qed.

Lemma health_score_ignores_similar (r : EcosystemAnalyzer.results) (f : findings)
    (x : similar_finding) :
  EcosystemAnalyzer.health_score (EcosystemAnalyzer.with_duplicates r (add_similar f x)) =
  EcosystemAnalyzer.health_score (EcosystemAnalyzer.with_duplicates r f).
Proof.
  unfold EcosystemAnalyzer.health_score, EcosystemAnalyzer._categorize_issues,
    EcosystemAnalyzer._calculate_health_score, EcosystemAnalyzer.with_duplicates.
  cbn [EcosystemAnalyzer.duplicate_findings EcosystemAnalyzer.orphan_findings
       EcosystemAnalyzer.external_path_findings EcosystemAnalyzer.python_errors
       EcosystemAnalyzer.xml_errors].
  change (EcosystemAnalyzer.duplicate_categories (add_similar f x))
    with (EcosystemAnalyzer.duplicate_categories f).
  change (total_issues (_generate_summary (add_similar f x)))
    with (total_issues (_generate_summary f)).
  reflexivity.
Qed.

(** C10: [total_issues] is the sum of the six counted categories; a
    similar-model finding leaves [total_issues] and the health score as they
    are, and adds one to the [severity_counts] entry of its severity. *)
Theorem total_issues_excludes_similar_models (f : findings) (x : similar_finding)
    (r : EcosystemAnalyzer.results) :
  total_issues (_generate_summary f) =
    length (duplicate_models f) + length (duplicate_functions f) +
    length (duplicate_methods f) + length (duplicate_css_classes f) +
    length (duplicate_views f) + length (renamed_components f)
  /\ total_issues (_generate_summary (add_similar f x)) =
     total_issues (_generate_summary f)
  /\ s_similar_models (_generate_summary (add_similar f x)) =
     s_similar_models (_generate_summary f) + 1
  /\ counter (s_severity_counts (_generate_summary (add_similar f x))) (sf_severity x) =
     counter (s_severity_counts (_generate_summary f)) (sf_severity x) + 1
  /\ EcosystemAnalyzer.health_score (EcosystemAnalyzer.with_duplicates r (add_similar f x)) =
     EcosystemAnalyzer.health_score (EcosystemAnalyzer.with_duplicates r f).
Proof.
  split; [|split; [|split; [|split]]].
  - unfold _generate_summary; cbn [total_issues]. unfold list_sum; cbn [fold_right]. lia.
  - reflexivity.
  - unfold _generate_summary, add_similar; cbn [s_similar_models similar_models].
    rewrite length_app. cbn [length]. lia.
  - unfold _generate_summary; cbn [s_severity_counts].
    rewrite !counter_fold_bump, counted_add_similar, severity_eqb_refl.
    cbn [counter n_error n_warning n_info]. destruct (sf_severity x); cbn; lia.
  - apply health_score_ignores_similar.
Qed.

End DuplicateSummary.

(** ** The finding store *)

Section FindingStore.

Import InsightsFinding.

Variable sha256_hexdigest : string -> string.
Variable json_loads : string -> option (string -> option string).

Local Abbreviation find_or_create := (find_or_create sha256_hexdigest json_loads).
Local Abbreviation fingerprint_of := (fingerprint_of sha256_hexdigest json_loads).

Lemma search_some (t : table) (fp : string) (r : finding) :
  search t fp = Some r -> In r (rows t) /\ fingerprint r = fp.
Proof.
  unfold search. intros H. apply List.find_some in H as [Hin Heq].
  split; [done|]. by apply String.eqb_eq.
Qed.

Lemma find_or_create_existing (t : table) (now : Z) (scan : nat) (v : vals)
    (existing : finding) :
  search t (fingerprint_of v) = Some existing ->
  find_or_create t now scan v =
    (write t (rec_id existing) (updated scan now v existing),
     updated scan now v existing).
Proof. unfold InsightsFinding.find_or_create. by intros ->. Qed.

Lemma find_or_create_absent (t : table) (now : Z) (scan : nat) (v : vals) :
  search t (fingerprint_of v) = None ->
  find_or_create t now scan v =
    ({| rows := rows t ++ [created (next_id t) scan now (fingerprint_of v) v];
        next_id := S (next_id t) |},
     created (next_id t) scan now (fingerprint_of v) v).
Proof. unfold InsightsFinding.find_or_create. by intros ->. Qed.

Lemma write_stores (t : table) (existing r : finding) :
  In existing (rows t) -> In r (rows (write t (rec_id existing) r)).
Proof.
  intros Hin. unfold write; cbn [rows].
  apply List.in_map_iff. exists existing. split; [|done].
  by rewrite Nat.eqb_refl.
Qed.

(** A new fingerprint: the record is created with both dates at [now], one
    occurrence and status 'new'. *)
Lemma find_or_create_creates (t : table) (now : Z) (scan : nat) (v : vals) :
  search t (fingerprint_of v) = None ->
  let r := (find_or_create t now scan v).2 in
  first_seen_date r = Some now /\ last_seen_date r = Some now /\
  occurrence_count r = 1%Z /\ status_ r = new /\
  fingerprint r = fingerprint_of v /\
  rows (find_or_create t now scan v).1 = rows t ++ [r].
Proof. intros H. rewrite (find_or_create_absent _ _ _ _ H). by cbn. Qed.

(** A known fingerprint: one more occurrence per call. *)
Lemma find_or_create_increments (t : table) (now : Z) (scan : nat) (v : vals)
    (existing : finding) :
  search t (fingerprint_of v) = Some existing ->
  occurrence_count (find_or_create t now scan v).2 =
  (occurrence_count existing + 1)%Z.
Proof. intros H. by rewrite (find_or_create_existing _ _ _ _ _ H). Qed.

(** C2: when the fingerprint is known, the call sets [last_seen_date],
    [occurrence_count] and [scan_id] and keeps the status; for a finding
    whose status is no longer 'new' it also keeps severity and description,
    and a change of either happens only to a finding that is still 'new'. *)
Theorem find_or_create_keeps_triage (t : table) (now : Z) (scan : nat)
    (v : vals) (existing : finding) :
  search t (fingerprint_of v) = Some existing ->
  let r := (find_or_create t now scan v).2 in
  In r (rows (find_or_create t now scan v).1) /\
  last_seen_date r = Some now /\
  occurrence_count r = (occurrence_count existing + 1)%Z /\
  scan_id r = Some scan /\
  status_ r = status_ existing /\
  (status_ existing <> new ->
     severity r = severity existing /\ description r = description existing) /\
  (severity r <> severity existing \/ description r <> description existing ->
     status_ existing = new) /\
  (rec_id r, fingerprint r, first_seen_scan_id r, first_seen_date r) =
  (rec_id existing, fingerprint existing, first_seen_scan_id existing,
   first_seen_date existing) /\
  (category r, finding_type r, title r, priority r, effort r, impact r,
   details_json r) =
  (category existing, finding_type existing, title existing, priority existing,
   effort existing, impact existing, details_json existing).
Proof.
  intros H. rewrite (find_or_create_existing _ _ _ _ _ H). cbn zeta. cbn [fst snd].
  apply search_some in H as [Hin _].
  split; [by apply write_stores|].
  repeat (split; [reflexivity|]).
  unfold updated; cbn [severity description].
  destruct (status_ existing); cbn [status_eqb andb]; repeat split;
    try done; intros [Hc|Hc]; done.
Qed.

End FindingStore.

(** The resolved finding of [triaged_table] is detected again with another
    severity and description. *)
Lemma find_or_create_keeps_triage_resolved :
  let r := (InsightsFinding.find_or_create (fun s => s) (fun _ => None)
              InsightsFinding.triaged_table 2000 8
              InsightsFinding.recurring_vals).2 in
  InsightsFinding.status_ r = InsightsFinding.resolved /\
  InsightsFinding.severity r = Some "warning" /\
  InsightsFinding.description r = Some "reviewed" /\
  InsightsFinding.occurrence_count r = 3%Z /\
  InsightsFinding.last_seen_date r = Some 2000%Z /\
  InsightsFinding.scan_id r = Some 8.
Proof.
  pose proof (find_or_create_keeps_triage (fun s => s) (fun _ => None)
                InsightsFinding.triaged_table 2000 8
                InsightsFinding.recurring_vals InsightsFinding.resolved_finding
                eq_refl) as H.
  cbn zeta in H.
  destruct H as (_ & Hlast & Hcount & Hscan & Hstatus & Hkeep & _).
  destruct Hkeep as [Hsev Hdesc]; [discriminate|].
  cbn zeta. rewrite Hstatus, Hsev, Hdesc, Hcount, Hlast, Hscan.
  repeat split.
Defined.

(** ** Occurrences per scan *)

Section Occurrences.

Import InsightsFinding InsightsScan.

Variable sha256_hexdigest : string -> string.
Variable json_loads : string -> option (string -> option string).
Variable json_dumps : Py.item -> string.

Local Abbreviation create_findings :=
  (_create_findings sha256_hexdigest json_loads json_dumps).

(** C3 holds call by call but not scan by scan: a report with two critical
    issues of one fingerprint leaves a single record that a first scan of
    an empty table already counts twice, once as new and once as recurring,
    and that the unchanged second scan counts twice more. *)
Theorem colliding_issues_counted_per_call (i : EcosystemAnalyzer.issue)
    (now later : Z) :
  let first := create_findings now 1 [i; i] [] [] empty_table in
  let second := create_findings later 2 [i; i] [] [] (findings first) in
  List.map occurrence_count (rows (findings first)) = [2%Z] /\
  (new_count first, recurring_count first) = (1, 1) /\
  List.map occurrence_count (rows (findings second)) = [4%Z] /\
  (new_count second, recurring_count second) = (0, 2).
Proof.
  cbn zeta.
  unfold InsightsScan._create_findings, record_finding, InsightsFinding.find_or_create,
    search, empty_table.
  cbv -[String.eqb InsightsFinding.fingerprint_of].
  rewrite ?String.eqb_refl.
  cbv -[String.eqb InsightsFinding.fingerprint_of].
  rewrite ?String.eqb_refl.
  cbv -[String.eqb InsightsFinding.fingerprint_of].
  rewrite ?String.eqb_refl.
  cbv -[String.eqb InsightsFinding.fingerprint_of].
  done.
Qed.

End Occurrences.

(** ** The scan-run state machine *)

Section ScanRun.

Import InsightsScan.

Variable the_settings : settings.
Variable analyze : string -> option string -> bool -> analysis.

Lemma action_run_scan_rejects (s : scan) :
  state_ s = completed \/ state_ s = running ->
  action_run_scan the_settings analyze s =
    {| after := s; states_written := [];
       user_error := Some "Can only run scans in draft or failed state" |}.
Proof. unfold action_run_scan. by intros [-> | ->]. Qed.

Lemma action_run_scan_accepts (s : scan) :
  state_ s = draft \/ state_ s = failed ->
  exists final,
    states_written (action_run_scan the_settings analyze s) = [running; final] /\
    state_ (after (action_run_scan the_settings analyze s)) = final /\
    (final = completed \/ final = failed).
Proof.
  intros H. unfold action_run_scan.
  assert (negb (state_eqb (state_ s) draft || state_eqb (state_ s) failed) = false)
    as -> by (by destruct H as [-> | ->]).
  destruct (configuration the_settings (set_state s running None))
    as [[[scan_path module_filter_str] registry]|].
  - destruct (analyze _ _ _).
    + exists completed. cbn. auto.
    + exists failed. cbn. auto.
  - exists failed. cbn. auto.
Qed.

(** C4, amended: a completed scan is final: every method leaves the record
    as it is and writes no state, and [action_run_scan] raises UserError.
    A failed scan is not final: [action_run_scan] accepts it, writes
    'running' and ends in 'completed' or in 'failed' again. *)
Theorem completed_is_final_failed_is_not (op : operation) (s : scan) :
  (state_ s = completed ->
     after (perform the_settings analyze op s) = s /\
     states_written (perform the_settings analyze op s) = [] /\
     (op = run_scan ->
        user_error (perform the_settings analyze op s) =
        Some "Can only run scans in draft or failed state")) /\
  (state_ s = failed ->
     exists final,
       states_written (action_run_scan the_settings analyze s) = [running; final] /\
       state_ (after (action_run_scan the_settings analyze s)) = final /\
       (final = completed \/ final = failed)).
Proof.
  split.
  - intros H. destruct op; cbn [perform]; try done.
    rewrite action_run_scan_rejects by auto. done.
  - intros H. apply action_run_scan_accepts. auto.
Qed.

End ScanRun.

(** C4, as stated, fails for a failed scan: running it again writes
    'running', then 'completed', and replaces the stored results. *)
Lemma failed_scan_runs_again :
  InsightsScan.state_ InsightsScan.failed_scan = InsightsScan.failed /\
  InsightsScan.states_written
    (InsightsScan.action_run_scan InsightsScan.no_settings InsightsScan.succeeding
       InsightsScan.failed_scan) = [InsightsScan.running; InsightsScan.completed] /\
  InsightsScan.health_score
    (InsightsScan.after
       (InsightsScan.action_run_scan InsightsScan.no_settings InsightsScan.succeeding
          InsightsScan.failed_scan)) = 90%Z /\
  InsightsScan.health_score InsightsScan.failed_scan = 0%Z.
Proof. repeat split. Qed.

(** A completed scan under [action_run_scan], and the failed scan run
    again. *)
Lemma completed_is_final_failed_is_not_example :
  InsightsScan.after
    (InsightsScan.perform InsightsScan.no_settings InsightsScan.succeeding
       InsightsScan.run_scan InsightsScan.completed_scan) = InsightsScan.completed_scan /\
  exists final,
    InsightsScan.states_written
      (InsightsScan.action_run_scan InsightsScan.no_settings InsightsScan.succeeding
         InsightsScan.failed_scan) = [InsightsScan.running; final] /\
    InsightsScan.state_
      (InsightsScan.after
         (InsightsScan.action_run_scan InsightsScan.no_settings InsightsScan.succeeding
            InsightsScan.failed_scan)) = final /\
    (final = InsightsScan.completed \/ final = InsightsScan.failed).
Proof.
  split.
  - apply (completed_is_final_failed_is_not InsightsScan.no_settings
             InsightsScan.succeeding InsightsScan.run_scan
             InsightsScan.completed_scan).
    reflexivity.
  - apply (completed_is_final_failed_is_not InsightsScan.no_settings
             InsightsScan.succeeding InsightsScan.run_scan
             InsightsScan.failed_scan).
    reflexivity.
Defined.

(** ** File selection of the scanners *)

Section ModuleFilter.

Import PythonScanner.

Lemma mem_In (x : string) (l : list string) : PyStr.mem x l = true <-> In x l.
Proof.
  unfold PyStr.mem. rewrite List.existsb_exists. split.
  - intros (y & Hin & Heq). apply String.eqb_eq in Heq. by subst.
  - intros Hin. exists x. split; [done|]. apply String.eqb_refl.
Qed.

Lemma selected_spec (base_path : string) (module_filter : list string) (p : path) :
  module_filter <> [] ->
  selected base_path module_filter p = true <->
  In (top_module p) module_filter /\ in_skipped_directory base_path p = false.
Proof.
  intros Hne. unfold selected, in_skipped_directory.
  destruct module_filter as [|m ms]; [done|].
  rewrite <- mem_In.
  destruct (PyStr.mem (top_module p) (m :: ms)); cbn [negb].
  - destruct (_ || _ || _); split; try done. by intros [_ ?].
  - split; [done|]. by intros [? _].
Qed.

Lemma selected_no_filter (base_path : string) (p : path) :
  selected base_path [] p = negb (in_skipped_directory base_path p).
Proof. unfold selected, in_skipped_directory. by destruct (_ || _ || _). Qed.

Lemma scan_loop_filter (base_path : string) (module_filter : list string)
    (parse : path -> parsed) (files : list path) (r : scan_results) :
  fold_left
    (fun r p => if selected base_path module_filter p
                then _scan_file base_path parse r p else r) files r =
  fold_left (_scan_file base_path parse)
    (List.filter (selected base_path module_filter) files) r.
Proof.
  revert r. induction files as [|p files IH]; intros r; [done|].
  cbn [fold_left List.filter].
  destruct (selected base_path module_filter p); cbn [fold_left]; apply IH.
Qed.

(** The XML scanner tests the filter first and the skipped names second. *)
Lemma xml_selected_spec (base_path : string) (module_filter : list string)
    (p : path) :
  module_filter <> [] ->
  XMLScanner.selected base_path module_filter p = true <->
  In (top_module p) module_filter /\
  XMLScanner.in_skipped_directory base_path p = false.
Proof.
  intros Hne. unfold XMLScanner.selected, XMLScanner.in_skipped_directory.
  destruct module_filter as [|m ms]; [done|].
  rewrite <- mem_In.
  destruct (PyStr.mem (top_module p) (m :: ms)); cbn [negb].
  - destruct (_ || _); split; try done. by intros [_ ?].
  - split; [done|]. by intros [? _].
Qed.

(** The asset scanner tests the skipped names first and the filter second. *)
Lemma asset_selected_spec (base_path : string) (module_filter : list string)
    (p : path) :
  module_filter <> [] ->
  AssetScanner.selected base_path module_filter p = true <->
  In (top_module p) module_filter /\
  AssetScanner.in_skipped_directory base_path p = false.
Proof.
  intros Hne. unfold AssetScanner.selected, AssetScanner.in_skipped_directory.
  destruct module_filter as [|m ms]; [done|].
  rewrite <- mem_In.
  destruct (existsb _ _).
  - split; [done|]. by intros [_ ?].
  - destruct (PyStr.mem (top_module p) (m :: ms)); cbn [negb]; split; try done.
    by intros [? _].
Qed.

(** A loop that guards its body visits the files that pass the guard. *)
Lemma guarded_loop_filter {R : Type} (keep : path -> bool) (body : R -> path -> R)
    (files : list path) (r : R) :
  fold_left (fun r p => if keep p then body r p else r) files r =
  fold_left body (List.filter keep files) r.
Proof.
  revert r. induction files as [|p files IH]; intros r; [done|].
  cbn [fold_left List.filter]. destruct (keep p); cbn [fold_left]; apply IH.
Qed.

Lemma filter_idem {A : Type} (keep : A -> bool) (l : list A) :
  List.filter keep (List.filter keep l) = List.filter keep l.
Proof.
  induction l as [|x l IH]; [done|]. cbn [List.filter].
  destruct (keep x) eqn:E; cbn [List.filter]; [|done]. rewrite E. by f_equal.
Qed.

(** The loop of the asset scanner reads a script or a style file only when
    the file is selected. *)
Lemma asset_loop_filter {R : Type} (base_path : string)
    (module_filter : list string) (suffix : path -> string)
    (read_js read_css : R -> path -> R) (files : list path) (r : R) :
  fold_left (AssetScanner.scan_file base_path module_filter R suffix read_js read_css)
    files r =
  fold_left (AssetScanner.scan_file base_path module_filter R suffix read_js read_css)
    (List.filter (AssetScanner.selected base_path module_filter) files) r.
Proof.
  revert r. induction files as [|p files IH]; intros r; [done|].
  cbn [fold_left List.filter].
  destruct (AssetScanner.selected base_path module_filter p) eqn:E;
    cbn [fold_left].
  - apply IH.
  - rewrite <- IH. f_equal.
    unfold AssetScanner.scan_file, AssetScanner._scan_js_file,
      AssetScanner._scan_css_file.
    rewrite E. destruct (PyStr.mem (suffix p) [".js"; ".mjs"]); [done|].
    by destruct (PyStr.mem (suffix p) _).
Qed.

(** C5, amended: with a module filter, each scanner's pass over its files
    (the Python scanner, the XML scanner, the asset scanner for scripts and
    styles) reaches a file exactly when the first part of its relative path
    is one of the filter names and its full path contains none of the names
    that pass skips; each scan is the scan of the files so selected, and the
    filter ['ai_sam'] selects no file under 'ai_sam_base'. *)
Theorem module_filter_exact (base_path : string) (module_filter : list string)
    (parse : path -> parsed)
    (X : Type) (xml_scan_file : X -> path -> X) (field_usage : X -> X) (x0 : X)
    (A : Type) (suffix : path -> string) (read_manifest read_js read_css : A -> path -> A)
    (find_orphaned : A -> A) (a0 : A)
    (files manifests : list path) (p rest : path) :
  (module_filter <> [] ->
     (selected base_path module_filter p = true <->
      In (top_module p) module_filter /\ in_skipped_directory base_path p = false) /\
     (XMLScanner.selected base_path module_filter p = true <->
      In (top_module p) module_filter /\
      XMLScanner.in_skipped_directory base_path p = false) /\
     (AssetScanner.selected base_path module_filter p = true <->
      In (top_module p) module_filter /\
      AssetScanner.in_skipped_directory base_path p = false)) /\
  (scan base_path module_filter parse files =
     scan base_path module_filter parse
       (List.filter (selected base_path module_filter) files) /\
   XMLScanner.scan base_path module_filter X xml_scan_file field_usage x0 files =
     XMLScanner.scan base_path module_filter X xml_scan_file field_usage x0
       (List.filter (XMLScanner.selected base_path module_filter) files) /\
   AssetScanner.scan base_path module_filter A suffix read_manifest read_js read_css
       find_orphaned a0 manifests files =
     AssetScanner.scan base_path module_filter A suffix read_manifest read_js read_css
       find_orphaned a0 manifests
       (List.filter (AssetScanner.selected base_path module_filter) files)) /\
  (selected base_path ["ai_sam"] ("ai_sam_base" :: rest) = false /\
   XMLScanner.selected base_path ["ai_sam"] ("ai_sam_base" :: rest) = false /\
   AssetScanner.selected base_path ["ai_sam"] ("ai_sam_base" :: rest) = false).
Proof.
  split; [|split].
  - intros Hne. split; [by apply selected_spec|].
    split; [by apply xml_selected_spec | by apply asset_selected_spec].
  - split; [|split].
    + unfold scan. f_equal. by rewrite !scan_loop_filter, filter_idem.
    + unfold XMLScanner.scan. f_equal. by rewrite !guarded_loop_filter, filter_idem.
    + unfold AssetScanner.scan. f_equal.
      rewrite (asset_loop_filter base_path module_filter suffix read_js read_css
                 (List.filter _ files)).
      rewrite filter_idem. apply asset_loop_filter.
  - split; [done|]. split; [done|].
    unfold AssetScanner.selected. by destruct (existsb _ _).
Qed.

End ModuleFilter.

(** C5, as stated, fails twice.  The first part of the path is the filter
    name 'ai_sam', and the Python scanner skips the file for the 'venv' in
    its path.  And under the filter ['ai_sam'] the asset scanner, which
    leaves the script of 'ai_sam_base' unread, reads its manifest. *)
Lemma filtered_module_file_skipped :
  (In (PythonScanner.top_module PythonScanner.venv_py) ["ai_sam"] /\
   PythonScanner.selected PythonScanner.addons ["ai_sam"] PythonScanner.venv_py
     = false) /\
  (~ In (PythonScanner.top_module AssetScanner.base_manifest) ["ai_sam"] /\
   AssetScanner.scan PythonScanner.addons ["ai_sam"] (list string)
     AssetScanner.example_suffix AssetScanner.read_file AssetScanner.read_file
     AssetScanner.read_file (fun r => r) []
     [AssetScanner.base_manifest]
     [AssetScanner.base_manifest; AssetScanner.chat_js; AssetScanner.base_js]
   = ["ai_sam_base/__manifest__.py"; "ai_sam/static/src/chat.js"]).
Proof.
  split; split.
  - by left.
  - vm_compute. reflexivity.
  - intros [H | []]. discriminate H.
  - vm_compute. reflexivity.
Qed.

(** The filter ['ai_sam'] on files of the example trees. *)
Lemma module_filter_exact_example :
  PythonScanner.selected PythonScanner.addons ["ai_sam"] PythonScanner.models_py = true /\
  PythonScanner.selected PythonScanner.addons ["ai_sam"] PythonScanner.base_py = false /\
  AssetScanner.selected PythonScanner.addons ["ai_sam"] AssetScanner.chat_js = true /\
  AssetScanner.selected PythonScanner.addons ["ai_sam"] AssetScanner.base_js = false.
Proof.
  destruct (module_filter_exact PythonScanner.addons ["ai_sam"]
              PythonScanner.example_parse
              (list string) AssetScanner.read_file (fun r => r) []
              (list string) AssetScanner.example_suffix AssetScanner.read_file
              AssetScanner.read_file AssetScanner.read_file (fun r => r) []
              [] [] PythonScanner.models_py (List.tl PythonScanner.base_py))
    as (Hiff & _ & Hpy & _ & _).
  destruct (module_filter_exact PythonScanner.addons ["ai_sam"]
              PythonScanner.example_parse
              (list string) AssetScanner.read_file (fun r => r) []
              (list string) AssetScanner.example_suffix AssetScanner.read_file
              AssetScanner.read_file AssetScanner.read_file (fun r => r) []
              [] [] AssetScanner.chat_js (List.tl AssetScanner.base_js))
    as (Hiff' & _ & _ & _ & Hasset).
  split; [|split; [exact Hpy|split; [|exact Hasset]]].
  - apply Hiff; [discriminate|]. split; [by left|]. vm_compute. reflexivity.
  - apply Hiff'; [discriminate|]. split; [by left|]. vm_compute. reflexivity.
Defined.

(** ** Error collection of the Python scanner *)

Section GracefulDegradation.

Import PythonScanner.

Variable base_path : string.
Variable module_filter : list string.
Variable parse : path -> parsed.

Lemma scan_file_models (r : scan_results) (p : path) :
  models (_scan_file base_path parse r p) = models r ++ models_of parse p.
Proof.
  unfold _scan_file, models_of.
  destruct (parse p); cbn [models add_error]; by rewrite ?app_nil_r.
Qed.

Lemma scan_file_functions (r : scan_results) (p : path) :
  functions (_scan_file base_path parse r p) = functions r ++ functions_of parse p.
Proof.
  unfold _scan_file, functions_of.
  destruct (parse p); cbn [functions add_error]; by rewrite ?app_nil_r.
Qed.

Lemma scan_file_imports (r : scan_results) (p : path) :
  imports (_scan_file base_path parse r p) =
  imports r ++ imports_of base_path parse p.
Proof.
  unfold _scan_file, imports_of.
  destruct (parse p); cbn [imports add_error]; by rewrite ?app_nil_r.
Qed.

Lemma scan_file_errors (r : scan_results) (p : path) :
  errors (_scan_file base_path parse r p) =
  errors r ++ errors_of base_path parse p.
Proof.
  unfold _scan_file, errors_of.
  destruct (parse p); cbn [errors add_error]; by rewrite ?app_nil_r.
Qed.

(** The loop of [scan] appends, file by file, what each selected file
    contributes. *)
Lemma scan_loop_contents (files : list path) (r : scan_results) :
  let r' := fold_left (_scan_file base_path parse) files r in
  models r' = models r ++ flat_map (models_of parse) files /\
  functions r' = functions r ++ flat_map (functions_of parse) files /\
  imports r' = imports r ++ flat_map (imports_of base_path parse) files /\
  errors r' = errors r ++ flat_map (errors_of base_path parse) files.
Proof.
  revert r. induction files as [|p files IH]; intros r; cbn zeta.
  - cbn. by rewrite !app_nil_r.
  - cbn [fold_left flat_map].
    destruct (IH (_scan_file base_path parse r p)) as (Hm & Hf & Hi & He).
    rewrite Hm, Hf, Hi, He.
    rewrite scan_file_models, scan_file_functions, scan_file_imports,
      scan_file_errors.
    by rewrite <- !app_assoc.
Qed.

Lemma scan_contents (files : list path) :
  let chosen := List.filter (selected base_path module_filter) files in
  let r := scan base_path module_filter parse files in
  models r = flat_map (models_of parse) chosen /\
  functions r = flat_map (functions_of parse) chosen /\
  imports r = flat_map (imports_of base_path parse) chosen /\
  errors r = flat_map (errors_of base_path parse) chosen.
Proof.
  cbn zeta. unfold scan, _analyze_init_files.
  cbn [models functions imports errors].
  rewrite scan_loop_filter.
  apply (scan_loop_contents _ empty_results).
Qed.

Lemma no_errors_of_visited (files : list path) :
  (forall p, In p files -> exists v, parse p = Visited v) ->
  flat_map (errors_of base_path parse) files = [].
Proof.
  induction files as [|p files IH]; intros H; [done|].
  cbn [flat_map]. rewrite IH by (intros q Hq; apply H; by right).
  destruct (H p (or_introl eq_refl)) as [v Hv].
  unfold errors_of. by rewrite Hv.
Qed.


End GracefulDegradation.


(** ** Similar models *)

Section SimilarModels.

Import DuplicateAnalyzer.

Lemma jaccard_sym (a b : entry) : jaccard a b = jaccard b a.
Proof.
  unfold jaccard, intersection, union.
  by rewrite (comm_L (∩) (e_fields a)), (comm_L (∪) (e_fields a)).
Qed.

Lemma pair_key_sym (a b : string) : pair_key a b = pair_key b a.
Proof.
  unfold pair_key, String.ltb.
  rewrite (String.compare_antisym a b).
  destruct (String.compare b a) eqn:E; cbn [CompOpp]; try done.
  apply String.compare_eq_iff in E. by subst.
Qed.

Lemma pair_key_inj (a b c d : string) :
  pair_key a b = pair_key c d -> (a = c /\ b = d) \/ (a = d /\ b = c).
Proof.
  unfold pair_key.
  destruct (String.ltb b a), (String.ltb d c); intros [= -> ->]; auto.
Qed.

Lemma finding_key_make (a b : entry) :
  finding_key (make_similar a b) = entry_key (a, b).
Proof. done. Qed.

(** The nested loops visit [all_pairs]. *)
Lemma pairwise_all_pairs (thr : Q) (l : list entry) (st : pair_state) :
  pairwise thr l st =
  fold_left (fun st p => compare_pair thr p.1 st p.2) (all_pairs l) st.
Proof.
  revert st. induction l as [|a l IH]; intros st; [done|].
  cbn [pairwise all_pairs]. rewrite fold_left_app, IH. f_equal.
  generalize l st. clear. intros l. induction l as [|b l IH]; intros st; [done|].
  cbn [fold_left List.map]. by rewrite IH.
Qed.

(** The findings of the loop: the reportable pairs among the evaluated
    ones, in order. *)
Lemma compare_pairs_findings (thr : Q) (pairs : list (entry * entry))
    (compared : gset (string * string)) (out : list similar_finding) :
  (fold_left (fun st p => compare_pair thr p.1 st p.2) pairs (compared, out)).2 =
  out ++ List.map (fun p => make_similar p.1 p.2)
           (List.filter (reportable thr) (evaluated_pairs compared pairs)).
Proof.
  revert compared out. induction pairs as [|p pairs IH]; intros compared out.
  - cbn. by rewrite app_nil_r.
  - cbn [fold_left evaluated_pairs]. unfold compare_pair at 2.
    cbn [fst snd]. fold (entry_key p).
    destruct (bool_decide (entry_key p ∈ compared)); [apply IH|].
    cbn [List.filter].
    assert (reportable thr p =
            negb (union p.1 p.2 =? 0) && Qle_bool thr (jaccard p.1 p.2)) as ->
      by done.
    destruct (union p.1 p.2 =? 0); cbn [negb andb]; [apply IH|].
    destruct (Qle_bool thr (jaccard p.1 p.2)); rewrite IH; [|done].
    cbn [List.map]. by rewrite <- app_assoc.
Qed.

Lemma find_similar_models_spec (thr : Q) (models : list model_info) :
  _find_similar_models thr models [] =
  List.map (fun p => make_similar p.1 p.2)
    (List.filter (reportable thr)
       (evaluated_pairs ∅ (all_pairs (models_by_fields models)))).
Proof.
  unfold _find_similar_models. by rewrite pairwise_all_pairs, compare_pairs_findings.
Qed.

Lemma all_pairs_members (l : list entry) (x y : entry) :
  In (x, y) (all_pairs l) -> In x l /\ In y l.
Proof.
  induction l as [|a l IH]; [done|]. cbn [all_pairs].
  rewrite List.in_app_iff, List.in_map_iff.
  intros [(b & [= <- <-] & Hb) | H].
  - split; [by left | by right].
  - destruct (IH H). split; by right.
Qed.

Lemma keys_with_first_NoDup (an : string) (l : list entry) :
  List.NoDup (List.map e_name l) ->
  List.NoDup (List.map (fun b => pair_key an (e_name b)) l).
Proof.
  induction l as [|b l IH]; cbn [List.map]; [constructor|].
  intros H. apply List.NoDup_cons_iff in H as [Hb Hl].
  constructor; [|by apply IH].
  intros Hin. apply List.in_map_iff in Hin as (b' & Hk & Hb').
  apply Hb. apply List.in_map_iff. exists b'. split; [|done].
  apply pair_key_inj in Hk as [[_ ?] | [? ?]]; congruence.
Qed.

(** Entries with distinct names give pairs with distinct keys. *)
Lemma all_pairs_keys_NoDup (l : list entry) :
  List.NoDup (List.map e_name l) ->
  List.NoDup (List.map entry_key (all_pairs l)).
Proof.
  induction l as [|a l IH]; [constructor|].
  cbn [List.map all_pairs]. intros H.
  apply List.NoDup_cons_iff in H as [Ha Hl].
  rewrite List.map_app, List.map_map.
  apply List.NoDup_app.
  - by apply (keys_with_first_NoDup (e_name a)).
  - by apply IH.
  - intros k Hk1 Hk2.
    apply List.in_map_iff in Hk1 as (b & <- & Hb).
    apply List.in_map_iff in Hk2 as ([x y] & Hk & Hxy).
    apply all_pairs_members in Hxy as [Hx Hy].
    apply Ha. unfold entry_key in Hk. cbn [fst snd] in Hk.
    apply pair_key_inj in Hk as [[? ?] | [? ?]].
    + apply List.in_map_iff. exists x. split; [congruence | done].
    + apply List.in_map_iff. exists y. split; [congruence | done].
Qed.

Lemma evaluated_pairs_sub (pairs : list (entry * entry))
    (compared : gset (string * string)) (p : entry * entry) :
  In p (evaluated_pairs compared pairs) ->
  In p pairs /\ entry_key p ∉ compared.
Proof.
  revert compared. induction pairs as [|q pairs IH]; intros compared; [done|].
  cbn [evaluated_pairs]. case_bool_decide as Hq.
  - intros H. destruct (IH _ H). split; [by right | done].
  - intros [<- | H]; [split; [by left | done]|].
    destruct (IH _ H) as [? Hn]. split; [by right|].
    intros Hc. apply Hn. apply elem_of_union. by right.
Qed.

(** No key is evaluated twice. *)
Lemma evaluated_pairs_keys_NoDup (pairs : list (entry * entry))
    (compared : gset (string * string)) :
  List.NoDup (List.map entry_key (evaluated_pairs compared pairs)).
Proof.
  revert compared. induction pairs as [|q pairs IH]; intros compared; [constructor|].
  cbn [evaluated_pairs]. case_bool_decide as Hq; [apply IH|].
  cbn [List.map]. constructor; [|apply IH].
  intros Hin. apply List.in_map_iff in Hin as (p & Hk & Hp).
  apply evaluated_pairs_sub in Hp as [_ Hn]. rewrite Hk in Hn. set_solver.
Qed.

(** With distinct keys, none met before, every pair is evaluated. *)
Lemma evaluated_pairs_all (pairs : list (entry * entry))
    (compared : gset (string * string)) :
  List.NoDup (List.map entry_key pairs) ->
  (forall p, In p pairs -> entry_key p ∉ compared) ->
  evaluated_pairs compared pairs = pairs.
Proof.
  revert compared. induction pairs as [|q pairs IH]; intros compared Hnd Hfresh.
  { reflexivity. }
  cbn [evaluated_pairs]. cbn [List.map] in Hnd.
  apply List.NoDup_cons_iff in Hnd as [Hq Hnd].
  case_bool_decide as Hc; [by destruct (Hfresh q (or_introl eq_refl))|].
  f_equal. apply IH; [done|].
  intros p Hp. apply not_elem_of_union. split; [|apply Hfresh; by right].
  intros Heq%elem_of_singleton. apply Hq. rewrite <- Heq.
  by apply List.in_map.
Qed.

Lemma NoDup_map_filter {A B : Type} (f : A -> B) (keep : A -> bool) (l : list A) :
  List.NoDup (List.map f l) -> List.NoDup (List.map f (List.filter keep l)).
Proof.
  induction l as [|x l IH]; [done|]. cbn [List.map List.filter].
  intros H. apply List.NoDup_cons_iff in H as [Hx Hl].
  destruct (keep x); [|by apply IH]. cbn [List.map].
  constructor; [|by apply IH].
  intros Hin. apply Hx. apply List.in_map_iff in Hin as (y & Hy & Hin).
  apply List.filter_In in Hin as [Hin _].
  apply List.in_map_iff. by exists y.
Qed.

Lemma models_by_fields_entries (models : list model_info) (e : entry) :
  In e (models_by_fields models) ->
  3 <= size (e_fields e) /\ exists m, In m models /\ e = as_entry m.
Proof.
  unfold models_by_fields. rewrite List.in_flat_map.
  intros (m & Hm & He). unfold entry_of in He.
  destruct (String.eqb (model_name m) ""); [done|].
  destruct (size (field_names m) <? 3) eqn:Hs; [done|].
  destruct He as [<- | []]. apply Nat.ltb_ge in Hs.
  split; [done|]. by exists m.
Qed.

Lemma union_positive (a b : entry) : 3 <= size (e_fields a) -> (union a b =? 0) = false.
Proof.
  intros H. apply Nat.eqb_neq. unfold union.
  assert (size (e_fields a) <= size (e_fields a ∪ e_fields b))
    by (apply subseteq_size; set_solver).
  lia.
Qed.

Lemma reportable_entries (thr : Q) (models : list model_info)
    (pairs : list (entry * entry)) :
  (forall p, In p pairs -> In p.1 (models_by_fields models)) ->
  List.filter (reportable thr) pairs =
  List.filter (fun p => Qle_bool thr (jaccard p.1 p.2)) pairs.
Proof.
  intros H. apply List.filter_ext_in. intros p Hp. unfold reportable.
  rewrite union_positive; [done|].
  by apply (models_by_fields_entries models), H.
Qed.

(** C7, amended.  Only models with at least three named fields are
    compared; the Jaccard similarity is symmetric; every finding stands for
    a visited pair with similarity at least 0.70; no unordered pair of
    names is reported twice; the severity is 'warning' from 0.85 on and
    'info' below.  A pair whose pair of names was compared before is
    skipped, so "flagged if and only if similarity >= 0.70" holds when the
    compared models have pairwise distinct names: then the findings are
    exactly the visited pairs with similarity at least 0.70, each once. *)
Theorem similar_models_pairwise (models : list model_info) (a b : entry) :
  let entries := models_by_fields models in
  let found := _find_similar_models default_threshold models [] in
  (forall e, In e entries ->
     3 <= size (e_fields e) /\ exists m, In m models /\ e = as_entry m) /\
  jaccard a b = jaccard b a /\
  (forall f, In f found ->
     exists x y, In (x, y) (all_pairs entries) /\ f = make_similar x y /\
                 (7 # 10 <= jaccard x y)%Q) /\
  List.NoDup (List.map finding_key found) /\
  (forall f, finding_key f = pair_key (model2 f) (model1 f)) /\
  sf_severity (make_similar a b) =
    (if Qle_bool (85 # 100) (jaccard a b) then warning else info) /\
  (List.NoDup (List.map e_name entries) ->
     found = List.map (fun p => make_similar p.1 p.2)
               (List.filter (fun p => Qle_bool (7 # 10) (jaccard p.1 p.2))
                            (all_pairs entries)) /\
     (In (a, b) (all_pairs entries) ->
        (In (make_similar a b) found <-> (7 # 10 <= jaccard a b)%Q))).
Proof.
  cbn zeta. rewrite find_similar_models_spec.
  assert (forall p, In p (evaluated_pairs ∅ (all_pairs (models_by_fields models))) ->
                    In p.1 (models_by_fields models)) as Hfirst.
  { intros [x y] Hp. apply evaluated_pairs_sub in Hp as [Hp _].
    by apply all_pairs_members in Hp as [? _]. }
  rewrite (reportable_entries _ models _ Hfirst).
  split; [apply models_by_fields_entries|].
  split; [apply jaccard_sym|].
  split.
  { intros f Hf. apply List.in_map_iff in Hf as ([x y] & <- & Hp).
    apply List.filter_In in Hp as [Hp Hq].
    apply evaluated_pairs_sub in Hp as [Hp _].
    exists x, y. split; [done|]. split; [done|]. by apply Qle_bool_iff. }
  split.
  { rewrite List.map_map.
    rewrite (List.map_ext _ entry_key) by (by intros [x y]).
    apply NoDup_map_filter, evaluated_pairs_keys_NoDup. }
  split; [intros f; apply pair_key_sym|].
  split; [done|].
  intros Hnames.
  rewrite evaluated_pairs_all;
    [|by apply all_pairs_keys_NoDup | intros; set_solver].
  split; [done|].
  intros Hab. rewrite <- Qle_bool_iff. split.
  - intros Hin. apply List.in_map_iff in Hin as ([x y] & Heq & Hp).
    apply List.filter_In in Hp as [_ Hq]. cbn [fst snd] in *.
    apply (f_equal similarity) in Heq. cbn [similarity make_similar] in Heq.
    by rewrite <- Heq.
  - intros Hq. apply List.in_map_iff. exists (a, b). split; [done|].
    apply List.filter_In. by split.
Qed.

End SimilarModels.

(** C7, as stated, fails: the second ResPartner class and billing.profile
    have the same three fields, similarity 1, and are not flagged, because
    the names (ResPartner, billing.profile) were compared before, for the
    first ResPartner class. *)
Lemma same_name_pair_not_flagged :
  let models := [DuplicateAnalyzer.partner_crm; DuplicateAnalyzer.partner_billing;
                 DuplicateAnalyzer.billing_profile] in
  let a := DuplicateAnalyzer.as_entry DuplicateAnalyzer.partner_billing in
  let b := DuplicateAnalyzer.as_entry DuplicateAnalyzer.billing_profile in
  In (a, b) (DuplicateAnalyzer.all_pairs (DuplicateAnalyzer.models_by_fields models)) /\
  (7 # 10 <= DuplicateAnalyzer.jaccard a b)%Q /\
  DuplicateAnalyzer._find_similar_models DuplicateAnalyzer.default_threshold models []
    = [].
Proof.
  cbn zeta. split; [|split].
  - vm_compute. right. right. left. reflexivity.
  - apply Qle_bool_iff. vm_compute. reflexivity.
  - vm_compute. reflexivity.
Qed.

(** Three models with distinct names: billing.profile and billing.contact
    share three of four fields and are flagged. *)
Lemma similar_models_pairwise_example :
  let models := [DuplicateAnalyzer.billing_profile; DuplicateAnalyzer.billing_contact;
                 DuplicateAnalyzer.partner_crm] in
  In (DuplicateAnalyzer.make_similar
        (DuplicateAnalyzer.as_entry DuplicateAnalyzer.billing_profile)
        (DuplicateAnalyzer.as_entry DuplicateAnalyzer.billing_contact))
     (DuplicateAnalyzer._find_similar_models DuplicateAnalyzer.default_threshold
        models []).
Proof.
  cbn zeta.
  apply (similar_models_pairwise
           [DuplicateAnalyzer.billing_profile; DuplicateAnalyzer.billing_contact;
            DuplicateAnalyzer.partner_crm]
           (DuplicateAnalyzer.as_entry DuplicateAnalyzer.billing_profile)
           (DuplicateAnalyzer.as_entry DuplicateAnalyzer.billing_contact)).
  - vm_compute.
    repeat (constructor; [cbn; intuition discriminate|]). constructor.
  - vm_compute. left. reflexivity.
  - apply Qle_bool_iff. vm_compute. reflexivity.
Defined.

(** ** Rename detection *)

Section Renames.

Import DuplicateAnalyzer.

Lemma eat_literal_length (lit s r : string) :
  Re.eat_literal lit s = Some r ->
  String.length s = String.length lit + String.length r.
Proof.
  revert s. induction lit as [|a lit IH]; intros s; cbn [Re.eat_literal].
  - by intros [= ->].
  - destruct s as [|b s]; [done|]. destruct (Re.ieq a b); [|done].
    intros H. apply IH in H. cbn [String.length]. lia.
Qed.

Lemma at_eos_length (r : string) : Re.at_eos r = true -> String.length r <= 1.
Proof. destruct r as [|c [|d r]]; cbn; try done; lia. Qed.

Lemma append_length (a b : string) :
  String.length (a +:+ b) = String.length a + String.length b.
Proof.
  induction a as [|c a IH]; [done|].
  change (S (String.length (a +:+ b)) = S (String.length a + String.length b)).
  by rewrite IH.
Qed.

(** Inside [c :: b ++ "_old"] the pattern does not match at the head. *)
Lemma old_no_match_before (c : ascii) (b : string) :
  Re.match_here old_pattern (String c (b +:+ "_old")) = None.
Proof.
  unfold Re.match_here. cbn [old_pattern suffix_pat Re.literal Re.digits Re.at_end].
  destruct b as [|c2 b].
  - cbn [String.append Re.eat_literal]. by destruct (Re.ieq "_" c).
  - destruct (Re.eat_literal "_old" (String c (String c2 b +:+ "_old")))
      as [r|] eqn:E; [|done].
    destruct (Re.at_eos r) eqn:Heos; [|done].
    apply eat_literal_length in E. apply at_eos_length in Heos.
    cbn [String.length] in E. rewrite append_length in E.
    cbn [String.length] in E. lia.
Qed.

Lemma old_search (b : string) : Re.search old_pattern (b +:+ "_old") = true.
Proof.
  unfold Re.search. cbn [old_pattern suffix_pat Re.at_start].
  induction b as [|c b IH]; [reflexivity|].
  change (String c b +:+ "_old") with (String c (b +:+ "_old")).
  cbn [Re.search_from]. by rewrite old_no_match_before.
Qed.

Lemma old_sub (b : string) : Re.sub old_pattern (b +:+ "_old") = b.
Proof.
  unfold Re.sub. cbn [old_pattern suffix_pat Re.at_start].
  induction b as [|c b IH]; [reflexivity|].
  change (String c b +:+ "_old") with (String c (b +:+ "_old")).
  cbn [Re.sub_from]. rewrite old_no_match_before. by rewrite IH.
Qed.

Lemma old_name_differs (b : string) : String.eqb b (b +:+ "_old") = false.
Proof.
  apply String.eqb_neq. intros H.
  apply (f_equal String.length) in H. rewrite append_length in H.
  cbn [String.length] in H. lia.
Qed.

Lemma old_name_nonempty (b : string) : String.eqb (b +:+ "_old") "" = false.
Proof. by destruct b. Qed.

(** What a name ending in [_old] contributes. *)
Lemma check_name_old (names : list string) (component_type b : string) :
  check_name names component_type (b +:+ "_old") =
  if PyStr.mem b names then [superseded component_type b]
  else [leftover component_type b].
Proof.
  unfold check_name. rewrite old_name_nonempty.
  unfold RENAME_PATTERNS. cbn [List.find].
  fold old_pattern. rewrite old_search, old_sub, old_name_differs.
  cbn [negb andb]. rewrite andb_true_r.
  by destruct (PyStr.mem b names).
Qed.

Lemma check_renames_flat (names all : list string) (component_type : string)
    (acc : list rename_finding) :
  fold_left (fun acc name => acc ++ check_name all component_type name) names acc =
  acc ++ flat_map (check_name all component_type) names.
Proof.
  revert acc. induction names as [|n names IH]; intros acc; cbn [fold_left flat_map].
  - by rewrite app_nil_r.
  - by rewrite IH, <- app_assoc.
Qed.

(** C8: when [b ++ "_old"] is among the names, [_check_renames] reports it
    as a renamed component: with [b] among the names, one warning finding
    that links the renamed [b ++ "_old"] to the original [b]; without, an info
    finding whose original is None.  In particular for 'Foo', 'Foo_old' and
    for a lone 'Bar_old'. *)
Theorem rename_detection (names : list string) (component_type b : string)
    (found : list rename_finding) :
  In (b +:+ "_old") names ->
  (In b names ->
     In (superseded component_type b) (_check_renames names component_type found)) /\
  (~ In b names ->
     In (leftover component_type b) (_check_renames names component_type found)) /\
  (_check_renames ["Foo"; "Foo_old"] component_type [] =
     [superseded component_type "Foo"]) /\
  (_check_renames ["Bar_old"] component_type [] =
     [leftover component_type "Bar"]).
Proof.
  intros Hold. unfold _check_renames. rewrite check_renames_flat.
  repeat split.
  - intros Hb. apply List.in_or_app. right. apply List.in_flat_map.
    exists (b +:+ "_old"). split; [done|].
    rewrite check_name_old.
    assert (PyStr.mem b names = true) as ->; [|by left].
    unfold PyStr.mem. apply List.existsb_exists. exists b. split; [done|].
    apply String.eqb_refl.
  - intros Hb. apply List.in_or_app. right. apply List.in_flat_map.
    exists (b +:+ "_old"). split; [done|].
    rewrite check_name_old.
    assert (PyStr.mem b names = false) as ->; [|by left].
    apply not_true_is_false. intros H. apply Hb.
    unfold PyStr.mem in H. apply List.existsb_exists in H as (y & Hin & Heq).
    apply String.eqb_eq in Heq. by subst.
Qed.

End Renames.

(** The two name lists of the specification. *)
Lemma rename_detection_example :
  In (DuplicateAnalyzer.superseded "model" "Foo")
     (DuplicateAnalyzer._check_renames ["Foo"; "Foo_old"] "model" []) /\
  In (DuplicateAnalyzer.leftover "model" "Bar")
     (DuplicateAnalyzer._check_renames ["Bar_old"] "model" []).
Proof.
  split.
  - destruct (rename_detection ["Foo"; "Foo_old"] "model" "Foo" []) as (H & _).
    + right. left. reflexivity.
    + apply H. left. reflexivity.
  - destruct (rename_detection ["Bar_old"] "model" "Bar" []) as (_ & H & _).
    + left. reflexivity.
    + apply H. intros [H' | []]. discriminate H'.
Defined.

(** ** Blocks of the commented-code detector *)

Section CommentBlocks.

Import CommentedCodeAnalyzer.

Variable re_match : string -> string -> bool.
Variable re_search : string -> string -> bool.
Variable strip : string -> string.
Variable rstrip : string -> string.
Variable comment_prefix : string.
Variable code_patterns : list string.
Variable code_type : string.

Local Abbreviation create_finding := (_create_finding re_search).
Local Abbreviation marked := (matches_deletion_marker re_search).
Local Abbreviation excluded := (matches_exclusion re_search).
Local Abbreviation code_like := (code_like re_match strip comment_prefix code_patterns).
Local Abbreviation block_of := (block_of re_match re_search strip rstrip comment_prefix code_patterns code_type).
Local Abbreviation marker_of := (marker_of re_search strip comment_prefix).
Local Abbreviation invariant := (block_loop_invariant re_match re_search strip rstrip comment_prefix code_patterns code_type).

Lemma create_finding_single (file_path rel_path line : string)
    (block_start : option nat) (i : nat) :
  create_finding file_path rel_path block_start [(i, line)] code_type =
  if marked line
  then Return (Some (make_finding re_search file_path rel_path block_start i
                       [(i, line)] code_type))
  else Return None.
Proof.
  unfold CommentedCodeAnalyzer._create_finding. cbn [length Nat.ltb Nat.leb andb snd].
  by destruct (marked line).
Qed.

Lemma in_numbered (lines : list string) (a i : nat) (line : string) :
  In (i, line) (combine (seq a (length lines)) lines) <->
  a <= i /\ nth_error lines (i - a) = Some line.
Proof.
  revert a. induction lines as [|l lines IH]; intros a.
  - cbn. split; [done|]. intros [_ H]. by destruct (i - a).
  - cbn [length seq combine In]. rewrite IH. split.
    + intros [[= <- <-] | [Hle Hn]].
      * split; [lia|]. by rewrite Nat.sub_diag.
      * split; [lia|]. replace (i - a) with (S (i - S a)) by lia. done.
    + intros [Hle Hn]. destruct (i - a) as [|k] eqn:E.
      * left. cbn in Hn. injection Hn as ->. f_equal. lia.
      * right. split; [lia|]. cbn in Hn. by replace (i - S a) with k by lia.
Qed.

Lemma last_seq (s k d : nat) : List.last (seq s (S k)) d = s + k.
Proof.
  revert s. induction k as [|k IH]; intros s; [cbn; lia|].
  change (seq s (S (S k))) with (s :: seq (S s) (S k)).
  change (List.last (s :: seq (S s) (S k)) d) with (List.last (seq (S s) (S k)) d).
  rewrite IH. lia.
Qed.

Lemma last_default (l : list nat) (n d : nat) :
  List.last l n = List.last (n :: l) d.
Proof.
  revert n. induction l as [|x l IH]; intros n; [done|].
  change (List.last (n :: x :: l) d) with (List.last (x :: l) d).
  change (List.last (x :: l) n) with
    (match l with [] => x | _ => List.last l n end).
  destruct l as [|y l]; [done|].
  change (List.last (x :: y :: l) d) with (List.last (y :: l) d).
  clear IH. revert y. induction l as [|z l IH]; intros y; [done|].
  change (List.last (y :: z :: l) n) with (List.last (z :: l) n).
  change (List.last (y :: z :: l) d) with (List.last (z :: l) d).
  apply IH.
Qed.

(** The line at the head of what is left of the file. *)
Lemma skipn_head (lines rest : list string) (line : string) (k : nat) :
  skipn k lines = line :: rest ->
  nth k lines "" = line /\ skipn (S k) lines = rest /\ k < length lines.
Proof.
  revert lines. induction k as [|k IH]; intros lines H.
  - destruct lines as [|l lines]; [done|]. cbn in H. injection H as -> ->.
    cbn. split; [done|]. split; [done|]. lia.
  - destruct lines as [|l lines]; [done|]. cbn [skipn] in H.
    destruct (IH _ H) as (H1 & H2 & H3). cbn [nth length].
    split; [done|]. split; [done|]. lia.
Qed.

Lemma skipn_nil (lines : list string) (k : nat) :
  skipn k lines = [] -> length lines <= k.
Proof.
  revert lines. induction k as [|k IH]; intros lines H.
  - destruct lines; [cbn; lia | done].
  - destruct lines as [|l lines]; [cbn; lia|]. cbn [skipn] in H.
    apply IH in H. cbn [length]. lia.
Qed.

(** [_create_finding] on the run of [n >= 1] lines of the file that starts
    at line [s]. *)
Lemma create_finding_run (file_path rel_path : string) (lines : list string)
    (s n : nat) :
  1 <= n ->
  create_finding file_path rel_path (Some s)
    (List.map (fun j => (j, rstrip (line_at lines j))) (seq s n)) code_type =
  if (n <? 2) && negb (marked (rstrip (line_at lines s))) then Return None
  else
    Return (Some (make_finding re_search file_path rel_path (Some s) (s + n - 1)
                    (List.map (fun j => (j, rstrip (line_at lines j)))
                       (seq s n)) code_type)).
Proof.
  intros Hn. unfold CommentedCodeAnalyzer._create_finding.
  rewrite length_map, length_seq.
  destruct n as [|m]; [lia|].
  cbn [seq List.map fst snd].
  destruct ((S m <? 2) && negb (marked (rstrip (line_at lines s))));
    [done|].
  do 3 f_equal. rewrite List.map_map. cbn [fst]. rewrite List.map_id.
  rewrite (last_default _ s 0).
  change (s :: seq (S s) m) with (seq s (S m)). rewrite last_seq. lia.
Qed.

(** Closing the open block keeps the invariant, with no block open. *)
Lemma end_block_invariant_closed (file_path rel_path : string)
    (lines : list string) (i n : nat) (st : loop_state) :
  invariant lines i n st ->
  exists st',
    end_block re_search code_type file_path rel_path st = Some st' /\
    invariant lines i 0 st'.
Proof.
  intros (Hn & Hi & Hall & Hblock & Hstart & Hcode & Hcover).
  unfold end_block. rewrite Hblock, Hstart.
  destruct n as [|m].
  - cbn [seq List.map]. eexists. split; [done|].
    unfold block_loop_invariant. cbn [block_lines block_start findings seq List.map].
    split; [lia|]. split; [done|]. split; [done|]. split; [done|]. split; [done|].
    split; [intros j; lia|].
    intros j Hj Hc Hm. destruct (Hcover j Hj Hc Hm) as [H | H]; [lia | by right].
  - assert (exists l ls,
              List.map (fun j => (j, rstrip (line_at lines j)))
                (seq (i - S m) (S m)) = l :: ls) as (l & ls & Hcons)
      by (cbn [seq List.map]; by eexists _, _).
    rewrite Hcons, <- Hcons.
    rewrite create_finding_run by lia.
    destruct ((S m <? 2) && negb (marked (rstrip (line_at lines (i - S m)))))
      eqn:Hskip.
    + eexists. split; [done|].
      unfold block_loop_invariant. cbn [block_lines block_start findings seq List.map].
      split; [lia|]. split; [done|]. split; [done|]. split; [done|]. split; [done|].
      split; [intros j; lia|].
      intros j Hj Hc Hm. destruct (Hcover j Hj Hc Hm) as [H | H]; [|by right].
      apply andb_true_iff in Hskip as [Hlt Hnot].
      apply Nat.ltb_lt in Hlt. assert (j = i - S m) as -> by lia.
      rewrite Hm in Hnot. done.
    + set (f := make_finding re_search file_path rel_path (Some (i - S m))
                  (i - S m + S m - 1) _ code_type).
      assert (block_of lines f) as Hf.
      { split; [done|]. exists (i - S m).
        unfold f, make_finding.
        cbn [line_start line_count line_end]. rewrite length_map, length_seq.
        split; [done|]. split; [lia|]. split; [lia|]. split; [lia|].
        split; [lia|]. split.
        - intros j Hj. apply Hcode. lia.
        - intros Hlt. apply andb_false_iff in Hskip as [Hge | Hm].
          + apply Nat.ltb_ge in Hge. lia.
          + by apply negb_false_iff in Hm. }
      eexists. split; [done|].
      unfold block_loop_invariant. cbn [block_lines block_start findings seq List.map].
      split; [lia|]. split; [done|].
      split; [apply Forall_app; split; [done | by constructor]|].
      split; [done|]. split; [done|]. split; [intros j; lia|].
      intros j Hj Hc Hm. right.
      destruct (Hcover j Hj Hc Hm) as [H | (g & Hg & Hgj)].
      * exists f. split; [apply List.in_app_iff; right; by left|].
        exists (i - S m). unfold f, make_finding. cbn [line_start line_end].
        split; [done|]. lia.
      * exists g. split; [apply List.in_app_iff; by left | done].
Qed.

(** One turn of the loop, on line [i] of the file. *)
Lemma loop_body_invariant (file_path rel_path : string) (lines : list string)
    (i n : nat) (st : loop_state) :
  i <= length lines ->
  invariant lines i n st ->
  exists st' n',
    loop_body re_match re_search strip rstrip comment_prefix code_patterns code_type file_path rel_path st (i, line_at lines i)
      = Some st' /\
    invariant lines (S i) n' st'.
Proof.
  intros Hlen Hinv. unfold loop_body. cbn [fst snd].
  destruct (code_like (line_at lines i)) eqn:Hcl.
  - unfold CommentedCodeAnalyzer.code_like in Hcl.
    apply andb_true_iff in Hcl as [Hc Hi]. rewrite Hc, Hi.
    destruct Hinv as (Hn & Hi' & Hall & Hblock & Hstart & Hcode & Hcover).
    eexists _, (S n). split; [done|].
    unfold block_loop_invariant. cbn [block_lines block_start findings].
    replace (S i - S n) with (i - n) by lia.
    split; [lia|]. split; [lia|]. split; [done|]. split; [|split; [|split]].
    + rewrite Hblock, seq_S, List.map_app. cbn [List.map].
      by replace (i - n + n) with i by lia.
    + rewrite Hstart. destruct n; [f_equal; lia | done].
    + intros j Hj. destruct (Nat.eq_dec j i) as [-> | Hne].
      * unfold CommentedCodeAnalyzer.code_like. by rewrite Hc, Hi.
      * apply Hcode. lia.
    + intros j Hj Hcj Hm. destruct (Nat.eq_dec j i) as [-> | Hne]; [left; lia|].
      apply Hcover; [lia | done | done].
  - assert ((if PyStr.startswith comment_prefix (strip (line_at lines i))
             then if is_code re_match code_patterns (line_at lines i)
                  then Some {| block_start :=
                                 match block_start st with
                                 | None => Some i
                                 | b => b
                                 end;
                               block_lines :=
                                 block_lines st ++ [(i, rstrip (line_at lines i))];
                               findings := findings st |}
                  else end_block re_search code_type file_path rel_path st
             else end_block re_search code_type file_path rel_path st) =
            end_block re_search code_type file_path rel_path st) as ->.
    { unfold CommentedCodeAnalyzer.code_like in Hcl.
      destruct (PyStr.startswith _ _); [|done].
      by destruct (is_code _ _). }
    destruct (end_block_invariant_closed file_path rel_path lines i n st Hinv)
      as (st' & Hend & Hn & Hi' & Hall & Hblock & Hstart & Hcode & Hcover).
    exists st', 0. split; [done|].
    unfold block_loop_invariant.
    split; [lia|]. split; [lia|]. split; [done|].
    split; [by rewrite Hblock|]. split; [done|]. split; [intros j; lia|].
    intros j Hj Hcj Hm. destruct (Nat.eq_dec j i) as [-> | Hne]; [congruence|].
    destruct (Hcover j) as [H | H]; [lia | done | done | lia | by right].
Qed.

(** The loop over what is left of the file from line [i] on. *)
Lemma run_loop_invariant_all (file_path rel_path : string)
    (lines rest : list string) (i n : nat) (st : loop_state) :
  1 <= i -> skipn (i - 1) lines = rest ->
  invariant lines i n st ->
  exists st' n',
    run_loop re_match re_search strip rstrip comment_prefix code_patterns code_type file_path rel_path st
      (combine (seq i (length rest)) rest) = Some st' /\
    invariant lines (length lines + 1) n' st'.
Proof.
  revert i n st. induction rest as [|line rest IH]; intros i n st Hi Hskip Hinv.
  - exists st, n. split; [done|].
    apply skipn_nil in Hskip.
    destruct Hinv as (Hn & Hi' & Hrest).
    by replace (length lines + 1) with i by lia.
  - apply skipn_head in Hskip as (Hline & Hskip & Hlt).
    cbn [length seq combine run_loop].
    destruct (loop_body_invariant file_path rel_path lines i n st)
      as (st1 & n1 & Hbody & Hinv1); [lia | done |].
    unfold line_at in Hbody. rewrite Hline in Hbody. rewrite Hbody.
    apply (IH (S i) n1 st1); [lia | | done].
    replace (S i - 1) with (S (i - 1)) by lia. done.
Qed.

(** The block loop returns, its findings are runs of code-like lines, and
    every code-like line that matches a deletion marker is in one. *)
Lemma block_findings_spec (file_path rel_path : string) (lines : list string) :
  exists found,
    block_findings re_match re_search strip rstrip comment_prefix code_patterns code_type file_path rel_path lines = Some found /\
    Forall (block_of lines) found /\
    (forall j, 1 <= j <= length lines -> code_like (line_at lines j) = true ->
       marked (rstrip (line_at lines j)) = true ->
       exists f, In f found /\ covers f j).
Proof.
  unfold block_findings, enumerate1.
  destruct (run_loop_invariant_all file_path rel_path lines lines 1 0
              {| block_start := None; block_lines := []; findings := [] |})
    as (st & n & -> & Hinv); [lia | done | |].
  { unfold block_loop_invariant. cbn [block_lines block_start findings seq List.map].
    split; [lia|]. split; [lia|]. split; [constructor|]. split; [done|].
    split; [done|]. split; intros j; lia. }
  destruct (end_block_invariant_closed file_path rel_path lines _ n st Hinv)
    as (st' & -> & Hn & Hi & Hall & Hblock & Hstart & Hcode & Hcover).
  exists (findings st'). split; [done|]. split; [done|].
  intros j Hj Hc Hm. destruct (Hcover j) as [H | H]; [lia | done | done | lia | done].
Qed.

(** The marker pass reports the comment lines that, stripped, match a
    deletion marker and no exclusion, and no other line. *)
Lemma marker_findings_spec (file_path rel_path : string) (lines : list string) :
  (forall f, In f (_find_deletion_markers re_search strip lines file_path rel_path comment_prefix) ->
     marker_of lines f) /\
  (forall i, 1 <= i <= length lines ->
     PyStr.startswith comment_prefix (strip (line_at lines i)) = true ->
     excluded (strip (line_at lines i)) = false ->
     marked (strip (line_at lines i)) = true ->
     exists f, In f (_find_deletion_markers re_search strip lines file_path rel_path comment_prefix) /\
               finding_type f = "deletion_marker" /\ line_start f = Some i).
Proof.
  unfold _find_deletion_markers, enumerate1. split.
  - intros f Hf. apply List.in_flat_map in Hf as ([k line] & Hin & Hf).
    cbn [fst snd] in Hf. apply in_numbered in Hin as [Hle Hn].
    assert (k - 1 < length lines) as Hlt by (apply nth_error_Some; congruence).
    assert (line_at lines k = line) as Hline
      by (unfold line_at; by apply nth_error_nth).
    destruct (PyStr.startswith comment_prefix (strip line)) eqn:Hp; [|done].
    destruct (excluded (strip line)) eqn:He; [done|].
    destruct (marked (strip line)) eqn:Hm; [|done].
    destruct Hf as [<- | []]. split; [done|]. split; [done|].
    exists k. cbn [line_start line_end]. rewrite Hline.
    split; [done|]. split; [done|]. split; [lia|]. done.
  - intros i Hi Hp He Hm. eexists. split; [|split].
    + apply List.in_flat_map. exists (i, line_at lines i). split.
      * apply in_numbered. split; [lia|]. unfold line_at.
        apply nth_error_nth'. lia.
      * cbn [fst snd]. rewrite Hp, He, Hm. by left.
    + done.
    + done.
Qed.


End CommentBlocks.



(** ** The issue buckets and the score *)

Section IssueBuckets.

Import EcosystemAnalyzer EcosystemReport.

Lemma count_split {A : Type} (keep : A -> bool) (l : list A) :
  length (List.filter keep l) + length (List.filter (fun x => negb (keep x)) l)
  = length l.
Proof.
  induction l as [|x l IH]; [done|]. cbn [List.filter].
  destruct (keep x); cbn [negb length]; lia.
Qed.

Lemma file_by_error_sizes (b : buckets) (i : issue) :
  length (critical_issues (file_by_error b i)) =
    length (critical_issues b) +
    (if has_severity "info" "error" (details i) then 1 else 0) /\
  length (warnings (file_by_error b i)) =
    length (warnings b) +
    (if has_severity "info" "warning" (details i) then 1 else 0).
Proof.
  unfold file_by_error, has_severity.
  destruct (String.eqb (Py.get (Py.severity (details i)) "info") "error") eqn:E.
  - apply String.eqb_eq in E. rewrite E.
    cbn [critical_issues warnings]. rewrite length_app. cbn. lia.
  - destruct (String.eqb (Py.get (Py.severity (details i)) "info") "warning");
      cbn [critical_issues warnings]; rewrite ?length_app; cbn; lia.
Qed.

Lemma file_by_critical_sizes (b : buckets) (i : issue) :
  length (critical_issues (file_by_critical b i)) =
    length (critical_issues b) +
    (if ExternalPathAnalyzer.is_critical (details i) then 1 else 0) /\
  length (warnings (file_by_critical b i)) =
    length (warnings b) +
    (if ExternalPathAnalyzer.is_critical (details i) then 0 else 1).
Proof.
  unfold file_by_critical, ExternalPathAnalyzer.is_critical.
  destruct (Py.severity (details i)) as [s|]; cbn [Py.get].
  - destruct (String.eqb s "critical"); cbn [critical_issues warnings];
      rewrite ?length_app; cbn; lia.
  - change (String.eqb "warning" "critical") with false.
    cbn [critical_issues warnings]. rewrite ?length_app. cbn. lia.
Qed.

(** A loop nest adds, to each bucket, as many issues as its test selects
    among the items of all groups. *)
Lemma each_category_sizes (cat : string) (type_of : string -> Py.item -> string)
    (put : buckets -> issue -> buckets) (to_critical to_warnings : Py.item -> bool)
    (groups : list (string * list Py.item)) (b : buckets) :
  (forall b i,
     length (critical_issues (put b i)) =
       length (critical_issues b) + (if to_critical (details i) then 1 else 0) /\
     length (warnings (put b i)) =
       length (warnings b) + (if to_warnings (details i) then 1 else 0)) ->
  length (critical_issues (each_category cat type_of put groups b)) =
    length (critical_issues b) +
    length (List.filter to_critical (concat (List.map snd groups))) /\
  length (warnings (each_category cat type_of put groups b)) =
    length (warnings b) +
    length (List.filter to_warnings (concat (List.map snd groups))).
Proof.
  intros Hput. unfold each_category. revert b.
  induction groups as [|[c items] groups IH]; intros b.
  - cbn. lia.
  - cbn [fold_left List.map concat snd fst].
    rewrite !List.filter_app, !length_app.
    destruct (IH (fold_left
                    (fun b item =>
                       put b {| category := cat; type_ := type_of c item;
                                details := item |}) items b)) as [Hc Hw].
    rewrite Hc, Hw. clear IH Hc Hw.
    revert b. induction items as [|item items IH]; intros b.
    + cbn. lia.
    + cbn [fold_left List.filter].
      destruct (IH (put b {| category := cat; type_ := type_of c item;
                             details := item |})) as [Hc Hw].
      destruct (Hput b {| category := cat; type_ := type_of c item;
                          details := item |}) as [Hpc Hpw].
      cbn [details] in Hpc, Hpw.
      destruct (to_critical item), (to_warnings item); cbn [length]; lia.
Qed.

(** The two buckets after the four loop nests, counted on the lists the
    loops read. *)
Lemma categorize_issues_lengths (r : results) :
  length (critical_issues (_categorize_issues r)) =
    length (List.filter (has_severity "info" "error") (screened_items r)) +
    length (List.filter ExternalPathAnalyzer.is_critical
              (ExternalPathAnalyzer.all_items (external_path_findings r))) /\
  length (warnings (_categorize_issues r)) =
    length (List.filter (has_severity "info" "warning") (screened_items r)) +
    length (List.filter (fun i => negb (ExternalPathAnalyzer.is_critical i))
              (ExternalPathAnalyzer.all_items (external_path_findings r))).
Proof.
  unfold _categorize_issues.
  set (b0 := {| critical_issues := []; warnings := [] |}).
  set (b1 := each_category "duplicate" _ _ _ b0).
  set (b2 := each_category "orphan" _ _ _ b1).
  set (b3 := each_category "commented_code" _ _ _ b2).
  destruct (each_category_sizes "duplicate" (fun c _ => c) file_by_error
              (has_severity "info" "error") (has_severity "info" "warning")
              (duplicate_categories (duplicate_findings r)) b0 file_by_error_sizes)
    as [H1c H1w].
  destruct (each_category_sizes "orphan" (fun c _ => c) file_by_error
              (has_severity "info" "error") (has_severity "info" "warning")
              (orphan_categories (orphan_findings r)) b1 file_by_error_sizes)
    as [H2c H2w].
  destruct (each_category_sizes "commented_code"
              (fun c item => Py.get (Py.finding_type item) ("commented_" +:+ c))
              file_by_error
              (has_severity "info" "error") (has_severity "info" "warning")
              (commented_categories r) b2 file_by_error_sizes)
    as [H3c H3w].
  destruct (each_category_sizes "external_path" (fun c _ => c) file_by_critical
              ExternalPathAnalyzer.is_critical
              (fun i => negb (ExternalPathAnalyzer.is_critical i))
              (external_categories (external_path_findings r)) b3) as [H4c H4w].
  { intros b i. destruct (file_by_critical_sizes b i) as [Hc Hw].
    split; [done|]. rewrite Hw.
    by destruct (ExternalPathAnalyzer.is_critical (details i)). }
  fold b1 in H1c, H1w. fold b2 in H2c, H2w. fold b3 in H3c, H3w.
  assert (concat (List.map snd (external_categories (external_path_findings r))) =
          ExternalPathAnalyzer.all_items (external_path_findings r)) as Hext.
  { unfold external_categories, ExternalPathAnalyzer.all_items.
    cbn [List.map concat snd]. by rewrite app_nil_r. }
  rewrite Hext in H4c, H4w.
  unfold screened_items. rewrite !List.filter_app, !length_app.
  split.
  - rewrite H4c, H3c, H2c, H1c. cbn [b0 critical_issues length]. lia.
  - rewrite H4w, H3w, H2w, H1w. cbn [b0 warnings length]. lia.
Qed.

Lemma file_by_error_contents (b : buckets) (i : issue) :
  critical_issues (file_by_error b i) =
    critical_issues b ++ (if has_severity "info" "error" (details i) then [i] else []) /\
  warnings (file_by_error b i) =
    warnings b ++ (if has_severity "info" "warning" (details i) then [i] else []).
Proof.
  unfold file_by_error, has_severity.
  destruct (String.eqb (Py.get (Py.severity (details i)) "info") "error") eqn:E.
  - apply String.eqb_eq in E. rewrite E.
    cbn [critical_issues warnings]. by rewrite app_nil_r.
  - destruct (String.eqb (Py.get (Py.severity (details i)) "info") "warning");
      cbn [critical_issues warnings]; by rewrite ?app_nil_r.
Qed.

Lemma file_by_critical_contents (b : buckets) (i : issue) :
  critical_issues (file_by_critical b i) =
    critical_issues b ++
    (if ExternalPathAnalyzer.is_critical (details i) then [i] else []) /\
  warnings (file_by_critical b i) =
    warnings b ++
    (if negb (ExternalPathAnalyzer.is_critical (details i)) then [i] else []).
Proof.
  unfold file_by_critical, ExternalPathAnalyzer.is_critical.
  destruct (Py.severity (details i)) as [s|]; cbn [Py.get].
  - destruct (String.eqb s "critical"); cbn [critical_issues warnings negb];
      by rewrite ?app_nil_r.
  - change (String.eqb "warning" "critical") with false.
    cbn [critical_issues warnings negb]. by rewrite app_nil_r.
Qed.

(** A loop nest appends, to each bucket and in the order of the loop, the
    issues its test selects. *)
Lemma each_category_contents (cat : string) (type_of : string -> Py.item -> string)
    (put : buckets -> issue -> buckets) (to_critical to_warnings : issue -> bool)
    (groups : list (string * list Py.item)) (b : buckets) :
  (forall b i,
     critical_issues (put b i) =
       critical_issues b ++ (if to_critical i then [i] else []) /\
     warnings (put b i) =
       warnings b ++ (if to_warnings i then [i] else [])) ->
  critical_issues (each_category cat type_of put groups b) =
    critical_issues b ++ List.filter to_critical (issues_of cat type_of groups) /\
  warnings (each_category cat type_of put groups b) =
    warnings b ++ List.filter to_warnings (issues_of cat type_of groups).
Proof.
  intros Hput. unfold each_category, issues_of. revert b.
  induction groups as [|[c items] groups IH]; intros b.
  - cbn. by rewrite !app_nil_r.
  - cbn [fold_left flat_map snd fst].
    rewrite !List.filter_app, !app_assoc.
    destruct (IH (fold_left
                    (fun b item =>
                       put b {| category := cat; type_ := type_of c item;
                                details := item |}) items b)) as [Hc Hw].
    rewrite Hc, Hw. clear IH Hc Hw.
    enough (critical_issues
              (fold_left
                 (fun b item =>
                    put b {| category := cat; type_ := type_of c item;
                             details := item |}) items b) =
            critical_issues b ++
            List.filter to_critical
              (List.map (fun item => {| category := cat; type_ := type_of c item;
                                        details := item |}) items) /\
            warnings
              (fold_left
                 (fun b item =>
                    put b {| category := cat; type_ := type_of c item;
                             details := item |}) items b) =
            warnings b ++
            List.filter to_warnings
              (List.map (fun item => {| category := cat; type_ := type_of c item;
                                        details := item |}) items)) as [-> ->]
      by done.
    revert b. induction items as [|item items IH]; intros b.
    + cbn. by rewrite !app_nil_r.
    + cbn [fold_left List.map List.filter].
      destruct (IH (put b {| category := cat; type_ := type_of c item;
                             details := item |})) as [Hc Hw].
      destruct (Hput b {| category := cat; type_ := type_of c item;
                          details := item |}) as [Hpc Hpw].
      rewrite Hc, Hw, Hpc, Hpw.
      destruct (to_critical _), (to_warnings _); by rewrite <- !app_assoc.
Qed.

Lemma filter_details_length (keep : Py.item -> bool) (cat : string)
    (type_of : string -> Py.item -> string) (groups : list (string * list Py.item)) :
  length (List.filter (fun i => keep (details i)) (issues_of cat type_of groups)) =
  length (List.filter keep (concat (List.map snd groups))).
Proof.
  unfold issues_of. induction groups as [|[c items] groups IH]; [done|].
  cbn [flat_map List.map concat snd fst].
  rewrite !List.filter_app, !length_app, IH. f_equal.
  induction items as [|item items IHi]; [done|].
  cbn [List.map List.filter details].
  destruct (keep item); cbn [length]; by rewrite IHi.
Qed.

(** X1: What the two buckets hold.  The critical bucket is the issues of
    severity 'error' from the duplicate, orphan and commented-code
    categories, followed by the critical external-path issues; the warning
    bucket is the issues of severity 'warning' from the first three,
    followed by every other external-path issue; each in the order of the
    loops, with its category, type and finding.  'info' findings and
    similar-model findings are in neither, and the external parts are as
    many as the external-path summary counts. *)
Theorem bucket_contents (r : results) :
  let b := _categorize_issues r in
  let ext := ExternalPathAnalyzer._generate_summary (external_path_findings r) in
  let critical_external :=
    List.filter (fun i => ExternalPathAnalyzer.is_critical (details i))
      (external_issues r) in
  let other_external :=
    List.filter (fun i => negb (ExternalPathAnalyzer.is_critical (details i)))
      (external_issues r) in
  critical_issues b =
    List.filter (fun i => has_severity "info" "error" (details i))
      (screened_issues r) ++ critical_external /\
  warnings b =
    List.filter (fun i => has_severity "info" "warning" (details i))
      (screened_issues r) ++ other_external /\
  length critical_external = ExternalPathAnalyzer.critical_count ext /\
  length other_external = ExternalPathAnalyzer.warning_count ext /\
  ExternalPathAnalyzer.critical_count ext + ExternalPathAnalyzer.warning_count ext =
    ExternalPathAnalyzer.total_findings ext.
Proof.
  cbn zeta. unfold _categorize_issues.
  set (b0 := {| critical_issues := []; warnings := [] |}).
  set (b1 := each_category "duplicate" _ _ _ b0).
  set (b2 := each_category "orphan" _ _ _ b1).
  set (b3 := each_category "commented_code" _ _ _ b2).
  destruct (each_category_contents "duplicate" (fun c _ => c) file_by_error
              (fun i => has_severity "info" "error" (details i))
              (fun i => has_severity "info" "warning" (details i))
              (duplicate_categories (duplicate_findings r)) b0
              file_by_error_contents) as [H1c H1w].
  destruct (each_category_contents "orphan" (fun c _ => c) file_by_error
              (fun i => has_severity "info" "error" (details i))
              (fun i => has_severity "info" "warning" (details i))
              (orphan_categories (orphan_findings r)) b1
              file_by_error_contents) as [H2c H2w].
  destruct (each_category_contents "commented_code"
              (fun c item => Py.get (Py.finding_type item) ("commented_" +:+ c))
              file_by_error
              (fun i => has_severity "info" "error" (details i))
              (fun i => has_severity "info" "warning" (details i))
              (commented_categories r) b2 file_by_error_contents) as [H3c H3w].
  destruct (each_category_contents "external_path" (fun c _ => c) file_by_critical
              (fun i => ExternalPathAnalyzer.is_critical (details i))
              (fun i => negb (ExternalPathAnalyzer.is_critical (details i)))
              (external_categories (external_path_findings r)) b3
              file_by_critical_contents) as [H4c H4w].
  fold b1 in H1c, H1w. fold b2 in H2c, H2w. fold b3 in H3c, H3w.
  assert (concat (List.map snd (external_categories (external_path_findings r))) =
          ExternalPathAnalyzer.all_items (external_path_findings r)) as Hext.
  { unfold external_categories, ExternalPathAnalyzer.all_items.
    cbn [List.map concat snd]. by rewrite app_nil_r. }
  unfold screened_issues, external_issues.
  split; [|split; [|split; [|split]]].
  - rewrite H4c, H3c, H2c, H1c. cbn [b0 critical_issues app].
    by rewrite !List.filter_app, <- !app_assoc.
  - rewrite H4w, H3w, H2w, H1w. cbn [b0 warnings app].
    by rewrite !List.filter_app, <- !app_assoc.
  - by rewrite (filter_details_length ExternalPathAnalyzer.is_critical), Hext.
  - by rewrite (filter_details_length
                  (fun i => negb (ExternalPathAnalyzer.is_critical i))), Hext.
  - unfold ExternalPathAnalyzer._generate_summary.
    cbn [ExternalPathAnalyzer.critical_count ExternalPathAnalyzer.warning_count
         ExternalPathAnalyzer.total_findings].
    rewrite count_split. unfold ExternalPathAnalyzer.all_items.
    rewrite !length_app. lia.
Qed.

End IssueBuckets.

Section ScoreShape.

Import EcosystemAnalyzer EcosystemReport.

Lemma py_int_mono (x y : Q) : (x <= y)%Q -> (py_int x <= py_int y)%Z.
Proof.
  intros H. unfold py_int.
  destruct (Qle_bool 0 x) eqn:Hx, (Qle_bool 0 y) eqn:Hy.
  - by apply Qfloor_resp_le.
  - apply Qle_bool_iff in Hx.
    assert (~ (0 <= y)%Q) by (rewrite <- Qle_bool_iff; congruence). lra.
  - assert (~ (0 <= x)%Q) as Hn by (rewrite <- Qle_bool_iff; congruence).
    apply Qle_bool_iff in Hy.
    transitivity (Qceiling 0).
    + apply Qceiling_resp_le. lra.
    + change (Qceiling 0) with (Qfloor 0). by apply Qfloor_resp_le.
  - by apply Qceiling_resp_le.
Qed.

(** X2: The score lies between 0 and 100, and one more hardcoded-external-path
    finding, whatever its severity, never raises it. *)
Theorem health_score_bounded_and_monotone (r : results) (finding : Py.item) :
  (0 <= health_score r <= 100)%Z /\
  (health_score (add_hardcoded_path r finding) <= health_score r)%Z.
Proof.
  split; [unfold health_score, _calculate_health_score; lia|].
  unfold health_score, _calculate_health_score.
  apply Z.max_le_compat_l, Z.min_le_compat_l, py_int_mono.
  destruct (categorize_issues_lengths r) as [Hc Hw].
  destruct (categorize_issues_lengths (add_hardcoded_path r finding)) as [Hc' Hw'].
  rewrite Hc, Hw, Hc', Hw'.
  change (screened_items (add_hardcoded_path r finding)) with (screened_items r).
  generalize (length (List.filter (has_severity "info" "error") (screened_items r))).
  generalize (length (List.filter (has_severity "info" "warning") (screened_items r))).
  intros nw ne.
  cbn [add_hardcoded_path duplicate_findings orphan_findings external_path_findings
       python_errors xml_errors].
  generalize (DuplicateAnalyzer.total_issues
                (DuplicateAnalyzer._generate_summary (duplicate_findings r))).
  generalize (OrphanAnalyzer.total_issues (orphan_findings r)).
  generalize (python_errors r). generalize (xml_errors r).
  intros xe pe ot dt.
  unfold ExternalPathAnalyzer._generate_summary, ExternalPathAnalyzer.all_items.
  cbn [ExternalPathAnalyzer.s_hardcoded_external_paths
       ExternalPathAnalyzer.s_relative_path_escapes
       ExternalPathAnalyzer.s_suspicious_file_operations
       ExternalPathAnalyzer.s_external_imports
       ExternalPathAnalyzer.critical_count ExternalPathAnalyzer.warning_count
       ExternalPathAnalyzer.hardcoded_external_paths
       ExternalPathAnalyzer.relative_path_escapes
       ExternalPathAnalyzer.suspicious_file_operations
       ExternalPathAnalyzer.external_imports].
  destruct (external_path_findings r) as [hp re so ei].
  cbn [ExternalPathAnalyzer.hardcoded_external_paths
       ExternalPathAnalyzer.relative_path_escapes
       ExternalPathAnalyzer.suspicious_file_operations
       ExternalPathAnalyzer.external_imports].
  rewrite !List.filter_app, !length_app. cbn [List.filter].
  set (c1 := length (List.filter ExternalPathAnalyzer.is_critical hp)).
  set (c2 := length (List.filter ExternalPathAnalyzer.is_critical re)).
  set (c3 := length (List.filter ExternalPathAnalyzer.is_critical so)).
  set (c4 := length (List.filter ExternalPathAnalyzer.is_critical ei)).
  set (w1 := length (List.filter (fun i => negb (ExternalPathAnalyzer.is_critical i)) hp)).
  set (w2 := length (List.filter (fun i => negb (ExternalPathAnalyzer.is_critical i)) re)).
  set (w3 := length (List.filter (fun i => negb (ExternalPathAnalyzer.is_critical i)) so)).
  set (w4 := length (List.filter (fun i => negb (ExternalPathAnalyzer.is_critical i)) ei)).
  assert (forall n m : nat, n <= m -> (qn n <= qn m)%Q) as Hmono.
  { intros n m Hnm. unfold qn. rewrite <- Zle_Qle. lia. }
  assert (qn (ne + (c1 + (c2 + (c3 + c4)))) <=
          qn (ne + (c1 + length (if ExternalPathAnalyzer.is_critical finding
                                 then [finding] else []) + (c2 + (c3 + c4)))))%Q as H1
    by (apply Hmono; lia).
  assert (qn (nw + (w1 + (w2 + (w3 + w4)))) <=
          qn (nw + (w1 + length (if negb (ExternalPathAnalyzer.is_critical finding)
                                 then [finding] else []) + (w2 + (w3 + w4)))))%Q as H2
    by (apply Hmono; lia).
  assert (qn (length hp) <= qn (length hp + length [finding]))%Q as H3
    by (apply Hmono; lia).
  lra.
Qed.

End ScoreShape.

Section Recommendations.

Import EcosystemAnalyzer EcosystemReport.

Lemma insert_by_rank_perm (x : recommendation) (l : list recommendation) :
  Permutation (x :: l) (insert_by_rank x l).
Proof.
  induction l as [|y l IH]; cbn [insert_by_rank]; [done|].
  destruct (rank (rec_priority x) <=? rank (rec_priority y)); [done|].
  rewrite perm_swap. by constructor.
Qed.

Lemma insert_by_rank_sorted (x : recommendation) (l : list recommendation) :
  StronglySorted by_rank l -> StronglySorted by_rank (insert_by_rank x l).
Proof.
  induction l as [|y l IH]; intros Hs; cbn [insert_by_rank].
  - repeat constructor.
  - destruct (rank (rec_priority x) <=? rank (rec_priority y)) eqn:E.
    + apply Nat.leb_le in E. constructor; [done|].
      apply StronglySorted_inv in Hs as [_ Hy].
      constructor; [done|].
      eapply Forall_impl; [exact Hy|]. unfold by_rank. intros z Hz. lia.
    + apply Nat.leb_gt in E.
      apply StronglySorted_inv in Hs as [Hl Hy].
      constructor; [by apply IH|].
      apply (Permutation_Forall (insert_by_rank_perm x l)).
      constructor; [unfold by_rank; lia | done].
Qed.

Lemma sorted_by_rank_perm (l : list recommendation) :
  Permutation l (sorted_by_rank l).
Proof.
  induction l as [|x l IH]; [done|]. cbn [sorted_by_rank fold_right].
  rewrite <- insert_by_rank_perm. by constructor.
Qed.

Lemma sorted_by_rank_sorted (l : list recommendation) :
  StronglySorted by_rank (sorted_by_rank l).
Proof.
  induction l as [|x l IH]; [constructor|]. by apply insert_by_rank_sorted.
Qed.

(** X3: The recommendations come out ordered critical, high, medium, low; the
    sort loses and adds none; and as soon as there is a dangling model
    reference or a hardcoded external path, the list starts with a critical
    recommendation. *)
Theorem recommendations_by_priority (r : results) (ps : pattern_summaries) :
  StronglySorted by_rank (_generate_recommendations r ps) /\
  Permutation (appended r ps) (_generate_recommendations r ps) /\
  (OrphanAnalyzer.dangling_model_refs (orphan_findings r) <> [] \/
   ExternalPathAnalyzer.hardcoded_external_paths (external_path_findings r) <> [] ->
   exists first rest,
     _generate_recommendations r ps = first :: rest /\
     rec_priority first = critical).
Proof.
  split; [apply sorted_by_rank_sorted|].
  split; [apply sorted_by_rank_perm|].
  intros Hsome.
  assert (exists c, In c (appended r ps) /\ rec_priority c = critical) as (c & Hc & Hp).
  { unfold appended. cbn zeta. destruct Hsome as [H | H].
    - destruct (OrphanAnalyzer.dangling_model_refs (orphan_findings r)) eqn:E; [done|].
      eexists. split; [|shelve].
      do 3 (apply List.in_or_app; right). apply List.in_or_app. left.
      cbn [length Nat.ltb Nat.leb when]. left. reflexivity.
    - unfold ExternalPathAnalyzer._generate_summary.
      cbn [ExternalPathAnalyzer.s_hardcoded_external_paths].
      destruct (ExternalPathAnalyzer.hardcoded_external_paths (external_path_findings r))
        eqn:E; [done|].
      eexists. split; [|shelve].
      do 11 (apply List.in_or_app; right). apply List.in_or_app. left.
      cbn [length Nat.ltb Nat.leb when]. left. reflexivity. }
  Unshelve. 2,3: reflexivity.
  unfold _generate_recommendations.
  pose proof (sorted_by_rank_sorted (appended r ps)) as Hs.
  pose proof (sorted_by_rank_perm (appended r ps)) as Hperm.
  destruct (sorted_by_rank (appended r ps)) as [|first rest].
  - apply Permutation_sym, Permutation_nil in Hperm. rewrite Hperm in Hc. done.
  - exists first, rest. split; [done|].
    apply StronglySorted_inv in Hs as [_ Hall].
    apply (Permutation_in _ Hperm) in Hc. destruct Hc as [-> | Hc]; [done|].
    rewrite List.Forall_forall in Hall. specialize (Hall c Hc).
    unfold by_rank in Hall. rewrite Hp in Hall. cbn in Hall.
    destruct (rec_priority first); cbn in Hall; try lia. done.
Qed.

End Recommendations.

(** ** The finding table across calls and scans *)

Section FindingTableProps.

Import InsightsFinding FindingTable.

Variable sha256_hexdigest : string -> string.
Variable json_loads : string -> option (string -> option string).

Local Abbreviation find_or_create := (find_or_create sha256_hexdigest json_loads).
Local Abbreviation fingerprint_of := (fingerprint_of sha256_hexdigest json_loads).

Lemma same_id_same_row (l : list finding) (a b : finding) :
  List.NoDup (List.map rec_id l) -> In a l -> In b l -> rec_id a = rec_id b -> a = b.
Proof.
  induction l as [|x l IH]; [done|]. cbn [List.map].
  intros Hnd Ha Hb Hid. apply List.NoDup_cons_iff in Hnd as [Hx Hnd].
  destruct Ha as [-> | Ha], Hb as [-> | Hb]; try done.
  - exfalso. apply Hx. rewrite Hid. by apply List.in_map.
  - exfalso. apply Hx. rewrite <- Hid. by apply List.in_map.
  - by apply IH.
Qed.

(** Replacing a row by one with the same id keeps every projection that
    the replacement keeps. *)
Lemma write_map_same {B : Type} (f : finding -> B) (t : table)
    (existing r : finding) :
  List.NoDup (List.map rec_id (rows t)) -> In existing (rows t) ->
  f r = f existing ->
  List.map f (rows (write t (rec_id existing) r)) = List.map f (rows t).
Proof.
  intros Hnd Hin Hf. unfold write. cbn [rows]. rewrite List.map_map.
  apply List.map_ext_in. intros x Hx.
  destruct (Nat.eqb (rec_id x) (rec_id existing)) eqn:E; [|done].
  apply Nat.eqb_eq in E. rewrite Hf. f_equal.
  symmetry. by apply (same_id_same_row (rows t)).
Qed.

Lemma search_none (t : table) (fp : string) :
  search t fp = None -> ~ In fp (List.map fingerprint (rows t)).
Proof.
  unfold search. intros H Hin. apply List.in_map_iff in Hin as (r & <- & Hr).
  pose proof (List.find_none _ _ H r Hr) as Hn. cbn in Hn.
  by rewrite String.eqb_refl in Hn.
Qed.

Lemma NoDup_snoc {A : Type} (l : list A) (x : A) :
  List.NoDup l -> ~ In x l -> List.NoDup (l ++ [x]).
Proof.
  intros Hl Hx. apply List.NoDup_app; [done | repeat constructor; by intros [] |].
  intros a Ha [<- | []]. done.
Qed.

(** Unique ids and unique fingerprints survive [find_or_create], and every
    id stays below the next one. *)
Lemma find_or_create_keeps_well_formed (t : table) (now : Z) (scan : nat) (v : vals) :
  well_formed t -> well_formed (find_or_create t now scan v).1.
Proof.
  intros (Hid & Hfp & Hlt).
  destruct (search t (fingerprint_of v)) as [existing|] eqn:Hs.
  - rewrite (find_or_create_existing _ _ _ _ _ _ _ Hs). cbn [fst].
    apply search_some in Hs as [Hin _].
    unfold well_formed.
    rewrite (write_map_same rec_id), (write_map_same fingerprint) by done.
    split; [done|]. split; [done|].
    unfold write. cbn [rows next_id]. intros r Hr.
    apply List.in_map_iff in Hr as (x & Hx & Hxin).
    destruct (Nat.eqb (rec_id x) (rec_id existing)); subst r; cbn [updated rec_id];
      by apply Hlt.
  - rewrite (find_or_create_absent _ _ _ _ _ _ Hs). cbn [fst rows next_id].
    unfold well_formed. cbn [rows next_id]. rewrite !List.map_app. cbn [List.map].
    split; [|split].
    + apply NoDup_snoc; [done|]. cbn [created rec_id].
      intros Hin. apply List.in_map_iff in Hin as (r & Hr & Hrin).
      specialize (Hlt r Hrin). lia.
    + apply NoDup_snoc; [done|]. cbn [created fingerprint]. by apply search_none.
    + intros r Hr. apply List.in_app_iff in Hr as [Hr | [<- | []]].
      * specialize (Hlt r Hr). lia.
      * cbn [created rec_id]. lia.
Qed.

(** X4: [find_or_create] keeps the table well-formed: ids stay unique, and so
    do fingerprints, so the unique constraint is never violated; the table
    grows by one row exactly when the fingerprint was not there. *)
Theorem find_or_create_well_formed (t : table) (now : Z) (scan : nat) (v : vals) :
  well_formed t ->
  well_formed (find_or_create t now scan v).1 /\
  length (rows (find_or_create t now scan v).1) =
    length (rows t) +
    match search t (fingerprint_of v) with Some _ => 0 | None => 1 end.
Proof.
  intros Hwf. split; [by apply find_or_create_keeps_well_formed|].
  destruct (search t (fingerprint_of v)) as [existing|] eqn:Hs.
  - rewrite (find_or_create_existing _ _ _ _ _ _ _ Hs). cbn [fst].
    unfold write. cbn [rows]. rewrite length_map. lia.
  - rewrite (find_or_create_absent _ _ _ _ _ _ Hs). cbn [fst rows].
    rewrite length_app. cbn [length]. lia.
Qed.

Lemma find_replaced (l : list finding) (existing r : finding) (fp : string) :
  List.NoDup (List.map rec_id l) ->
  List.find (fun x => String.eqb (fingerprint x) fp) l = Some existing ->
  fingerprint r = fp ->
  List.find (fun x => String.eqb (fingerprint x) fp)
    (List.map (fun x => if Nat.eqb (rec_id x) (rec_id existing) then r else x) l)
  = Some r.
Proof.
  intros Hnd Hfind Hr. induction l as [|x l IH]; [done|].
  cbn [List.map] in Hnd. apply List.NoDup_cons_iff in Hnd as [Hx Hnd].
  cbn [List.find List.map] in *.
  destruct (String.eqb (fingerprint x) fp) eqn:E.
  - injection Hfind as ->. rewrite Nat.eqb_refl. cbn [List.find].
    by rewrite Hr, String.eqb_refl.
  - apply List.find_some in Hfind as Hex. destruct Hex as [Hin _].
    assert (Nat.eqb (rec_id x) (rec_id existing) = false) as ->.
    { apply Nat.eqb_neq. intros Heq. apply Hx. rewrite Heq. by apply List.in_map. }
    cbn [List.find]. rewrite E. by apply IH.
Qed.

Lemma find_app_none {A : Type} (f : A -> bool) (l l' : list A) :
  List.find f l = None -> List.find f (l ++ l') = List.find f l'.
Proof.
  induction l as [|x l IH]; [done|]. cbn [List.find app].
  by destruct (f x).
Qed.

(** X5: Upsert, then lookup: after [find_or_create], searching the candidate's
    fingerprint finds the record that was returned. *)
Theorem search_after_find_or_create (t : table) (now : Z) (scan : nat) (v : vals) :
  well_formed t ->
  search (find_or_create t now scan v).1 (fingerprint_of v) =
  Some (find_or_create t now scan v).2.
Proof.
  intros (Hid & Hfp & Hlt).
  destruct (search t (fingerprint_of v)) as [existing|] eqn:Hs.
  - rewrite (find_or_create_existing _ _ _ _ _ _ _ Hs). cbn [fst snd].
    unfold search, write. cbn [rows].
    apply find_replaced; [done | exact Hs |].
    cbn [updated fingerprint]. by apply search_some in Hs as [_ ?].
  - rewrite (find_or_create_absent _ _ _ _ _ _ Hs). cbn [fst snd].
    unfold search. cbn [rows]. unfold search in Hs.
    rewrite (find_app_none _ _ _ Hs). cbn [List.find created fingerprint].
    by rewrite String.eqb_refl.
Qed.

Lemma find_or_create_keeps_rows (t : table) (now : Z) (scan : nat) (v : vals)
    (old : finding) :
  well_formed t -> In old (rows t) ->
  exists new, In new (rows (find_or_create t now scan v).1) /\ kept old new.
Proof.
  intros (Hid & _ & _) Hold.
  destruct (search t (fingerprint_of v)) as [existing|] eqn:Hs.
  - rewrite (find_or_create_existing _ _ _ _ _ _ _ Hs). cbn [fst].
    unfold write. cbn [rows].
    apply search_some in Hs as [Hin _].
    destruct (Nat.eqb (rec_id old) (rec_id existing)) eqn:E.
    + exists (updated scan now v existing). split.
      * apply List.in_map_iff. exists old. by rewrite E.
      * apply Nat.eqb_eq in E.
        assert (old = existing) as -> by (by apply (same_id_same_row (rows t))).
        unfold kept.
        cbn [updated rec_id fingerprint first_seen_date status_ occurrence_count].
        repeat split; lia.
    + exists old. split.
      * apply List.in_map_iff. exists old. by rewrite E.
      * unfold kept. repeat split; lia.
  - rewrite (find_or_create_absent _ _ _ _ _ _ Hs). cbn [fst rows].
    exists old. split; [apply List.in_or_app; by left|].
    unfold kept. repeat split; lia.
Qed.

End FindingTableProps.

Section ScanFindings.

Import InsightsFinding FindingTable InsightsScan.

Variable sha256_hexdigest : string -> string.
Variable json_loads : string -> option (string -> option string).
Variable json_dumps : Py.item -> string.

Lemma kept_refl (r : finding) : kept r r.
Proof. unfold kept. repeat split; lia. Qed.

Lemma kept_trans (a b c : finding) : kept a b -> kept b c -> kept a c.
Proof.
  unfold kept. intros (? & ? & ? & ? & ?) (? & ? & ? & ? & ?).
  repeat split; try congruence. lia.
Qed.

Lemma record_finding_table (now : Z) (scan : nat) (t : tally) (v : vals) :
  findings (record_finding sha256_hexdigest json_loads now scan t v) =
    (find_or_create sha256_hexdigest json_loads (findings t) now scan v).1 /\
  new_count (record_finding sha256_hexdigest json_loads now scan t v) +
  recurring_count (record_finding sha256_hexdigest json_loads now scan t v) =
    new_count t + recurring_count t + 1.
Proof.
  unfold record_finding.
  destruct (find_or_create _ _ _ _ _ _) as [tbl f]. cbn [fst].
  destruct (Z.eqb (occurrence_count f) 1); cbn [findings new_count recurring_count];
    split; try done; lia.
Qed.

Lemma record_all (now : Z) (scan : nat) (vs : list vals) (t : tally) :
  well_formed (findings t) ->
  let t' := fold_left (record_finding sha256_hexdigest json_loads now scan) vs t in
  well_formed (findings t') /\
  (forall old, In old (rows (findings t)) ->
     exists new, In new (rows (findings t')) /\ kept old new) /\
  new_count t' + recurring_count t' = new_count t + recurring_count t + length vs.
Proof.
  revert t. induction vs as [|v vs IH]; intros t Hwf; cbn zeta.
  - cbn [fold_left length]. split; [done|]. split; [|lia].
    intros old Hold. exists old. split; [done | apply kept_refl].
  - cbn [fold_left length].
    destruct (record_finding_table now scan t v) as [Htbl Hcount].
    pose proof (find_or_create_keeps_well_formed sha256_hexdigest json_loads
                  (findings t) now scan v Hwf) as Hwf'.
    rewrite <- Htbl in Hwf'.
    destruct (IH _ Hwf') as (Hwf'' & Hkeep & Hsum). cbn zeta in *.
    split; [done|]. split; [|lia].
    intros old Hold.
    destruct (find_or_create_keeps_rows sha256_hexdigest json_loads
                (findings t) now scan v old Hwf Hold) as (mid & Hmid & Hk1).
    rewrite <- Htbl in Hmid.
    destruct (Hkeep mid Hmid) as (new & Hnew & Hk2).
    exists new. split; [done|]. by apply (kept_trans _ mid).
Qed.

(** X6: A whole scan, whatever it reports: the table stays well-formed, every
    finding that was in it is still there with its id, fingerprint,
    first-seen date and triage status, no occurrence count goes down, and
    every candidate is counted once, as new or as recurring. *)
Theorem create_findings_keeps_table (now : Z) (scan : nat)
    (critical_issues warnings : list EcosystemAnalyzer.issue)
    (recommendations : list recommendation) (tbl : table) (old : finding) :
  well_formed tbl ->
  In old (rows tbl) ->
  let t := _create_findings sha256_hexdigest json_loads json_dumps now scan
             critical_issues warnings recommendations tbl in
  well_formed (findings t) /\
  (exists new, In new (rows (findings t)) /\ kept old new) /\
  new_count t + recurring_count t =
    length critical_issues + length warnings + length recommendations.
Proof.
  intros Hwf Hold. cbn zeta. unfold _create_findings.
  destruct (record_all now scan
              (List.map (issue_vals json_dumps "critical") critical_issues ++
               List.map (issue_vals json_dumps "warning") warnings ++
               List.map recommendation_vals recommendations)
              {| findings := tbl; new_count := 0; recurring_count := 0 |} Hwf)
    as (Hwf' & Hkeep & Hsum).
  cbn zeta in *. split; [done|]. split; [by apply Hkeep|].
  rewrite Hsum. cbn [new_count recurring_count].
  rewrite !length_app, !length_map. lia.
Qed.

End ScanFindings.

(** ** How a run ends *)

Section RunOutcome.

Import InsightsScan ScanHistory.

Variable the_settings : settings.
Variable analyze : string -> option string -> bool -> analysis.

Local Abbreviation run := (action_run_scan the_settings analyze).

(** X8: [action_run_scan] returns normally only with the scan completed and its
    error message cleared.  When it raises, either the scan was rejected
    and nothing was written, or the scan is left 'failed' with the message
    of the exception, and the UserError is 'Scan failed: ' followed by that
    message. *)
Theorem run_ends_completed_or_failed (s : scan) :
  (user_error (run s) = None ->
     state_ (after (run s)) = completed /\ error_message (after (run s)) = None /\
     states_written (run s) = [running; completed]) /\
  (forall e, user_error (run s) = Some e ->
     (after (run s) = s /\ states_written (run s) = []) \/
     (state_ (after (run s)) = failed /\
      states_written (run s) = [running; failed] /\
      exists message,
        error_message (after (run s)) = Some message /\
        e = "Scan failed: " +:+ message)).
Proof.
  unfold action_run_scan.
  destruct (negb (state_eqb (state_ s) draft || state_eqb (state_ s) failed)).
  { split; [done|]. intros e _. by left. }
  destruct (configuration the_settings (set_state s running None))
    as [[[scan_path module_filter_str] registry]|].
  - destruct (analyze _ _ _) as [r | message].
    + split; [done|]. done.
    + split; [done|]. intros e [= <-]. right.
      repeat split. by exists message.
  - split; [done|]. intros e [= <-]. right.
    repeat split. by eexists.
Qed.

(** X9: Without a scan path, neither its own nor a default one in use, an
    accepted scan fails with the message about the missing path, whatever
    the analyzer would have returned. *)
Theorem run_without_path_fails (s : scan) :
  state_ s = draft \/ state_ s = failed ->
  InsightsFinding.truthy (base_path s) = false ->
  use_default_settings s = false \/
    InsightsFinding.truthy (default_scan_path the_settings) = false ->
  state_ (after (run s)) = failed /\
  error_message (after (run s)) =
    Some "No scan path configured. Please set a default scan path in Settings or enter one manually." /\
  user_error (run s) =
    Some "Scan failed: No scan path configured. Please set a default scan path in Settings or enter one manually.".
Proof.
  intros Hst Hpath Hdef. unfold action_run_scan.
  assert (negb (state_eqb (state_ s) draft || state_eqb (state_ s) failed) = false)
    as -> by (by destruct Hst as [-> | ->]).
  assert (configuration the_settings (set_state s running None) = None) as ->.
  { unfold configuration. cbn [set_state base_path use_default_settings
                                module_filter include_registry].
    destruct Hdef as [-> | Hd].
    - cbn [andb]. by rewrite Hpath.
    - rewrite Hd, andb_false_r. cbn [andb]. by rewrite Hpath. }
  done.
Qed.

Lemma find_completed_replace (before rest : list scan) (s s' : scan) :
  state_eqb (state_ s) completed = false ->
  state_eqb (state_ s') completed = false ->
  List.find (fun x => state_eqb (state_ x) completed) (before ++ s' :: rest) =
  List.find (fun x => state_eqb (state_ x) completed) (before ++ s :: rest).
Proof.
  intros Hs Hs'. induction before as [|b before IH]; cbn [app List.find].
  - by rewrite Hs, Hs'.
  - by destruct (state_eqb (state_ b) completed).
Qed.

(** A run that raises changed nothing, or took a scan that was not
    completed and left it failed. *)
Lemma raising_run_state (s : scan) :
  user_error (run s) <> None ->
  after (run s) = s \/
  (state_eqb (state_ s) completed = false /\ state_ (after (run s)) = failed).
Proof.
  unfold action_run_scan.
  destruct (negb (state_eqb (state_ s) draft || state_eqb (state_ s) failed)) eqn:Hg.
  { intros _. by left. }
  assert (state_eqb (state_ s) completed = false) as Hs
    by (by destruct (state_ s)).
  destruct (configuration the_settings (set_state s running None))
    as [[[scan_path module_filter_str] registry]|].
  - destruct (analyze _ _ _) as [r | message]; [done|].
    intros _. by right.
  - intros _. by right.
Qed.

(** X10: A run that raises leaves the latest health score as it was: the score
    reported is still that of the newest completed scan. *)
Theorem failed_run_keeps_latest_score (before rest : list scan) (s : scan) :
  user_error (run s) <> None ->
  get_latest_health_score (before ++ after (run s) :: rest) =
  get_latest_health_score (before ++ s :: rest).
Proof.
  intros Herr.
  destruct (raising_run_state s Herr) as [-> | [Hs Hfailed]]; [done|].
  unfold get_latest_health_score.
  rewrite (find_completed_replace before rest s (after (run s))); [done|done|].
  by rewrite Hfailed.
Qed.

End RunOutcome.

(** The draft without a path, with no settings to fall back on. *)
Lemma run_without_path_fails_example :
  InsightsScan.state_
    (InsightsScan.after
       (InsightsScan.action_run_scan InsightsScan.no_settings InsightsScan.succeeding
          ScanHistory.pathless_draft)) = InsightsScan.failed.
Proof.
  apply (run_without_path_fails InsightsScan.no_settings InsightsScan.succeeding
           ScanHistory.pathless_draft).
  - left. reflexivity.
  - reflexivity.
  - left. reflexivity.
Defined.

(** The pathless draft fails, and the completed scan behind it is still the
    latest. *)
Lemma failed_run_keeps_latest_score_example :
  ScanHistory.get_latest_health_score
    [InsightsScan.after
       (InsightsScan.action_run_scan InsightsScan.no_settings InsightsScan.succeeding
          ScanHistory.pathless_draft);
     InsightsScan.completed_scan] =
  ScanHistory.get_latest_health_score
    [ScanHistory.pathless_draft; InsightsScan.completed_scan].
Proof.
  apply (failed_run_keeps_latest_score InsightsScan.no_settings
           InsightsScan.succeeding [] [InsightsScan.completed_scan]
           ScanHistory.pathless_draft).
  discriminate.
Defined.

(** ** What a Python scan accounts for *)

Section ScanAccounting.

Import PythonScanner PythonScannerQueries.

Variable base_path : string.
Variable module_filter : list string.
Variable parse : path -> parsed.

Lemma scan_file_counts (r : scan_results) (p : path) :
  files_scanned (_scan_file base_path parse r p) =
    files_scanned r + (if parses parse p then 1 else 0) /\
  length (errors (_scan_file base_path parse r p)) =
    length (errors r) + (if parses parse p then 0 else 1).
Proof.
  unfold _scan_file, parses.
  destruct (parse p); cbn [files_scanned errors add_error];
    rewrite ?length_app; cbn [length]; lia.
Qed.

Lemma scan_loop_counts (files : list path) (r : scan_results) :
  let r' := fold_left (_scan_file base_path parse) files r in
  files_scanned r' = files_scanned r + length (List.filter (parses parse) files) /\
  length (errors r') =
    length (errors r) +
    length (List.filter (fun p => negb (parses parse p)) files).
Proof.
  revert r. induction files as [|p files IH]; intros r; cbn zeta.
  - cbn. lia.
  - cbn [fold_left List.filter].
    destruct (IH (_scan_file base_path parse r p)) as [Hf He].
    destruct (scan_file_counts r p) as [Hf1 He1].
    cbn zeta in *. rewrite Hf, He, Hf1, He1.
    destruct (parses parse p); cbn [negb length]; lia.
Qed.

(** X11: Every file that gets past the filter is accounted for exactly once:
    it is counted in [files_scanned] when it parses and has an entry in
    [errors] when it does not; files the filter rejects appear in
    neither. *)
Theorem scanned_or_in_errors (files : list path) :
  let chosen := List.filter (selected base_path module_filter) files in
  let r := scan base_path module_filter parse files in
  files_scanned r = length (List.filter (parses parse) chosen) /\
  length (errors r) = length (List.filter (fun p => negb (parses parse p)) chosen) /\
  files_scanned r + length (errors r) = length chosen.
Proof.
  cbn zeta. unfold scan, _analyze_init_files. cbn [files_scanned errors].
  rewrite scan_loop_filter.
  destruct (scan_loop_counts
              (List.filter (selected base_path module_filter) files) empty_results)
    as [Hf He].
  cbn zeta in *. rewrite Hf, He. cbn [empty_results files_scanned errors length].
  split; [lia|]. split; [lia|].
  pose proof (count_split (parses parse)
                (List.filter (selected base_path module_filter) files)). lia.
Qed.

(** X12: Every model in the results comes from a file that was selected and
    parsed, and carries that file's relative path; every error entry names
    a selected file that did not parse. *)
Theorem scan_results_provenance (files : list path) :
  let r := scan base_path module_filter parse files in
  (forall m, In m (models r) ->
     exists p v,
       In p files /\ selected base_path module_filter p = true /\
       parse p = Visited v /\
       DuplicateAnalyzer.relative_path m = rel_str p /\
       exists m0, In m0 (v_models v) /\ m = with_model_path (rel_str p) m0) /\
  (forall e, In e (errors r) ->
     exists p,
       In p files /\ selected base_path module_filter p = true /\
       parses parse p = false /\ err_file e = path_str base_path p).
Proof.
  cbn zeta. destruct (scan_contents base_path module_filter parse files)
    as (Hm & _ & _ & He).
  cbn zeta in *. rewrite Hm, He. split.
  - intros m Hin. apply List.in_flat_map in Hin as (p & Hp & Hmp).
    apply List.filter_In in Hp as [Hp Hsel].
    unfold models_of in Hmp. destruct (parse p) as [v| |] eqn:Hparse; try done.
    apply List.in_map_iff in Hmp as (m0 & <- & Hm0).
    exists p, v. repeat split; try done. by exists m0.
  - intros e Hin. apply List.in_flat_map in Hin as (p & Hp & Hep).
    apply List.filter_In in Hp as [Hp Hsel].
    exists p. unfold errors_of in Hep. unfold parses.
    destruct (parse p) as [v| |]; [done| |];
      destruct Hep as [<- | []]; done.
Qed.

End ScanAccounting.

(** ** Files and flags of the commented-code detector *)

Section CommentedFiles.

Import CommentedCodeAnalyzer CommentedCodeFiles.

Variable re_match : string -> string -> bool.
Variable re_search : string -> string -> bool.

(** X13: The commented-code analyzer scans no Python file that the Python
    scanner does not scan: its skip list contains the scanner's, and the
    module filter is the same exact match.  The counter of scanned files
    goes up by one exactly for the files it accepts. *)
Theorem should_scan_within_python_scan (base_path : string)
    (module_filter : list string) (p : PythonScanner.path) (count : nat) :
  ((_should_scan base_path module_filter p count).1 = true ->
     PythonScanner.selected base_path module_filter p = true) /\
  (_should_scan base_path module_filter p count).2 =
    count + (if (_should_scan base_path module_filter p count).1 then 1 else 0).
Proof.
  unfold _should_scan, PythonScanner.selected, SKIPPED. cbn [existsb].
  destruct (PyStr.contains "__pycache__" _); [cbn; split; [done | lia]|].
  destruct (PyStr.contains "venv" _); [cbn; split; [done | lia]|].
  destruct (PyStr.contains ".git" _); [cbn; split; [done | lia]|].
  cbn [orb].
  destruct (PyStr.contains "node_modules" _ || (PyStr.contains ".egg" _ || false));
    [cbn; split; [done | lia]|].
  destruct (match module_filter with [] => false | _ => _ end);
    cbn; split; try done; lia.
Qed.

(** X14: The flag and the severity of a block finding: the severity is
    'warning' exactly when [has_deletion_marker] is set, and the flag is set
    exactly when the text of the block matches a deletion marker and no
    exclusion.  A one-line block that matches a marker and also an
    exclusion is therefore still reported, as 'info' and without the
    flag. *)
Theorem block_flag_and_severity (file_path rel_path code_type : string)
    (block_start : option nat) (block : list (nat * string)) (f : finding)
    (i : nat) (line : string) :
  (_create_finding re_search file_path rel_path block_start block code_type
     = Return (Some f) ->
   has_deletion_marker f =
     (negb (matches_exclusion re_search (block_text block))
      && matches_deletion_marker re_search (block_text block)) /\
   severity f = (if has_deletion_marker f then "warning" else "info")) /\
  (matches_deletion_marker re_search line = true ->
   matches_exclusion re_search line = true ->
   exists g,
     _create_finding re_search file_path rel_path block_start [(i, line)] code_type
       = Return (Some g) /\
     has_deletion_marker g = false /\ severity g = "info").
Proof.
  split.
  - unfold CommentedCodeAnalyzer._create_finding.
    destruct (_ && _); [done|].
    destruct (List.map fst block) as [|n ns]; [done|].
    intros [= <-]. unfold make_finding. cbn [has_deletion_marker severity].
    by destruct (matches_exclusion re_search (block_text block)).
  - intros Hm He. rewrite create_finding_single, Hm. eexists. split; [done|].
    unfold make_finding, block_text.
    cbn [has_deletion_marker severity List.map snd PyStr.join].
    by rewrite He.
Qed.

End CommentedFiles.

(** The comment '# DEPRECATED: remove duplicate rows' matches the
    DEPRECATED marker and the 'remove duplicate' exclusion. *)
Lemma block_flag_and_severity_example :
  exists g,
    CommentedCodeAnalyzer._create_finding CommentedCodeAnalyzer.marker_and_exclusion
      "a.py" "a.py" (Some 4) [(4, "# DEPRECATED: remove duplicate rows")] "python"
      = CommentedCodeAnalyzer.Return (Some g) /\
    CommentedCodeAnalyzer.has_deletion_marker g = false /\
    CommentedCodeAnalyzer.severity g = "info".
Proof.
  apply (block_flag_and_severity CommentedCodeAnalyzer.marker_and_exclusion
           "a.py" "a.py" "python" (Some 4) []
           (CommentedCodeAnalyzer.make_finding CommentedCodeAnalyzer.marker_and_exclusion
              "a.py" "a.py" None 0 [] "python")
           4 "# DEPRECATED: remove duplicate rows").
  - vm_compute. reflexivity.
  - vm_compute. reflexivity.
Defined.

(** ** Line numbers of the commented-code detector *)

Section MarkerPass.

Import CommentedCodeAnalyzer CommentedCodeFiles.

Variable re_search : string -> string -> bool.
Variable strip : string -> string.

Lemma flat_map_short {A B : Type} (f : A -> list B) (l : list A) :
  (forall x, length (f x) <= 1) -> length (flat_map f l) <= length l.
Proof.
  intros H. induction l as [|x l IH]; [done|]. cbn [flat_map length].
  rewrite length_app. specialize (H x). lia.
Qed.

(** X15: [_find_deletion_markers] reports a line exactly when, stripped, it
    starts with the comment prefix, matches no exclusion and matches a
    deletion marker; the finding carries the line's number, counts one
    line, is flagged and is a 'warning'.  A comment that matches an
    exclusion is never reported here, and there are at most as many
    findings as lines. *)
Theorem deletion_markers_reported (lines : list string)
    (file_path rel_path comment_prefix : string) (i : nat) :
  let found := _find_deletion_markers re_search strip lines file_path rel_path
                 comment_prefix in
  ((exists f, In f found /\ line_start f = Some i) <->
   exists line,
     1 <= i /\ nth_error lines (i - 1) = Some line /\
     PyStr.startswith comment_prefix (strip line) = true /\
     matches_exclusion re_search (strip line) = false /\
     matches_deletion_marker re_search (strip line) = true) /\
  (forall f, In f found ->
     has_deletion_marker f = true /\ severity f = "warning" /\
     line_count f = 1 /\ finding_type f = "deletion_marker" /\
     exists k, line_start f = Some k /\ line_end f = k) /\
  length found <= length lines.
Proof.
  cbn zeta. unfold _find_deletion_markers, enumerate1.
  split; [|split].
  - split.
    + intros (f & Hf & Hstart). apply List.in_flat_map in Hf as ([k line] & Hin & Hf).
      cbn [fst snd] in Hf. apply in_numbered in Hin as [Hle Hn].
      destruct (PyStr.startswith comment_prefix (strip line)) eqn:Hp; [|done].
      destruct (matches_exclusion re_search (strip line)) eqn:He; [done|].
      destruct (matches_deletion_marker re_search (strip line)) eqn:Hm; [|done].
      destruct Hf as [<- | []]. cbn [line_start] in Hstart. injection Hstart as <-.
      by exists line.
    + intros (line & Hle & Hn & Hp & He & Hm).
      eexists. split.
      * apply List.in_flat_map. exists (i, line). split; [by apply in_numbered|].
        cbn [fst snd]. rewrite Hp, He, Hm. by left.
      * done.
  - intros f Hf. apply List.in_flat_map in Hf as ([k line] & Hin & Hf).
    cbn [fst snd] in Hf.
    destruct (PyStr.startswith comment_prefix (strip line)); [|done].
    destruct (matches_exclusion re_search (strip line)); [done|].
    destruct (matches_deletion_marker re_search (strip line)); [|done].
    destruct Hf as [<- | []]. repeat split. by exists k.
  - etransitivity.
    + apply flat_map_short. intros [k line]. cbn [fst snd].
      destruct (PyStr.startswith _ _); [|cbn [length]; lia].
      destruct (matches_exclusion _ _); [cbn [length]; lia|].
      destruct (matches_deletion_marker _ _); cbn [length]; lia.
    + rewrite length_combine, length_seq. lia.
Qed.

End MarkerPass.

Section CommentLines.

Import CommentedCodeAnalyzer CommentedCodeFiles.

Variable re_match : string -> string -> bool.
Variable re_search : string -> string -> bool.
Variable strip : string -> string.
Variable rstrip : string -> string.
Variable comment_prefix : string.
Variable code_patterns : list string.
Variable code_type : string.

(** A block of consecutive lines from [s] gives a finding that starts at
    [s] and ends at its last line. *)
Lemma create_finding_range (file_path rel_path : string)
    (block : list (nat * string)) (s : nat) (f : finding) :
  List.map fst block = seq s (length block) ->
  _create_finding re_search file_path rel_path (Some s) block code_type
    = Return (Some f) ->
  line_start f = Some s /\ line_count f = length block /\
  1 <= length block /\ line_end f + 1 = s + length block.
Proof.
  intros Hseq. unfold CommentedCodeAnalyzer._create_finding.
  destruct (_ && _); [done|].
  destruct (List.map fst block) as [|n ns] eqn:E; [done|].
  intros [= <-]. unfold make_finding. cbn [line_start line_count line_end].
  destruct block as [|b block]; [done|]. cbn [length] in *.
  split; [done|]. split; [done|]. split; [lia|].
  rewrite (last_default ns n 0), Hseq, last_seq. lia.
Qed.

Lemma in_range_mono (n m : nat) (f : finding) :
  n <= m -> in_range n f -> in_range m f.
Proof.
  intros Hnm (s & ? & ? & ? & ? & ?). exists s. repeat split; try done. lia.
Qed.

Lemma end_block_invariant (file_path rel_path : string) (i : nat)
    (st st' : loop_state) :
  loop_invariant i st ->
  end_block re_search code_type file_path rel_path st = Some st' ->
  Forall (in_range (i - 1)) (findings st') /\
  block_lines st' = [] /\ block_start st' = None.
Proof.
  intros [Hall Hblock]. unfold end_block.
  destruct (block_lines st) as [|l ls] eqn:Hb.
  - by intros [= <-].
  - destruct Hblock as (s & Hs & Hs1 & Hseq & Hlen). rewrite Hs.
    destruct (_create_finding _ _ _ _ _ _) as [[f|]|] eqn:Hc; [| |done].
    + intros [= <-]. cbn [findings block_lines block_start]. split; [|done].
      apply Forall_app. split; [done|]. constructor; [|constructor].
      apply create_finding_range in Hc as (H1 & H2 & H3 & H4); [|done].
      exists s. repeat split; try done; lia.
    + by intros [= <-].
Qed.

Lemma run_loop_invariant (file_path rel_path : string) (lines : list string)
    (i : nat) (st st' : loop_state) :
  1 <= i ->
  loop_invariant i st ->
  run_loop re_match re_search strip rstrip comment_prefix code_patterns code_type file_path rel_path st
    (combine (seq i (length lines)) lines) = Some st' ->
  loop_invariant (i + length lines) st'.
Proof.
  revert i st. induction lines as [|line lines IH]; intros i st Hi Hinv.
  - cbn. intros [= <-]. by rewrite Nat.add_0_r.
  - cbn [length seq combine run_loop].
    destruct (loop_body re_match re_search strip rstrip comment_prefix code_patterns code_type file_path rel_path st (i, line))
      as [st1|] eqn:Hbody; [|done].
    intros Hrun. apply IH in Hrun; [by replace (i + S (length lines))
                                       with (S i + length lines) by lia | lia |].
    clear IH Hrun. revert Hbody. unfold loop_body. cbn [fst snd].
    destruct (PyStr.startswith comment_prefix (strip line) && is_code re_match code_patterns line) eqn:E.
    + apply andb_true_iff in E as [-> ->]. intros [= <-].
      destruct Hinv as [Hall Hblock]. split.
      * cbn [findings]. eapply Forall_impl; [exact Hall|].
        intros f. apply in_range_mono. lia.
      * cbn [block_lines block_start].
        destruct (block_lines st) as [|l ls] eqn:Hb.
        -- rewrite Hblock. cbn. exists i. repeat split; try done; lia.
        -- destruct Hblock as (s & Hs & Hs1 & Hseq & Hlen). rewrite Hs.
           destruct ((l :: ls) ++ [(i, rstrip line)]) eqn:Happ;
             [by destruct ls|]. rewrite <- Happ.
           exists s. rewrite List.map_app, length_app, Hseq.
           change (length [(i, rstrip line)]) with 1.
           change (List.map fst [(i, rstrip line)]) with [i].
           split; [done|]. split; [done|]. split; [|lia].
           rewrite Nat.add_1_r, seq_S. by rewrite Hlen.
    + assert (forall k, (if PyStr.startswith comment_prefix (strip line)
                then if is_code re_match code_patterns line then k
                     else end_block re_search code_type file_path rel_path st
                else end_block re_search code_type file_path rel_path st) =
               end_block re_search code_type file_path rel_path st) as ->.
      { intros k. destruct (PyStr.startswith _ _); [|done].
        by destruct (is_code _ _). }
      intros Hend. destruct (end_block_invariant _ _ _ _ _ Hinv Hend)
        as (Hall & Hb & Hs).
      split.
      * eapply Forall_impl; [exact Hall|]. intros f. apply in_range_mono. lia.
      * by rewrite Hb.
Qed.

(** X16: Every block the loop reports lies inside the file: it starts at a line
    [s >= 1], ends at line [s + line_count - 1], which is at most the number
    of lines, and covers at least one line. *)
Theorem block_findings_in_range (file_path rel_path : string)
    (lines : list string) (found : list finding) :
  block_findings re_match re_search strip rstrip comment_prefix code_patterns code_type file_path rel_path lines = Some found ->
  Forall (in_range (length lines)) found.
Proof.
  unfold block_findings, enumerate1.
  destruct (run_loop _ _ _ _ _ _) as [st|] eqn:Hrun; [|done].
  apply run_loop_invariant in Hrun; [|lia|].
  - destruct (end_block re_search code_type file_path rel_path st) as [st'|] eqn:Hend; [|done].
    intros [= <-].
    destruct (end_block_invariant _ _ _ _ _ Hrun Hend) as (Hall & _ & _).
    eapply Forall_impl; [exact Hall|]. intros f. apply in_range_mono. lia.
  - split; [constructor | done].
Qed.

End CommentLines.

(** A file with a two-line block in lines 2 and 3. *)
Lemma block_findings_in_range_example :
  Forall (CommentedCodeFiles.in_range 4)
    [CommentedCodeAnalyzer.make_finding CommentedCodeAnalyzer.deprecated_search
       "a.py" "a.py" (Some 2) 3 [(2, "# x = 1"); (3, "# y = 2")] "python"].
Proof.
  apply (block_findings_in_range CommentedCodeAnalyzer.assignment_match
           CommentedCodeAnalyzer.deprecated_search PyStr.strip PyStr.rstrip
           "#" CommentedCodeAnalyzer.PYTHON_CODE_PATTERNS "python" "a.py" "a.py"
           ["import os"; "# x = 1"; "# y = 2"; "z = 3"]).
  vm_compute. reflexivity.
Defined.

(** ** Every rename finding *)

Section RenameFindings.

Import DuplicateAnalyzer RenamePatterns.

Lemma eat_digits_length (s : string) :
  String.length (Re.eat_digits s) <= String.length s.
Proof.
  induction s as [|c s IH]; [done|]. cbn [Re.eat_digits].
  destruct (Re.is_digit c); cbn [String.length]; lia.
Qed.

(** A match consumes the literal at least. *)
Lemma match_here_length (p : Re.pattern) (s r : string) :
  Re.match_here p s = Some r ->
  String.length r + String.length (Re.literal p) <= String.length s.
Proof.
  unfold Re.match_here.
  destruct (Re.eat_literal (Re.literal p) s) as [r0|] eqn:E; [|done].
  apply eat_literal_length in E.
  assert (forall r1, (if Re.at_end p then if Re.at_eos r1 then Some r1 else None
                      else Some r1) = Some r -> r1 = r) as Hend.
  { intros r1. destruct (Re.at_end p); [destruct (Re.at_eos r1)|]; congruence. }
  destruct (Re.digits p).
  - destruct r0 as [|c r0]; [done|]. destruct (Re.is_digit c); [|done].
    intros H. apply Hend in H. subst r.
    pose proof (eat_digits_length (String c r0)). lia.
  - intros H. apply Hend in H. subst r. lia.
Qed.

Lemma sub_from_length (p : Re.pattern) (s : string) (k : nat) :
  String.length (Re.sub_from p k s) <= String.length s.
Proof.
  revert k. induction s as [|c s IH]; intros k; [done|].
  cbn [Re.sub_from]. destruct k as [|k].
  - destruct (Re.match_here p (String c s)) as [r|].
    + destruct (String.length (String c s) - String.length r) as [|j].
      * cbn [String.length]. specialize (IH 0). lia.
      * cbn [String.length]. specialize (IH j). lia.
    + cbn [String.length]. specialize (IH 0). lia.
  - cbn [String.length]. specialize (IH k). lia.
Qed.

Lemma sub_from_shorter (p : Re.pattern) (s : string) :
  1 <= String.length (Re.literal p) ->
  Re.search_from p s = true ->
  String.length (Re.sub_from p 0 s) < String.length s.
Proof.
  intros Hlit. induction s as [|c s IH].
  - cbn [Re.search_from]. destruct (Re.match_here p "") as [r|] eqn:E; [|done].
    apply match_here_length in E. cbn [String.length] in E. lia.
  - cbn [Re.search_from Re.sub_from].
    destruct (Re.match_here p (String c s)) as [r|] eqn:E.
    + intros _. apply match_here_length in E.
      destruct (String.length (String c s) - String.length r) as [|j] eqn:Ej;
        [lia|].
      pose proof (sub_from_length p s j). cbn [String.length]. lia.
    + intros H. specialize (IH H). cbn [String.length]. lia.
Qed.

(** Removing the marker changes the name. *)
Lemma sub_changes (p : Re.pattern) (s : string) :
  1 <= String.length (Re.literal p) ->
  Re.search p s = true -> Re.sub p s <> s.
Proof.
  intros Hlit. unfold Re.search, Re.sub. destruct (Re.at_start p).
  - destruct (Re.match_here p s) as [r|] eqn:E; [|done].
    intros _ ->. apply match_here_length in E. lia.
  - intros H Heq. apply sub_from_shorter in H; [|done]. rewrite Heq in H. lia.
Qed.

Lemma rename_patterns_literal (p : Re.pattern) :
  In p RENAME_PATTERNS -> 1 <= String.length (Re.literal p).
Proof.
  unfold RENAME_PATTERNS. cbn [In].
  intros H. repeat (destruct H as [<- | H]; [cbn; lia|]). done.
Qed.

(** X17: The findings of [_check_renames] on ASCII names, name by name: a
    name is reported exactly when it is not empty and some rename pattern
    matches it, and then once, for the first such pattern.  The finding is
    a 'warning' whose original is among the names and differs from the
    renamed one, or an 'info' without original; no other outcome occurs, so
    no name that matches a pattern goes unreported. *)
Theorem check_renames_complete (names : list string) (component_type : string) :
  Forall (fun name => PyStr.isascii name = true) names ->
  _check_renames names component_type [] =
    flat_map (check_name names component_type) names /\
  forall name,
    PyStr.isascii name = true ->
    match first_match name with
    | Some p =>
        name <> "" ->
        exists f,
          check_name names component_type name = [f] /\
          renamed f = name /\ rf_type f = component_type /\
          pattern_matched f = Re.source p /\
          match original f with
          | Some base =>
              rf_severity f = warning /\ In base names /\ base <> name /\
              base = Re.sub p name
          | None => rf_severity f = info /\ ~ In (Re.sub p name) names
          end
    | None => check_name names component_type name = []
    end.
Proof.
  intros _. split; [unfold _check_renames; by rewrite check_renames_flat|].
  intros name _. unfold first_match, check_name.
  destruct (find (fun p => Re.search p name) RENAME_PATTERNS) as [p|] eqn:Hfind.
  - intros Hne. apply String.eqb_neq in Hne. rewrite Hne.
    apply List.find_some in Hfind as [Hin Hsearch].
    pose proof (sub_changes p name (rename_patterns_literal p Hin) Hsearch) as Hch.
    apply String.eqb_neq in Hch as Hch'. rewrite Hch'. cbn [negb].
    rewrite andb_true_r.
    destruct (PyStr.mem (Re.sub p name) names) eqn:Hmem.
    + eexists. split; [done|]. cbn [renamed rf_type pattern_matched original rf_severity].
      repeat split; try done. by apply mem_In.
    + eexists. split; [done|]. cbn [renamed rf_type pattern_matched original rf_severity].
      repeat split; try done. rewrite <- mem_In. congruence.
  - by destruct (String.eqb name "").
Qed.

End RenameFindings.

(** 'report_v2' beside 'report': the version marker is found and linked. *)
Lemma check_renames_complete_example :
  exists f,
    DuplicateAnalyzer.check_name ["report"; "report_v2"] "model" "report_v2" = [f] /\
    DuplicateAnalyzer.renamed f = "report_v2" /\
    DuplicateAnalyzer.rf_type f = "model" /\
    DuplicateAnalyzer.pattern_matched f = "_v\d+$".
Proof.
  assert (Forall (fun name => PyStr.isascii name = true) ["report"; "report_v2"])
    as Hascii by repeat constructor.
  pose proof (proj2 (check_renames_complete ["report"; "report_v2"] "model" Hascii)
                "report_v2" eq_refl) as H.
  change (RenamePatterns.first_match "report_v2")
    with (Some (nth 4 DuplicateAnalyzer.RENAME_PATTERNS DuplicateAnalyzer.old_pattern))
    in H.
  destruct H as (f & Hf & Hr & Ht & Hp & _); [discriminate|].
  exists f. by repeat split.
Defined.

(** ** The range of the similarity *)

Section JaccardRange.

Import DuplicateAnalyzer.

Lemma intersection_le_union (a b : entry) : intersection a b <= union a b.
Proof.
  unfold intersection, union. apply subseteq_size.
  etransitivity; [apply intersection_subseteq_l | apply union_subseteq_l].
Qed.

(** X18: The similarity lies between 0 and 1, and for a model with at least
    three named fields it is 1 exactly when the other model has the same
    set of field names. *)
Theorem jaccard_range (a b : entry) :
  (0 <= jaccard a b <= 1)%Q /\
  (3 <= size (e_fields a) ->
     (jaccard a b == 1)%Q <-> e_fields a = e_fields b).
Proof.
  pose proof (intersection_le_union a b) as Hle.
  assert (3 <= size (e_fields a) -> 1 <= union a b) as Hpos.
  { intros H. pose proof (union_positive a b H) as Hu.
    apply Nat.eqb_neq in Hu. lia. }
  unfold jaccard. split.
  - split.
    + unfold Qle. cbn [Qnum Qden]. lia.
    + unfold Qle. cbn [Qnum Qden]. destruct (union a b) as [|u] eqn:Hu.
      * assert (intersection a b = 0) as -> by lia. cbn. lia.
      * rewrite Z.mul_1_r, Z.mul_1_l.
        assert (Z.pos (Pos.of_nat (S u)) = Z.of_nat (S u)) as ->; [|lia].
        rewrite <- positive_nat_Z, Nat2Pos.id; lia.
  - intros Hsize. specialize (Hpos Hsize).
    unfold Qeq. cbn [Qnum Qden]. rewrite Z.mul_1_r, Z.mul_1_l.
    assert (Z.pos (Pos.of_nat (union a b)) = Z.of_nat (union a b)) as ->
      by (rewrite <- positive_nat_Z, Nat2Pos.id; lia).
    rewrite Nat2Z.inj_iff. unfold intersection, union in *. split.
    + intros Heq.
      assert (e_fields a ∩ e_fields b = e_fields a ∪ e_fields b) as Hsets.
      { apply set_subseteq_size_eq; [|lia].
        etransitivity; [apply intersection_subseteq_l | apply union_subseteq_l]. }
      apply set_eq. intros x. split; intros Hx.
      * assert (x ∈ e_fields a ∪ e_fields b) as Hu
          by (apply elem_of_union; by left).
        rewrite <- Hsets in Hu. by apply elem_of_intersection in Hu as [_ ?].
      * assert (x ∈ e_fields a ∪ e_fields b) as Hu
          by (apply elem_of_union; by right).
        rewrite <- Hsets in Hu. by apply elem_of_intersection in Hu as [? _].
    + intros ->. f_equal.
      by rewrite (idemp_L (∩) (e_fields b)), (idemp_L (∪) (e_fields b)).
Qed.

End JaccardRange.

(** billing.profile has the fields of the second ResPartner class. *)
Lemma jaccard_range_example :
  (DuplicateAnalyzer.jaccard
     (DuplicateAnalyzer.as_entry DuplicateAnalyzer.billing_profile)
     (DuplicateAnalyzer.as_entry DuplicateAnalyzer.partner_billing) == 1)%Q.
Proof.
  apply (jaccard_range
           (DuplicateAnalyzer.as_entry DuplicateAnalyzer.billing_profile)
           (DuplicateAnalyzer.as_entry DuplicateAnalyzer.partner_billing)).
  - vm_compute. lia.
  - vm_compute. reflexivity.
Defined.

(** ** Groups of duplicate functions *)

Section FunctionGroups.

Import DuplicateFunctions.

Lemma lookup_append_to (h : string) (x : occurrence) (d : groups) (k : string) :
  lookup (append_to h x d) k =
  if String.eqb k h then lookup d h ++ [x] else lookup d k.
Proof.
  unfold lookup. induction d as [|[k0 l0] d IH].
  - cbn [append_to List.find fst snd]. rewrite (String.eqb_sym h k).
    by destruct (String.eqb k h).
  - cbn [append_to]. destruct (String.eqb k0 h) eqn:E.
    + apply String.eqb_eq in E. subst k0.
      cbn [List.find fst snd]. rewrite String.eqb_refl, (String.eqb_sym h k).
      destruct (String.eqb k h) eqn:Ek; [done|]. done.
    + cbn [List.find fst snd]. rewrite E.
      destruct (String.eqb k0 k) eqn:Ek.
      * apply String.eqb_eq in Ek. subst k0. by rewrite E.
      * exact IH.
Qed.

Lemma append_to_keys (h : string) (x : occurrence) (d : groups) :
  List.map fst (append_to h x d) =
  if existsb (String.eqb h) (List.map fst d) then List.map fst d
  else List.map fst d ++ [h].
Proof.
  induction d as [|[k l] d IH]; [done|].
  cbn [append_to List.map fst existsb]. rewrite (String.eqb_sym h k).
  destruct (String.eqb k h); [done|]. cbn [orb List.map fst]. rewrite IH.
  by destruct (existsb (String.eqb h) (List.map fst d)).
Qed.

Lemma append_to_NoDup (h : string) (x : occurrence) (d : groups) :
  List.NoDup (List.map fst d) -> List.NoDup (List.map fst (append_to h x d)).
Proof.
  intros Hnd. rewrite append_to_keys.
  destruct (existsb (String.eqb h) (List.map fst d)) eqn:E; [done|].
  apply NoDup_snoc; [done|]. intros Hin. apply mem_In in Hin.
  unfold PyStr.mem in Hin. congruence.
Qed.

Lemma append_to_keeps_keys (h : string) (x : occurrence) (d : groups) (k : string) :
  In k (List.map fst (append_to h x d)) <-> k = h \/ In k (List.map fst d).
Proof.
  rewrite append_to_keys.
  destruct (existsb (String.eqb h) (List.map fst d)) eqn:E.
  - split; [by right|]. intros [-> | H]; [|done].
    apply mem_In. exact E.
  - rewrite List.in_app_iff. cbn [In]. split.
    + intros [? | [<- | []]]; auto.
    + intros [-> | ?]; auto.
Qed.

Lemma with_hash_snoc (h : string) (functions : list func) (f : func) :
  with_hash h (functions ++ [f]) =
  with_hash h functions ++
  (if negb (skipped f) && String.eqb (InsightsFinding.or_empty (body_hash f)) h
   then [occurrence_of f] else []).
Proof.
  unfold with_hash. rewrite List.filter_app, List.map_app. cbn [List.filter].
  by destruct (negb (skipped f) && _).
Qed.

(** The dict after the first loop, for the functions read so far: every
    key once, under each key the module-level functions with that body hash
    in scan order, and no key without a function. *)
Lemma function_hashes_grouped (functions : list func) :
  let d := function_hashes functions in
  List.NoDup (List.map fst d) /\
  (forall h, lookup d h = with_hash h functions) /\
  (forall k, In k (List.map fst d) -> with_hash k functions <> []).
Proof.
  cbn zeta. unfold function_hashes.
  assert (forall rest read d,
            List.NoDup (List.map fst d) /\
            (forall h, lookup d h = with_hash h read) /\
            (forall k, In k (List.map fst d) -> with_hash k read <> []) ->
            let d' := fold_left
                        (fun d f =>
                           if skipped f then d
                           else append_to (InsightsFinding.or_empty (body_hash f))
                                          (occurrence_of f) d) rest d in
            List.NoDup (List.map fst d') /\
            (forall h, lookup d' h = with_hash h (read ++ rest)) /\
            (forall k, In k (List.map fst d') -> with_hash k (read ++ rest) <> []))
    as Hloop.
  { induction rest as [|f rest IH]; intros read d (Hnd & Hlook & Hkeys); cbn zeta.
    - rewrite app_nil_r. by cbn.
    - cbn [fold_left].
      replace (read ++ f :: rest) with ((read ++ [f]) ++ rest)
        by (by rewrite <- app_assoc).
      apply IH. destruct (skipped f) eqn:Hskip.
      + split; [done|]. split.
        * intros h. rewrite with_hash_snoc, Hskip. cbn [negb andb].
          by rewrite app_nil_r.
        * intros k Hk. rewrite with_hash_snoc, Hskip. cbn [negb andb].
          rewrite app_nil_r. by apply Hkeys.
      + split; [by apply append_to_NoDup|]. split.
        * intros h. rewrite lookup_append_to, with_hash_snoc, Hskip. cbn [negb andb].
          rewrite (String.eqb_sym h).
          destruct (String.eqb (InsightsFinding.or_empty (body_hash f)) h) eqn:E.
          -- apply String.eqb_eq in E. subst h. by rewrite Hlook.
          -- rewrite app_nil_r. apply Hlook.
        * intros k Hk. rewrite with_hash_snoc, Hskip. cbn [negb andb].
          apply append_to_keeps_keys in Hk as [-> | Hk].
          -- rewrite String.eqb_refl. by destruct (with_hash _ read).
          -- specialize (Hkeys k Hk). destruct (with_hash k read); [done|].
             by destruct (String.eqb _ _). }
  apply (Hloop functions [] []). split; [constructor|]. split; [done|].
  intros k [].
Qed.

Lemma lookup_entry (d : groups) (k : string) (l : list occurrence) :
  List.NoDup (List.map fst d) -> In (k, l) d -> lookup d k = l.
Proof.
  unfold lookup. induction d as [|[k0 l0] d IH]; [done|].
  cbn [List.map fst]. intros Hnd Hin.
  apply List.NoDup_cons_iff in Hnd as [Hk0 Hnd].
  cbn [List.find fst snd]. destruct Hin as [[= -> ->] | Hin].
  - by rewrite String.eqb_refl.
  - destruct (String.eqb_spec k0 k) as [-> | Hne]; [|by apply IH].
    exfalso. apply Hk0. apply List.in_map_iff. by exists (k, l).
Qed.

Lemma lookup_found (d : groups) (h : string) :
  lookup d h <> [] -> In (h, lookup d h) d.
Proof.
  unfold lookup.
  destruct (List.find _ d) as [[k l]|] eqn:E; [|done]. intros _.
  apply List.find_some in E as [Hin Hk]. cbn [fst snd] in *.
  apply String.eqb_eq in Hk. by subst k.
Qed.

Lemma reported_keys_NoDup (d : groups)
    (report : string * list occurrence -> list finding) :
  (forall g f, In f (report g) -> report g = [f] /\ f_body_hash f = g.1) ->
  List.NoDup (List.map fst d) ->
  List.NoDup (List.map f_body_hash (flat_map report d)).
Proof.
  intros Hrep. induction d as [|g d IH]; [constructor|].
  cbn [List.map flat_map]. intros Hnd.
  apply List.NoDup_cons_iff in Hnd as [Hg Hnd].
  rewrite List.map_app. apply List.NoDup_app; [|by apply IH|].
  - destruct (report g) as [|f fs] eqn:E; [constructor|].
    destruct (Hrep g f) as [Hone _]; [rewrite E; by left|].
    rewrite E in Hone. injection Hone as ->. repeat constructor. by intros [].
  - intros h Hh Hh'. apply Hg.
    apply List.in_map_iff in Hh as (f & <- & Hf).
    apply List.in_map_iff in Hh' as (f' & Heq & Hf').
    apply List.in_flat_map in Hf' as (g' & Hg' & Hf').
    destruct (Hrep g f Hf) as [_ Hk]. destruct (Hrep g' f' Hf') as [_ Hk'].
    apply List.in_map_iff. exists g'. split; [congruence | done].
Qed.

(** X19: Duplicate functions are grouped by body hash: a finding lists the
    module-level functions with its hash, all of them and in scan order,
    and there are at least two; methods and functions without a hash are in
    no group; no hash is reported twice; and every hash shared by two or
    more module-level functions is reported. *)
Theorem duplicate_function_groups (functions : list func) (h : string) :
  let found := _find_duplicate_functions functions [] in
  (forall f, In f found ->
     f_functions f = with_hash (f_body_hash f) functions /\
     f_count f = length (f_functions f) /\ 2 <= f_count f /\
     f_severity f = DuplicateAnalyzer.warning) /\
  List.NoDup (List.map f_body_hash found) /\
  (2 <= length (with_hash h functions) ->
   exists f, In f found /\ f_body_hash f = h).
Proof.
  cbn zeta. unfold _find_duplicate_functions. cbn [app].
  destruct (function_hashes_grouped functions) as (Hnd & Hlook & Hkeys).
  cbn zeta in *.
  split; [|split].
  - intros f Hf. apply List.in_flat_map in Hf as ([k l] & Hin & Hf).
    cbn [fst snd] in Hf. destruct (1 <? length l) eqn:Hlen; [|done].
    destruct Hf as [<- | []]. cbn [f_functions f_body_hash f_count f_severity].
    apply Nat.ltb_lt in Hlen.
    rewrite <- Hlook. by rewrite (lookup_entry _ _ _ Hnd Hin).
  - apply reported_keys_NoDup; [|done].
    intros [k l] f. cbn [fst snd]. destruct (1 <? length l); [|done].
    by intros [<- | []].
  - intros Hlen. rewrite <- Hlook in Hlen.
    assert (lookup (function_hashes functions) h <> []) as Hne
      by (destruct (lookup _ h); cbn in Hlen; [lia | done]).
    apply lookup_found in Hne.
    eexists. split.
    + apply List.in_flat_map. exists (h, lookup (function_hashes functions) h).
      split; [done|]. cbn [fst snd].
      assert ((1 <? length (lookup (function_hashes functions) h)) = true) as ->
        by (apply Nat.ltb_lt; lia).
      by left.
    + done.
Qed.

End FunctionGroups.

(** The two helpers with one body are reported; the method with the same
    body is not in the group. *)
Lemma duplicate_function_groups_example :
  exists f,
    In f (DuplicateFunctions._find_duplicate_functions
            DuplicateFunctions.example_functions []) /\
    DuplicateFunctions.f_body_hash f = "9f2c41aa03b1".
Proof.
  apply (duplicate_function_groups DuplicateFunctions.example_functions
           "9f2c41aa03b1").
  vm_compute. lia.
Defined.

(** ** What the fingerprint depends on *)

Section FingerprintKeys.

Import InsightsFinding FindingTable.

Variable sha256_hexdigest : string -> string.
Variable json_loads : string -> option (string -> option string).

(** X7: Two candidates without a fingerprint of their own get the same
    fingerprint as soon as they agree on severity, category, type and
    title and their details name the same file, model and XML id: the
    description, priority, effort and impact, and everything else in the
    details (a line number, say), do not enter the fingerprint. *)
Theorem fingerprint_of_location (v1 v2 : vals) :
  truthy (v_fingerprint v1) = false -> truthy (v_fingerprint v2) = false ->
  v_severity v1 = v_severity v2 -> v_category v1 = v_category v2 ->
  v_finding_type v1 = v_finding_type v2 -> v_title v1 = v_title v2 ->
  truthy (v_details_json v1) = truthy (v_details_json v2) ->
  located json_loads (v_details_json v1) = located json_loads (v_details_json v2) ->
  fingerprint_of sha256_hexdigest json_loads v1 =
  fingerprint_of sha256_hexdigest json_loads v2.
Proof.
  intros H1 H2 Hs Hc Ht Hti Hd Hloc.
  unfold InsightsFinding.fingerprint_of. rewrite H1, H2.
  unfold _generate_fingerprint. rewrite Hs, Hc, Ht, Hti, Hd.
  unfold located in Hloc. cbn zeta in Hloc. injection Hloc as -> -> ->.
  reflexivity.
Qed.

End FingerprintKeys.

(** The two warnings for 'legacy.py' share a fingerprint. *)
Lemma fingerprint_of_location_example :
  InsightsFinding.fingerprint_of (fun s => s) FindingTable.file_only
    FindingTable.first_warning =
  InsightsFinding.fingerprint_of (fun s => s) FindingTable.file_only
    FindingTable.second_warning.
Proof.
  apply (fingerprint_of_location (fun s => s) FindingTable.file_only
           FindingTable.first_warning FindingTable.second_warning);
    reflexivity.
Defined.

(** ** Examples for the table and the scans *)

Lemma triaged_table_well_formed :
  FindingTable.well_formed InsightsFinding.triaged_table.
Proof.
  unfold FindingTable.well_formed. cbn. repeat split.
  - repeat constructor. by intros [].
  - repeat constructor. by intros [].
  - intros r [<- | []]. cbn. lia.
Defined.

(** The resolved finding is seen again: no new row, and no second row with
    its fingerprint. *)
Lemma find_or_create_well_formed_example :
  length (InsightsFinding.rows
            (InsightsFinding.find_or_create (fun s => s) (fun _ => None)
               InsightsFinding.triaged_table 2000 8
               InsightsFinding.recurring_vals).1) = 1.
Proof.
  destruct (find_or_create_well_formed (fun s => s) (fun _ => None)
              InsightsFinding.triaged_table 2000 8 InsightsFinding.recurring_vals
              triaged_table_well_formed) as [_ H].
  exact H.
Defined.

(** A new warning is stored and found again under its fingerprint. *)
Lemma search_after_find_or_create_example :
  InsightsFinding.search
    (InsightsFinding.find_or_create (fun s => s) FindingTable.file_only
       InsightsFinding.triaged_table 2000 8 FindingTable.first_warning).1
    (InsightsFinding.fingerprint_of (fun s => s) FindingTable.file_only
       FindingTable.first_warning) =
  Some (InsightsFinding.find_or_create (fun s => s) FindingTable.file_only
          InsightsFinding.triaged_table 2000 8 FindingTable.first_warning).2.
Proof.
  apply (search_after_find_or_create (fun s => s) FindingTable.file_only
           InsightsFinding.triaged_table 2000 8 FindingTable.first_warning).
  exact triaged_table_well_formed.
Defined.

(** A scan that reports the same path twice leaves the resolved finding
    resolved. *)
Lemma create_findings_keeps_table_example :
  exists new,
    In new (InsightsFinding.rows
              (InsightsScan.findings
                 (InsightsScan._create_findings (fun s => s) (fun _ => None)
                    Py.file 2000 8
                    [InsightsScan.repeated_path_issue;
                     InsightsScan.repeated_path_issue] [] []
                    InsightsFinding.triaged_table))) /\
    FindingTable.kept InsightsFinding.resolved_finding new.
Proof.
  apply (create_findings_keeps_table (fun s => s) (fun _ => None) Py.file 2000 8
           [InsightsScan.repeated_path_issue; InsightsScan.repeated_path_issue]
           [] [] InsightsFinding.triaged_table InsightsFinding.resolved_finding).
  - exact triaged_table_well_formed.
  - left. reflexivity.
Defined.

(** One hardcoded path and nothing else: the only recommendation is the
    critical one. *)
Lemma recommendations_by_priority_example :
  exists first rest,
    EcosystemReport._generate_recommendations
      (EcosystemAnalyzer.single_hardcoded_path EcosystemAnalyzer.hardcoded_js_path)
      EcosystemReport.no_pattern_findings = first :: rest /\
    EcosystemReport.rec_priority first = EcosystemReport.critical.
Proof.
  apply (recommendations_by_priority
           (EcosystemAnalyzer.single_hardcoded_path EcosystemAnalyzer.hardcoded_js_path)
           EcosystemReport.no_pattern_findings).
  right. discriminate.
Defined.

(** The failed scan, run again with an analysis that succeeds. *)
Lemma run_ends_completed_or_failed_example :
  InsightsScan.state_
    (InsightsScan.after
       (InsightsScan.action_run_scan InsightsScan.no_settings InsightsScan.succeeding
          InsightsScan.failed_scan)) = InsightsScan.completed.
Proof.
  apply (run_ends_completed_or_failed InsightsScan.no_settings
           InsightsScan.succeeding InsightsScan.failed_scan).
  reflexivity.
Defined.

(** The model of [partner.py] in the example tree. *)
Lemma scan_results_provenance_example :
  exists p v,
    In p [PythonScanner.models_py; PythonScanner.broken_py; PythonScanner.base_py] /\
    PythonScanner.selected PythonScanner.addons ["ai_sam"] p = true /\
    PythonScanner.example_parse p = PythonScanner.Visited v /\
    "ai_sam/models/partner.py" = PythonScanner.rel_str p.
Proof.
  destruct (scan_results_provenance PythonScanner.addons ["ai_sam"]
              PythonScanner.example_parse
              [PythonScanner.models_py; PythonScanner.broken_py;
               PythonScanner.base_py]) as [H _].
  destruct (H (PythonScanner.with_model_path "ai_sam/models/partner.py"
                 PythonScanner.partner_model))
    as (p & v & Hp & Hs & Hv & Hr & _).
  - vm_compute. left. reflexivity.
  - exists p, v. repeat split; done.
Defined.

(** [partner.py] under the filter ['ai_sam']. *)
Lemma should_scan_within_python_scan_example :
  PythonScanner.selected PythonScanner.addons ["ai_sam"] PythonScanner.models_py
    = true.
Proof.
  apply (should_scan_within_python_scan PythonScanner.addons ["ai_sam"]
           PythonScanner.models_py 0).
  vm_compute. reflexivity.
Defined.

(** Line 2 of three lines carries a DEPRECATED marker. *)
Lemma deletion_markers_reported_example :
  exists f,
    In f (CommentedCodeAnalyzer._find_deletion_markers
            CommentedCodeAnalyzer.marker_and_exclusion PyStr.strip
            ["import os"; "# DEPRECATED: use tools.slug"; "x = 1"] "a.py" "a.py" "#") /\
    CommentedCodeAnalyzer.line_start f = Some 2.
Proof.
  destruct (deletion_markers_reported CommentedCodeAnalyzer.marker_and_exclusion
              PyStr.strip
              ["import os"; "# DEPRECATED: use tools.slug"; "x = 1"] "a.py" "a.py"
              "#" 2) as ((_ & Hreported) & _).
  apply Hreported. exists "# DEPRECATED: use tools.slug".
  split; [lia|]. split; [reflexivity|].
  split; [vm_compute; reflexivity|]. split; vm_compute; reflexivity.
Defined.

